(** * TRISA Global Directory Service: the registration API and the
      certificate request pipeline.

    A shallow embedding of [pkg/gds/gds.go] (Register, Lookup, VerifyContact,
    validateEndpoint, ValidateCommonName), of the parts of the Go standard
    library these functions call, and of the collaborators the handlers drive
    (directory store, secret vault, email courier, certificate manager). *)

From Stdlib Require Import ZArith Ascii String List Bool Lia.
From stdpp Require Import gmap strings list fin_maps.

Local Open Scope string_scope.

(** ** Go strings

    A Go string is a sequence of bytes; [s[i:j]], [len] and byte search are
    the operations the handlers use. *)
Module GoString.

(** [s[i:]] *)
Fixpoint drop (i : nat) (s : string) : string :=
  match i, s with
  | O, _ => s
  | S _, EmptyString => EmptyString
  | S i', String _ s' => drop i' s'
  end.

(** [s[:i]] *)
Fixpoint take (i : nat) (s : string) : string :=
  match i, s with
  | O, _ => EmptyString
  | S _, EmptyString => EmptyString
  | S i', String c s' => String c (take i' s')
  end.

(** [s[i:j]] *)
Definition slice (i j : nat) (s : string) : string := take (j - i) (drop i s).

(** [bytealg.IndexByteString]: position of the first [c], if any. *)
Fixpoint IndexByteString (s : string) (c : ascii) : option nat :=
  match s with
  | EmptyString => None
  | String d s' =>
      if Ascii.eqb d c then Some O
      else match IndexByteString s' c with
           | Some i => Some (S i)
           | None => None
           end
  end.

(** [net.last]: position of the last [c], if any. *)
Fixpoint last (s : string) (c : ascii) : option nat :=
  match s with
  | EmptyString => None
  | String d s' =>
      match last s' c with
      | Some i => Some (S i)
      | None => if Ascii.eqb d c then Some O else None
      end
  end.

(** [strings.HasPrefix] *)
Definition HasPrefix (s p : string) : bool := String.prefix p s.

Definition is_empty (s : string) : bool :=
  match s with EmptyString => true | _ => false end.

End GoString.

(** ** [net.SplitHostPort] (Go standard library) *)
Module Net.
Import GoString.

Inductive AddrError : Type :=
| missingPort
| tooManyColons
| missingBracket
| unexpectedOpen
| unexpectedClose.

Definition contains (s : string) (c : ascii) : bool :=
  match IndexByteString s c with Some _ => true | None => false end.

(** The body after the host has been cut out: [j] and [k] are the offsets
    from which a stray '[' or ']' is searched, [i] the last colon. *)
Definition finish (hostport host : string) (i j k : nat)
  : AddrError + (string * string) :=
  if contains (drop j hostport) "["%char then inl unexpectedOpen
  else if contains (drop k hostport) "]"%char then inl unexpectedClose
  else inr (host, drop (S i) hostport).

Definition SplitHostPort (hostport : string) : AddrError + (string * string) :=
  match last hostport ":"%char with
  | None => inl missingPort
  | Some i =>
      match hostport with
      | String "["%char _ =>
          match IndexByteString hostport "]"%char with
          | None => inl missingBracket
          | Some e =>
              if Nat.eqb (S e) (String.length hostport) then inl missingPort
              else if Nat.eqb (S e) i then
                finish hostport (slice 1 e hostport) i 1 (S e)
              else if contains (take 1 (drop (S e) hostport)) ":"%char
                   then inl tooManyColons
                   else inl missingPort
          end
      | _ =>
          let host := take i hostport in
          if contains host ":"%char then inl tooManyColons
          else finish hostport host i 0 0
      end
  end.

End Net.

(** ** [strconv.Atoi] (Go standard library, 64-bit [int]) *)
Module Strconv.
Import GoString.
Local Open Scope Z_scope.

Inductive NumError : Type := ErrSyntax | ErrRange.

Definition intSize : Z := 64.
Definition maxUint64 : Z := 2 ^ 64 - 1.

Definition byte_of (c : ascii) : Z := Z.of_nat (nat_of_ascii c).

Definition is_digit (c : ascii) : bool :=
  (48 <=? byte_of c) && (byte_of c <=? 57).

(** The digit loop of the fast path: no overflow test, the caller has
    bounded the length. *)
Fixpoint fast_digits (s : string) (n : Z) : option Z :=
  match s with
  | EmptyString => Some n
  | String ch s' =>
      (* ch -= '0'; if ch > 9 (as an unsigned byte) *)
      let d := (byte_of ch - 48) mod 256 in
      if 9 <? d then None else fast_digits s' (n * 10 + d)
  end.

(** The digit loop of [ParseUint s 10 64]. *)
Fixpoint ParseUint_loop (s : string) (n : Z) : NumError + Z :=
  match s with
  | EmptyString => inr n
  | String c s' =>
      if negb (is_digit c) then
        (* letters are digits >= base, everything else is no digit *)
        inl ErrSyntax
      else
        let d := byte_of c - 48 in
        let cutoff := maxUint64 / 10 + 1 in
        if cutoff <=? n then inl ErrRange
        else
          let n10 := n * 10 in
          let n1 := (n10 + d) mod 2 ^ 64 in
          if (n1 <? n10) || (maxUint64 <? n1) then inl ErrRange
          else ParseUint_loop s' n1
  end.

Definition ParseUint (s : string) : NumError + Z :=
  match s with
  | EmptyString => inl ErrSyntax
  | _ => ParseUint_loop s 0
  end.

(** [ParseInt s 10 0] *)
Definition ParseInt (s : string) : NumError + Z :=
  match s with
  | EmptyString => inl ErrSyntax
  | String c s' =>
      let neg := Ascii.eqb c "-"%char in
      let digits := if Ascii.eqb c "+"%char || neg then s' else s in
      match ParseUint digits with
      | inl ErrSyntax => inl ErrSyntax
      | inl ErrRange => inl ErrRange
      | inr un =>
          let cutoff := 2 ^ (intSize - 1) in
          if negb neg && (cutoff <=? un) then inl ErrRange
          else if neg && (cutoff <? un) then inl ErrRange
          else inr (if neg then - un else un)
      end
  end.

Definition Atoi (s : string) : NumError + Z :=
  let sLen := String.length s in
  if (Nat.ltb 0 sLen && Nat.ltb sLen 19)%bool then
    match s with
    | EmptyString => inl ErrSyntax
    | String c s' =>
        let signed := Ascii.eqb c "-"%char || Ascii.eqb c "+"%char in
        let digits := if signed then s' else s in
        if signed && is_empty digits then inl ErrSyntax
        else match fast_digits digits 0 with
             | None => inl ErrSyntax
             | Some n => inr (if Ascii.eqb c "-"%char then - n else n)
             end
    end
  else ParseInt s.

End Strconv.

(** ** Regular expressions (the fragment of Go's [regexp] that [cnre] uses)

    Character classes, concatenation, alternation, [*] and bounded
    repetition [{0,n}]. A pattern written [^r$] matches a string exactly when
    the whole string is in the language of [r]; matching is by Brzozowski
    derivatives. *)
Module Regexp.

Inductive re : Type :=
| Fail                                   (* matches nothing *)
| Eps                                    (* matches the empty string *)
| Class (ranges : list (ascii * ascii))  (* [a-zA-Z0-9] and the like *)
| Cat (r1 r2 : re)
| Alt (r1 r2 : re)
| Star (r : re).

(** [r{0,n}] *)
Fixpoint upto (n : nat) (r : re) : re :=
  match n with
  | O => Eps
  | S n' => Alt Eps (Cat r (upto n' r))
  end.

Definition in_range (c : ascii) (lohi : ascii * ascii) : bool :=
  (nat_of_ascii (fst lohi) <=? nat_of_ascii c)%nat
  && (nat_of_ascii c <=? nat_of_ascii (snd lohi))%nat.

Definition in_class (c : ascii) (ranges : list (ascii * ascii)) : bool :=
  existsb (in_range c) ranges.

Fixpoint nullable (r : re) : bool :=
  match r with
  | Fail => false
  | Eps => true
  | Class _ => false
  | Cat r1 r2 => nullable r1 && nullable r2
  | Alt r1 r2 => nullable r1 || nullable r2
  | Star _ => true
  end.

Definition cat (r1 r2 : re) : re :=
  match r1, r2 with
  | Fail, _ => Fail
  | _, Fail => Fail
  | Eps, _ => r2
  | _, _ => Cat r1 r2
  end.

Definition alt (r1 r2 : re) : re :=
  match r1, r2 with
  | Fail, _ => r2
  | _, Fail => r1
  | _, _ => Alt r1 r2
  end.

Fixpoint deriv (c : ascii) (r : re) : re :=
  match r with
  | Fail => Fail
  | Eps => Fail
  | Class ranges => if in_class c ranges then Eps else Fail
  | Cat r1 r2 =>
      if nullable r1 then alt (cat (deriv c r1) r2) (deriv c r2)
      else cat (deriv c r1) r2
  | Alt r1 r2 => alt (deriv c r1) (deriv c r2)
  | Star r1 => cat (deriv c r1) (Star r1)
  end.

(** [regexp.MatchString] for a pattern anchored at both ends. *)
Fixpoint MatchString (r : re) (s : string) : bool :=
  match s with
  | EmptyString => nullable r
  | String c s' => MatchString (deriv c r) s'
  end.

End Regexp.

(** ** Helper functions of [gds.go] *)

(** [validateEndpoint]: [None] is Go's [nil] error, [Some msg] is
    [errors.New msg]. *)
Definition validateEndpoint (endpoint : string) : option string :=
  match Net.SplitHostPort endpoint with
  | inl _ => Some "unable to parse endpoint string"
  | inr (host, port) =>
      if GoString.is_empty host then Some "missing host in endpoint string"
      else if GoString.is_empty port then Some "missing port in endpoint string"
      else match Strconv.Atoi port with
           | inl _ => Some "endpoint port is not an integer"
           | inr _ => None
           end
  end.

Definition alnum : Regexp.re :=
  Regexp.Class [("a", "z"); ("A", "Z"); ("0", "9")]%char.

Definition alnum_dash : Regexp.re :=
  Regexp.Class [("a", "z"); ("A", "Z"); ("0", "9"); ("-", "-")]%char.

(** One label: [[a-zA-Z0-9]|[a-zA-Z0-9][a-zA-Z0-9\-]{0,61}[a-zA-Z0-9]] *)
Definition cn_label : Regexp.re :=
  Regexp.Alt alnum
    (Regexp.Cat alnum (Regexp.Cat (Regexp.upto 61 alnum_dash) alnum)).

(** [cnre]: [^(label)(\.(label))*$] *)
Definition cnre : Regexp.re :=
  Regexp.Cat cn_label
    (Regexp.Star (Regexp.Cat (Regexp.Class [(".", ".")]%char) cn_label)).

Definition ValidateCommonName (name : string) : option string :=
  if GoString.is_empty name then Some "common name should not be empty"
  else if GoString.HasPrefix name "*" then
    Some "wildcards are not allowed in TRISA common names"
  else if negb (Regexp.MatchString cnre name) then
    Some "common name does not match domain name regular expression"
  else None.

(** ** Data model

    The protocol buffer messages of the TRISA models ([pb]), the directory's
    own models ([models]) and the RPC messages ([api]), restricted to the
    fields the handlers read or write. A Go pointer that may be [nil] is an
    [option]. The extra-data side tables (audit log, admin token, certificate
    request ids, per-contact token, verified flag and send-log) are fields. *)

(** [pb.VerificationState], in the order of the protocol buffer enum: the
    handlers compare states with [<] and [>]. *)
Inductive VerificationState : Type :=
| NO_VERIFICATION
| SUBMITTED
| EMAIL_VERIFIED
| PENDING_REVIEW
| REVIEWED
| ISSUING_CERTIFICATE
| VERIFIED
| REJECTED
| APPEALED
| ERRORED.

Definition state_number (s : VerificationState) : nat :=
  match s with
  | NO_VERIFICATION => 0
  | SUBMITTED => 1
  | EMAIL_VERIFIED => 2
  | PENDING_REVIEW => 3
  | REVIEWED => 4
  | ISSUING_CERTIFICATE => 5
  | VERIFIED => 6
  | REJECTED => 7
  | APPEALED => 8
  | ERRORED => 9
  end.

#[global] Instance VerificationState_eq_dec : EqDecision VerificationState.
Proof. solve_decision. Defined.

(** Modelled from the spec: [models.CertificateRequestState] is missing from
    the sources; the states of the certificate request state machine, in the
    order of the pipeline, then the two terminal error states. *)
Inductive CertificateRequestState : Type :=
| INITIALIZED
| READY_TO_SUBMIT
| PROCESSING
| DOWNLOADING
| DOWNLOADED
| COMPLETED
| CR_REJECTED
| CR_ERRORED.

#[global] Instance CertificateRequestState_eq_dec : EqDecision CertificateRequestState.
Proof. solve_decision. Defined.

(** The four contact slots of [pb.Contacts]. *)
Inductive ContactKind : Type := legal | administrative | technical | billing.

#[global] Instance ContactKind_eq_dec : EqDecision ContactKind.
Proof. solve_decision. Defined.

(** Modelled from the spec: one line of a contact's send-log (timestamp,
    template, recipient). *)
Module EmailLogEntry.
Record t : Type := mk {
  Timestamp : nat;
  Reason : string;
  Recipient : string
}.
End EmailLogEntry.

(** Modelled from the spec: one line of an audit log (previous, current,
    source, reason, timestamp); [St] is the state alphabet of the record the
    log belongs to. *)
Module AuditLogEntry.
Record t (St : Type) : Type := mk {
  Timestamp : nat;
  PreviousState : St;
  CurrentState : St;
  Description : string;
  Source : string
}.
Arguments mk {St}.
Arguments Timestamp {St}.
Arguments PreviousState {St}.
Arguments CurrentState {St}.
Arguments Description {St}.
Arguments Source {St}.
End AuditLogEntry.

Module Contact.
Record t : Type := mk {
  Name : string;
  Email : string;
  Phone : string;
  (* extra data *)
  Token : string;
  Verified : bool;
  EmailLog : list EmailLogEntry.t
}.

(** [pb.Contact.IsZero]: all fields of the payload are empty. *)
Definition IsZero (c : t) : bool :=
  GoString.is_empty (Name c) && GoString.is_empty (Email c)
  && GoString.is_empty (Phone c).

Definition with_verification (token : string) (verified : bool) (c : t) : t :=
  mk (Name c) (Email c) (Phone c) token verified (EmailLog c).

Definition with_log (entries : list EmailLogEntry.t) (c : t) : t :=
  mk (Name c) (Email c) (Phone c) (Token c) (Verified c)
     (EmailLog c ++ entries)%list.
End Contact.

Module Contacts.
Record t : Type := mk {
  Technical : option Contact.t;
  Administrative : option Contact.t;
  Legal : option Contact.t;
  Billing : option Contact.t
}.

Definition get (k : ContactKind) (cs : t) : option Contact.t :=
  match k with
  | legal => Legal cs
  | administrative => Administrative cs
  | technical => Technical cs
  | billing => Billing cs
  end.

Definition set (k : ContactKind) (c : option Contact.t) (cs : t) : t :=
  match k with
  | legal => mk (Technical cs) (Administrative cs) c (Billing cs)
  | administrative => mk (Technical cs) c (Legal cs) (Billing cs)
  | technical => mk c (Administrative cs) (Legal cs) (Billing cs)
  | billing => mk (Technical cs) (Administrative cs) (Legal cs) c
  end.
End Contacts.

(** [ivms101.LegalPerson], as far as Lookup reads it. *)
Module LegalPerson.
Record t : Type := mk {
  Name : string;
  CountryOfRegistration : string
}.
End LegalPerson.

Module VASP.
Record t : Type := mk {
  Id : string;
  RegisteredDirectory : string;
  Entity : option LegalPerson.t;
  Contacts : option Contacts.t;
  IdentityCertificate : option string;
  SigningCertificates : list string;
  CommonName : string;
  Website : string;
  TrisaEndpoint : string;
  BusinessCategory : nat;
  VaspCategories : list string;
  EstablishedOn : string;
  Trixo : option string;
  VerificationStatus : VerificationState;
  VerifiedOn : string;
  Version : nat;
  (* extra data *)
  AuditLog : list (AuditLogEntry.t VerificationState);
  AdminVerificationToken : string;
  CertificateRequests : list string
}.

Definition with_Id (x : string) (v : t) : t :=
  mk x (RegisteredDirectory v) (Entity v) (Contacts v)
     (IdentityCertificate v) (SigningCertificates v) (CommonName v)
     (Website v) (TrisaEndpoint v) (BusinessCategory v) (VaspCategories v)
     (EstablishedOn v) (Trixo v) (VerificationStatus v) (VerifiedOn v)
     (Version v) (AuditLog v) (AdminVerificationToken v)
     (CertificateRequests v).

Definition with_CommonName (x : string) (v : t) : t :=
  mk (Id v) (RegisteredDirectory v) (Entity v) (Contacts v)
     (IdentityCertificate v) (SigningCertificates v) x
     (Website v) (TrisaEndpoint v) (BusinessCategory v) (VaspCategories v)
     (EstablishedOn v) (Trixo v) (VerificationStatus v) (VerifiedOn v)
     (Version v) (AuditLog v) (AdminVerificationToken v)
     (CertificateRequests v).

Definition with_Contacts (x : option Contacts.t) (v : t) : t :=
  mk (Id v) (RegisteredDirectory v) (Entity v) x
     (IdentityCertificate v) (SigningCertificates v) (CommonName v)
     (Website v) (TrisaEndpoint v) (BusinessCategory v) (VaspCategories v)
     (EstablishedOn v) (Trixo v) (VerificationStatus v) (VerifiedOn v)
     (Version v) (AuditLog v) (AdminVerificationToken v)
     (CertificateRequests v).

Definition with_status (s : VerificationState)
    (log : list (AuditLogEntry.t VerificationState)) (v : t) : t :=
  mk (Id v) (RegisteredDirectory v) (Entity v) (Contacts v)
     (IdentityCertificate v) (SigningCertificates v) (CommonName v)
     (Website v) (TrisaEndpoint v) (BusinessCategory v) (VaspCategories v)
     (EstablishedOn v) (Trixo v) s (VerifiedOn v)
     (Version v) log (AdminVerificationToken v)
     (CertificateRequests v).

Definition with_AdminVerificationToken (x : string) (v : t) : t :=
  mk (Id v) (RegisteredDirectory v) (Entity v) (Contacts v)
     (IdentityCertificate v) (SigningCertificates v) (CommonName v)
     (Website v) (TrisaEndpoint v) (BusinessCategory v) (VaspCategories v)
     (EstablishedOn v) (Trixo v) (VerificationStatus v) (VerifiedOn v)
     (Version v) (AuditLog v) x
     (CertificateRequests v).

Definition with_CertificateRequests (x : list string) (v : t) : t :=
  mk (Id v) (RegisteredDirectory v) (Entity v) (Contacts v)
     (IdentityCertificate v) (SigningCertificates v) (CommonName v)
     (Website v) (TrisaEndpoint v) (BusinessCategory v) (VaspCategories v)
     (EstablishedOn v) (Trixo v) (VerificationStatus v) (VerifiedOn v)
     (Version v) (AuditLog v) (AdminVerificationToken v) x.

(** The contact in slot [k], when the VASP has contacts and the slot is
    filled. *)
Definition contact (k : ContactKind) (v : t) : option Contact.t :=
  match Contacts v with
  | Some cs => Contacts.get k cs
  | None => None
  end.

Definition set_contact (k : ContactKind) (c : option Contact.t) (v : t) : t :=
  match Contacts v with
  | Some cs => with_Contacts (Some (Contacts.set k c cs)) v
  | None => v
  end.
End VASP.

(** Modelled from the spec: [models.CertificateRequest] is missing from the
    sources. *)
Module CertificateRequest.
Record t : Type := mk {
  Id : string;
  Vasp : string;
  CommonName : string;
  Status : CertificateRequestState;
  AuthorityId : nat;
  BatchId : nat;
  BatchName : string;
  BatchStatus : string;
  OrderNumber : nat;
  CreationDate : string;
  Profile : string;
  Params : list (string * string);
  RejectReason : string;
  Certificate : string;
  AuditLog : list (AuditLogEntry.t CertificateRequestState)
}.

Definition with_status (s : CertificateRequestState)
    (log : list (AuditLogEntry.t CertificateRequestState)) (r : t) : t :=
  mk (Id r) (Vasp r) (CommonName r) s (AuthorityId r) (BatchId r)
     (BatchName r) (BatchStatus r) (OrderNumber r) (CreationDate r)
     (Profile r) (Params r) (RejectReason r) (Certificate r) log.
End CertificateRequest.

(** The RPC messages of the registration surface. *)
Module RegisterRequest.
Record t : Type := mk {
  Entity : option LegalPerson.t;
  Contacts : option Contacts.t;
  TrisaEndpoint : string;
  CommonName : string;
  Website : string;
  BusinessCategory : nat;
  VaspCategories : list string;
  EstablishedOn : string;
  Trixo : option string
}.
End RegisterRequest.

Module RegisterReply.
Record t : Type := mk {
  Id : string;
  RegisteredDirectory : string;
  CommonName : string;
  Status : VerificationState;
  Message : string;
  Pkcs12Password : string
}.
End RegisterReply.

Module LookupRequest.
Record t : Type := mk {
  Id : string;
  RegisteredDirectory : string;
  CommonName : string
}.
End LookupRequest.

Module LookupReply.
Record t : Type := mk {
  Id : string;
  RegisteredDirectory : string;
  CommonName : string;
  Endpoint : string;
  IdentityCertificate : option string;
  SigningCertificate : option string;
  Name : string;
  Country : string;
  VerifiedOn : string
}.
End LookupReply.

Module VerifyContactRequest.
Record t : Type := mk {
  Id : string;
  Token : string
}.
End VerifyContactRequest.

Module VerifyContactReply.
Record t : Type := mk {
  Status : VerificationState;
  Message : string
}.
End VerifyContactReply.

(** ** The world the handlers run in

    The handlers talk to a directory store, a secret vault, an email courier,
    a clock and a source of randomness. Their state is one record that every
    operation threads; what the outside decides (which call fails, what the
    TRISA validation says, which bytes the random source yields) is an
    environment that the theorems quantify over. *)

(** gRPC status codes returned by the handlers. *)
Inductive Code : Type :=
| InvalidArgument
| NotFound
| AlreadyExists
| FailedPrecondition
| Aborted
| Internal.

(** The outcome of a handler: a reply, a gRPC error, or a Go panic (a [nil]
    pointer dereference). *)
Inductive Result (A : Type) : Type :=
| Ok (a : A)
| Error (c : Code) (msg : string)
| Panic.
Arguments Ok {A}.
Arguments Error {A}.
Arguments Panic {A}.

(** Every call of a handler that can return a Go [error]. *)
Inductive Site : Type :=
(* Register *)
| RegUpdateVerificationStatus
| RegCreateVASP
| RegSetContactVerification (k : ContactKind)
| RegUpdateVASPTokens
| RegUpdateVASPEmailLog
| RegNewCertificateRequest
| RegUpdateCertificateRequestStatus
| RegCreateSecret
| RegAddSecretVersion
| RegUpdateCertReq
| RegAppendCertReqID
| RegUpdateVASPCertReq
(* Lookup *)
| LookupRetrieveVASP
| LookupSearchVASPs
(* VerifyContact *)
| VerifyRetrieveVASP
| VerifyGetContactVerification (k : ContactKind)
| VerifySetContactVerification (k : ContactKind)
| VerifyAuditContact (k : ContactKind)
| VerifyUpdateVASPContact
| VerifyStatusEmailVerified
| VerifySetAdminVerificationToken
| VerifyUpdateVASPAdminToken
| VerifyStatusPendingReview
| VerifyUpdateVASPPendingReview.

(** What [pb.VASP.Validate] of the TRISA library answers. *)
Inductive ValidateResult : Type :=
| Valid
| ErrCompleteNationalIdentifierLegalPerson
| Invalid (msg : string).

Inductive Template : Type :=
| VerifyContactEmail
| ReviewRequestEmail
| RejectRegistrationEmail
| DeliverCertsEmail.

#[global] Instance Template_eq_dec : EqDecision Template.
Proof. solve_decision. Defined.

(** What one call of the courier did: how many messages went out, whether it
    reports an error, and the lines it adds to each contact's send-log. *)
Record CourierOutcome : Type := mkOutcome {
  sent : nat;
  failed : bool;
  appended : ContactKind -> list EmailLogEntry.t
}.

(** One call of the courier, as the outbox remembers it. *)
Record Mail : Type := mkMail {
  mail_template : Template;
  mail_vasp : string;
  mail_sent : nat;
  mail_failed : bool
}.

Record Env : Type := mkEnv {
  DirectoryID : string;                        (* svc.conf.DirectoryID *)
  fault : Site -> bool;                        (* the call at this site fails *)
  Validate : VASP.t -> ValidateResult;         (* vasp.Validate(true) *)
  random : nat -> nat;                         (* the random source *)
  uuid : nat -> string;                        (* identifiers drawn from it *)
  indexed : string -> VASP.t -> list string;   (* the store's search indices *)
  courier : Template -> VASP.t -> CourierOutcome
}.

Record World : Type := mkWorld {
  vasps : gmap string VASP.t;
  certreqs : gmap string CertificateRequest.t;
  vault : gmap (string * string) (list string);
  outbox : list Mail;
  entropy : nat;     (* how much of the random source has been used *)
  clock : nat
}.

Definition with_vasps (m : gmap string VASP.t) (w : World) : World :=
  mkWorld m (certreqs w) (vault w) (outbox w) (entropy w) (clock w).
Definition with_certreqs (m : gmap string CertificateRequest.t) (w : World) : World :=
  mkWorld (vasps w) m (vault w) (outbox w) (entropy w) (clock w).
Definition with_vault (m : gmap (string * string) (list string)) (w : World) : World :=
  mkWorld (vasps w) (certreqs w) m (outbox w) (entropy w) (clock w).
Definition with_outbox (m : list Mail) (w : World) : World :=
  mkWorld (vasps w) (certreqs w) (vault w) m (entropy w) (clock w).
Definition with_entropy (n : nat) (w : World) : World :=
  mkWorld (vasps w) (certreqs w) (vault w) (outbox w) n (clock w).
Definition with_clock (n : nat) (w : World) : World :=
  mkWorld (vasps w) (certreqs w) (vault w) (outbox w) (entropy w) n.

(** *** The handler monad: state, gRPC errors and panics *)

Definition M (A : Type) : Type := World -> Result A * World.

(** A collaborator call: [None] is a Go [error]. *)
Definition Op (A : Type) : Type := World -> option A * World.

Definition ret {A} (a : A) : M A := fun w => (Ok a, w).

Definition bind {A B} (m : M A) (k : A -> M B) : M B :=
  fun w =>
    match m w with
    | (Ok a, w') => k a w'
    | (Error c msg, w') => (Error c msg, w')
    | (Panic, w') => (Panic, w')
    end.

(** [return nil, status.Error(c, msg)] *)
Definition throw {A} (c : Code) (msg : string) : M A :=
  fun w => (Error c msg, w).

Definition panic {A} : M A := fun w => (Panic, w).

(** [if x, err = op; err != nil { return nil, status.Error(c, msg) }] *)
Definition try {A} (op : Op A) (c : Code) (msg : string) : M A :=
  fun w =>
    match op w with
    | (Some a, w') => (Ok a, w')
    | (None, w') => (Error c msg, w')
    end.

(** A call that cannot fail. *)
Definition lift {A} (f : World -> A * World) : M A :=
  fun w => let '(a, w') := f w in (Ok a, w').

Declare Scope handler_scope.
Delimit Scope handler_scope with handler.
Notation "x <- m ;; k" := (bind m (fun x => k))
  (at level 100, m at next level, right associativity) : handler_scope.

Local Open Scope handler_scope.

(** ** Collaborators of the handlers *)

(** Modelled from the spec: [secrets.CreateToken] is missing from the
    sources; it yields [n] random bytes, ASCII-encoded. The characters are
    drawn from the alphanumeric alphabet by the random source. *)
Definition token_alphabet : string :=
  "0123456789abcdefghijklmnopqrstuvwxyzABCDEFGHIJKLMNOPQRSTUVWXYZ".

Definition token_char (r : nat) : ascii :=
  match String.get (r mod 62) token_alphabet with
  | Some c => c
  | None => "0"%char
  end.

Fixpoint token_from (rnd : nat -> nat) (pos n : nat) : string :=
  match n with
  | O => EmptyString
  | S n' => String (token_char (rnd pos)) (token_from rnd (S pos) n')
  end.

(** Modelled from the spec: [models.NewContactIterator] is missing from the
    sources. It walks the non-nil contacts in the fixed order legal,
    administrative, technical, billing; [skipNoEmail] leaves out contacts
    without an email address and [skipDuplicates] those whose address an
    earlier contact already had. The slots it visits are returned; the loop
    bodies read the contact of each slot from the VASP they mutate. *)
Definition contactOrder : list ContactKind :=
  [legal; administrative; technical; billing].

Fixpoint iterate_contacts (cs : Contacts.t) (skipNoEmail skipDuplicates : bool)
    (seen : list string) (kinds : list ContactKind) : list ContactKind :=
  match kinds with
  | [] => []
  | k :: rest =>
      match Contacts.get k cs with
      | None => iterate_contacts cs skipNoEmail skipDuplicates seen rest
      | Some c =>
          if skipNoEmail && GoString.is_empty (Contact.Email c) then
            iterate_contacts cs skipNoEmail skipDuplicates seen rest
          else if skipDuplicates
                  && existsb (String.eqb (Contact.Email c)) seen then
            iterate_contacts cs skipNoEmail skipDuplicates seen rest
          else
            k :: iterate_contacts cs skipNoEmail skipDuplicates
                   (Contact.Email c :: seen) rest
      end
  end.

Definition NewContactIterator (cs : option Contacts.t)
    (skipNoEmail skipDuplicates : bool) : list ContactKind :=
  match cs with
  | None => []
  | Some cs => iterate_contacts cs skipNoEmail skipDuplicates [] contactOrder
  end.

(** The audit entry a status change writes. *)
Definition audit {St} (now : nat) (previous current : St)
    (description source : string) : AuditLogEntry.t St :=
  AuditLogEntry.mk now previous current description source.

Section Collaborators.

Variable env : Env.

Definition CreateToken (n : nat) : M string :=
  lift (fun w => (token_from (random env) (entropy w) n,
                  with_entropy (entropy w + n) w)).

(** *** Directory store

    Modelled from the spec: the store is missing from the sources. Typed
    reads and single-record writes over a keyed table; [CreateVASP] assigns
    the identifier and refuses a common name that is taken; [SearchVASPs]
    returns the records whose indexed values meet every key of the
    query. *)

Definition common_name_taken (m : gmap string VASP.t) (cn : string) : bool :=
  existsb (fun kv => String.eqb (VASP.CommonName (snd kv)) cn) (map_to_list m).

Definition CreateVASP (s : Site) (v : VASP.t) : Op string :=
  fun w =>
    if fault env s then (None, w)
    else if common_name_taken (vasps w) (VASP.CommonName v) then (None, w)
    else
      let id := uuid env (entropy w) in
      (Some id,
       with_entropy (S (entropy w))
         (with_vasps (<[id := VASP.with_Id id v]> (vasps w)) w)).

Definition RetrieveVASP (s : Site) (id : string) : Op VASP.t :=
  fun w => if fault env s then (None, w) else (vasps w !! id, w).

Definition UpdateVASP (s : Site) (v : VASP.t) : Op unit :=
  fun w =>
    if fault env s then (None, w)
    else (Some tt, with_vasps (<[VASP.Id v := v]> (vasps w)) w).

Definition UpdateCertReq (s : Site) (r : CertificateRequest.t) : Op unit :=
  fun w =>
    if fault env s then (None, w)
    else (Some tt,
          with_certreqs (<[CertificateRequest.Id r := r]> (certreqs w)) w).

(** A record meets one key of the query when one of its indexed values is
    among the candidates. *)
Definition meets (v : VASP.t) (key : string * list string) : bool :=
  existsb (fun x => existsb (String.eqb x) (snd key))
          (indexed env (fst key) v).

Definition SearchVASPs (s : Site) (query : list (string * list string))
  : Op (list VASP.t) :=
  fun w =>
    if fault env s then (None, w)
    else (Some (List.filter (fun v => forallb (meets v) query)
                  (snd <$> map_to_list (vasps w))), w).

(** *** Secret vault

    Modelled from the spec: the secret manager is missing from the
    sources. A secret is the list of its versions, oldest first, under
    (scope, name); creating is idempotent, adding a version appends, the
    latest version is the last one. *)

Definition CreateSecret (s : Site) (scope name : string) : Op unit :=
  fun w =>
    if fault env s then (None, w)
    else match vault w !! (scope, name) with
         | Some _ => (Some tt, w)
         | None => (Some tt, with_vault (<[(scope, name) := []]> (vault w)) w)
         end.

Definition AddSecretVersion (s : Site) (scope name data : string) : Op unit :=
  fun w =>
    if fault env s then (None, w)
    else
      let versions := default [] (vault w !! (scope, name)) in
      (Some tt,
       with_vault (<[(scope, name) := (versions ++ [data])%list]> (vault w)) w).

Definition LatestVersion (w : World) (scope name : string) : option string :=
  match vault w !! (scope, name) with
  | Some versions => List.last (Some <$> versions) None
  | None => None
  end.

(** *** Email courier

    Modelled from the spec: the email manager is missing from the sources.
    A call sends the templated mail, appends to the send-logs of the
    contacts it wrote to and returns the number of messages sent, with an
    error when the transport failed. Whom it writes to and whether the
    transport fails is the environment's. *)

Definition log_sends (o : CourierOutcome) (v : VASP.t) : VASP.t :=
  fold_left
    (fun v k =>
       match VASP.contact k v with
       | Some c =>
           VASP.set_contact k (Some (Contact.with_log (appended o k) c)) v
       | None => v
       end)
    contactOrder v.

Definition send (tpl : Template) (v : VASP.t)
  : World -> (VASP.t * nat * bool) * World :=
  fun w =>
    let o := courier env tpl v in
    ((log_sends o v, sent o, failed o),
     with_outbox (outbox w ++ [mkMail tpl (VASP.Id v) (sent o) (failed o)])%list w).

Definition SendVerifyContacts := send VerifyContactEmail.
Definition SendReviewRequest := send ReviewRequestEmail.

(** *** Model helpers

    Modelled from the spec: the helpers of [models] that maintain the
    extra-data tables are missing from the sources. A status change
    appends one audit entry (previous, current, description, source,
    timestamp) and sets the status, also when the status stays the same:
    VerifyContact records a verified contact that way. *)

Definition time_Now : World -> nat * World :=
  fun w => (clock w, with_clock (S (clock w)) w).

Definition UpdateVerificationStatus (s : Site) (v : VASP.t)
    (state : VerificationState) (description source : string) : Op VASP.t :=
  fun w =>
    if fault env s then (None, w)
    else
      let '(now, w') := time_Now w in
      (Some (VASP.with_status state
               (VASP.AuditLog v
                ++ [audit now (VASP.VerificationStatus v) state
                      description source])%list v), w').

Definition SetContactVerification (s : Site) (v : VASP.t) (k : ContactKind)
    (token : string) (verified : bool) : Op VASP.t :=
  fun w =>
    if fault env s then (None, w)
    else match VASP.contact k v with
         | None => (None, w)
         | Some c =>
             (Some (VASP.set_contact k
                      (Some (Contact.with_verification token verified c)) v),
              w)
         end.

Definition GetContactVerification (s : Site) (v : VASP.t) (k : ContactKind)
  : Op (string * bool) :=
  fun w =>
    if fault env s then (None, w)
    else match VASP.contact k v with
         | None => (None, w)
         | Some c => (Some (Contact.Token c, Contact.Verified c), w)
         end.

Definition SetAdminVerificationToken (s : Site) (v : VASP.t) (token : string)
  : Op VASP.t :=
  fun w =>
    if fault env s then (None, w)
    else (Some (VASP.with_AdminVerificationToken token v), w).

Definition AppendCertReqID (s : Site) (v : VASP.t) (id : string) : Op VASP.t :=
  fun w =>
    if fault env s then (None, w)
    else (Some (VASP.with_CertificateRequests
                  (VASP.CertificateRequests v ++ [id])%list v), w).

(** A request is created in [INITIALIZED] for the VASP and its common
    name, under a fresh identifier. *)
Definition NewCertificateRequest (s : Site) (v : VASP.t)
  : Op CertificateRequest.t :=
  fun w =>
    if fault env s then (None, w)
    else
      (Some (CertificateRequest.mk (uuid env (entropy w)) (VASP.Id v)
               (VASP.CommonName v) INITIALIZED 0 0 "" "" 0 "" "" [] "" "" []),
       with_entropy (S (entropy w)) w).

Definition UpdateCertificateRequestStatus (s : Site)
    (r : CertificateRequest.t) (state : CertificateRequestState)
    (description source : string) : Op CertificateRequest.t :=
  fun w =>
    if fault env s then (None, w)
    else
      let '(now, w') := time_Now w in
      (Some (CertificateRequest.with_status state
               (CertificateRequest.AuditLog r
                ++ [audit now (CertificateRequest.Status r) state
                      description source])%list r), w').

End Collaborators.

(** ** The handlers of [gds.go] *)
Section Handlers.

Variable env : Env.

(** [getContactEmail]: the address of the first contact that has one. *)
Definition getContactEmail (vasp : VASP.t) : string :=
  match NewContactIterator (VASP.Contacts vasp) true false with
  | k :: _ =>
      match VASP.contact k vasp with
      | Some contact => Contact.Email contact
      | None => ""
      end
  | [] => ""
  end.

(** [if c != nil && c.IsZero() { c = nil }] *)
Definition nil_if_zero (c : option Contact.t) : option Contact.t :=
  match c with
  | Some contact => if Contact.IsZero contact then None else Some contact
  | None => None
  end.

Definition nil_zero_contacts (cs : Contacts.t) : Contacts.t :=
  Contacts.mk (nil_if_zero (Contacts.Technical cs))
              (nil_if_zero (Contacts.Administrative cs))
              (nil_if_zero (Contacts.Legal cs))
              (nil_if_zero (Contacts.Billing cs)).

(** The loop of Register that gives every contact with an address a fresh
    48 byte verification token. *)
Fixpoint create_tokens (kinds : list ContactKind) (vasp : VASP.t) : M VASP.t :=
  match kinds with
  | [] => ret vasp
  | kind :: rest =>
      token <- CreateToken env 48 ;;
      vasp <- try (SetContactVerification env (RegSetContactVerification kind)
                     vasp kind token false)
                  Aborted "could not send contact verification emails" ;;
      create_tokens rest vasp
  end.

Definition registered_message : string :=
  "a verification code has been sent to contact emails, please check spam folder if it has not arrived; pkcs12 password attached, this is the only time it will be available -- do not lose!".

Definition internal_error : string :=
  "internal error with registration, please contact admins".

Definition Register (req : RegisterRequest.t) : M RegisterReply.t :=
  let vasp :=
    VASP.mk "" (DirectoryID env) (RegisterRequest.Entity req)
      (RegisterRequest.Contacts req) None []
      (RegisterRequest.CommonName req) (RegisterRequest.Website req)
      (RegisterRequest.TrisaEndpoint req)
      (RegisterRequest.BusinessCategory req)
      (RegisterRequest.VaspCategories req)
      (RegisterRequest.EstablishedOn req) (RegisterRequest.Trixo req)
      NO_VERIFICATION "" 1 [] "" [] in
  (* Validate TRISA endpoint *)
  if GoString.is_empty (RegisterRequest.TrisaEndpoint req) then
    throw InvalidArgument "no endpoint supplied"
  else
  match validateEndpoint (RegisterRequest.TrisaEndpoint req) with
  | Some _ => throw InvalidArgument "invalid endpoint supplied"
  | None =>
  (* Compute the common name from the TRISA endpoint if not specified *)
  vasp <-
    (if GoString.is_empty (VASP.CommonName vasp) then
       match Net.SplitHostPort (RegisterRequest.TrisaEndpoint req) with
       | inl _ =>
           throw InvalidArgument
             "no common name supplied, could not parse common name from endpoint"
       | inr (host, _) => ret (VASP.with_CommonName host vasp)
       end
     else
       (* Validate common name if supplied *)
       match ValidateCommonName (VASP.CommonName vasp) with
       | Some _ => throw InvalidArgument "invalid common name supplied"
       | None => ret vasp
       end) ;;
  (* Validate partial VASP record to ensure that it can be registered. *)
  _ <- match Validate env vasp with
       | Invalid msg => throw InvalidArgument ("validation error: " ++ msg)
       | ErrCompleteNationalIdentifierLegalPerson => ret tt
       | Valid => ret tt
       end ;;
  (* Set any zero valued contacts to nil *)
  match VASP.Contacts vasp with
  | None => panic
  | Some contacts =>
  let vasp := VASP.with_Contacts (Some (nil_zero_contacts contacts)) vasp in
  (* Retrieve email address from one of the supplied contacts. *)
  let email := getContactEmail vasp in
  if GoString.is_empty email then
    throw InvalidArgument "no email address in supplied VASP contacts"
  else
  (* Set verification status to SUBMITTED. *)
  vasp <- try (UpdateVerificationStatus env RegUpdateVerificationStatus vasp
                 SUBMITTED "register request recevied" email)
              Aborted "could not add new entry to VASP audit log" ;;
  id <- try (CreateVASP env RegCreateVASP vasp)
            AlreadyExists
            "could not complete registration, uniqueness constraints violated" ;;
  let vasp := VASP.with_Id id vasp in
  (* Create the verification tokens and save the VASP back to the database *)
  vasp <- create_tokens (NewContactIterator (VASP.Contacts vasp) true false)
            vasp ;;
  _ <- try (UpdateVASP env RegUpdateVASPTokens vasp)
           Aborted "could not send contact verification emails" ;;
  (* Send contacts with updated tokens *)
  mailed <- lift (SendVerifyContacts env vasp) ;;
  let vasp := fst (fst mailed) in
  _ <- (if snd mailed then
          (* alert admins, do not abort processing the registration *)
          ret tt
        else
          try (UpdateVASP env RegUpdateVASPEmailLog vasp)
              Aborted "could not update vasp record") ;;
  (* Create PKCS12 password along with certificate request. *)
  password <- CreateToken env 16 ;;
  certRequest <- try (NewCertificateRequest env RegNewCertificateRequest vasp)
                     Internal internal_error ;;
  certRequest <- try (UpdateCertificateRequestStatus env
                        RegUpdateCertificateRequestStatus certRequest
                        INITIALIZED "created certificate request" email)
                     Internal internal_error ;;
  (* Make a new secret of type "password" *)
  let secretType := "password" in
  _ <- try (CreateSecret env RegCreateSecret
              (CertificateRequest.Id certRequest) secretType)
           Internal internal_error ;;
  _ <- try (AddSecretVersion env RegAddSecretVersion
              (CertificateRequest.Id certRequest) secretType password)
           Internal internal_error ;;
  (* Create certificate request *)
  _ <- try (UpdateCertReq env RegUpdateCertReq certRequest)
           Internal internal_error ;;
  (* Add the CertificateRequest to the VASP *)
  vasp <- try (AppendCertReqID env RegAppendCertReqID vasp
                 (CertificateRequest.Id certRequest))
              Internal internal_error ;;
  (* Store VASP with updated certificate requests *)
  _ <- try (UpdateVASP env RegUpdateVASPCertReq vasp)
           Internal internal_error ;;
  ret (RegisterReply.mk (VASP.Id vasp) (VASP.RegisteredDirectory vasp)
         (VASP.CommonName vasp) (VASP.VerificationStatus vasp)
         registered_message password)
  end
  end.

Definition not_found_by_name : string :=
  "could not find VASP by common name".

Definition Lookup (req : LookupRequest.t) : M LookupReply.t :=
  vasp <-
    (if negb (GoString.is_empty (LookupRequest.Id req)) then
       try (RetrieveVASP env LookupRetrieveVASP (LookupRequest.Id req))
           NotFound "could not find VASP by ID"
     else if negb (GoString.is_empty (LookupRequest.CommonName req)) then
       vasps <- try (SearchVASPs env LookupSearchVASPs
                       [("name", [LookupRequest.CommonName req])])
                    NotFound not_found_by_name ;;
       if negb (Nat.eqb (List.length vasps) 1) then
         throw NotFound not_found_by_name
       else
         match vasps with
         | vasp :: _ => ret vasp
         | [] => panic
         end
     else
       throw InvalidArgument
         "please supply ID and registered directory or common name for lookup") ;;
  match VASP.Entity vasp with
  | None => panic  (* vasp.Entity.CountryOfRegistration *)
  | Some entity =>
      ret (LookupReply.mk (VASP.Id vasp) (VASP.RegisteredDirectory vasp)
             (VASP.CommonName vasp) (VASP.TrisaEndpoint vasp)
             (VASP.IdentityCertificate vasp)
             (List.last (Some <$> VASP.SigningCertificates vasp) None)
             (LegalPerson.Name entity)
             (LegalPerson.CountryOfRegistration entity)
             (VASP.VerifiedOn vasp))
  end.

(** The local variables of VerifyContact that its loop updates. *)
Record Scan : Type := mkScan {
  scan_vasp : VASP.t;
  prevVerified : nat;
  found : bool;
  contactEmail : string
}.

(** The loop of VerifyContact over the contacts. *)
Fixpoint scan_contacts (token : string) (kinds : list ContactKind) (st : Scan)
  : M Scan :=
  match kinds with
  | [] => ret st
  | kind :: rest =>
      let vasp := scan_vasp st in
      (* Get the verification status *)
      tv <- try (GetContactVerification env (VerifyGetContactVerification kind)
                   vasp kind)
                Aborted "could not verify contact" ;;
      (* Perform token check and if token matches, mark contact as verified *)
      if String.eqb (fst tv) token then
        vasp <- try (SetContactVerification env
                       (VerifySetContactVerification kind) vasp kind "" true)
                    Aborted "could not verify contact" ;;
        let email :=
          match VASP.contact kind vasp with
          | Some contact => Contact.Email contact
          | None => ""
          end in
        (* Record the contact as verified in the audit log *)
        vasp <- try (UpdateVerificationStatus env (VerifyAuditContact kind)
                       vasp (VASP.VerificationStatus vasp) "contact verified"
                       email)
                    Aborted "could not add new entry to VASP audit log" ;;
        scan_contacts token rest (mkScan vasp (prevVerified st) true email)
      else if snd tv then
        scan_contacts token rest
          (mkScan vasp (S (prevVerified st)) (found st) (contactEmail st))
      else
        scan_contacts token rest st
  end.

Definition review_problem : string :=
  "there was a problem submitting your registration review request, please contact the admins".

Definition VerifyContact (req : VerifyContactRequest.t)
  : M VerifyContactReply.t :=
  if GoString.is_empty (VerifyContactRequest.Token req) then
    throw InvalidArgument
      "could not verify contact: verification token missing from request"
  else
  (* Retrieve VASP associated with contact from the database. *)
  vasp <- try (RetrieveVASP env VerifyRetrieveVASP (VerifyContactRequest.Id req))
              NotFound "could not find associated VASP record by ID" ;;
  (* Search through the contacts *)
  st <- scan_contacts (VerifyContactRequest.Token req)
          (NewContactIterator (VASP.Contacts vasp) false false)
          (mkScan vasp 0 false "") ;;
  let vasp := scan_vasp st in
  (* Check if we haven't managed to verify the contact *)
  if negb (found st) then
    throw NotFound "could not find contact with the specified token"
  else
  (* Ensures that we only send the verification email to the admins once. *)
  if Nat.ltb 0 (prevVerified st)
     && Nat.ltb (state_number SUBMITTED)
                (state_number (VASP.VerificationStatus vasp)) then
    _ <- try (UpdateVASP env VerifyUpdateVASPContact vasp)
             Internal "could not update contact after verification" ;;
    ret (VerifyContactReply.mk (VASP.VerificationStatus vasp)
           "email successfully verified")
  else
  (* Step 1: mark the VASP as email verified and create an admin token. *)
  vasp <- try (UpdateVerificationStatus env VerifyStatusEmailVerified vasp
                 EMAIL_VERIFIED "completed email verification"
                 (contactEmail st))
              Aborted "could not add new entry to VASP audit log" ;;
  token <- CreateToken env 48 ;;
  vasp <- try (SetAdminVerificationToken env VerifySetAdminVerificationToken
                 vasp token)
              FailedPrecondition review_problem ;;
  _ <- try (UpdateVASP env VerifyUpdateVASPAdminToken vasp)
           FailedPrecondition review_problem ;;
  (* Step 2: send review request email to the TRISA admins; don't stop
     processing if it could not be sent. *)
  mailed <- lift (SendReviewRequest env vasp) ;;
  let vasp := fst (fst mailed) in
  (* Step 3: mark as pending review. *)
  vasp <- try (UpdateVerificationStatus env VerifyStatusPendingReview vasp
                 PENDING_REVIEW "review email sent" (contactEmail st))
              Aborted "could not add new entry to VASP audit log" ;;
  _ <- try (UpdateVASP env VerifyUpdateVASPPendingReview vasp)
           Internal review_problem ;;
  ret (VerifyContactReply.mk (VASP.VerificationStatus vasp)
         "email successfully verified and verification review sent to TRISA admins").

End Handlers.

(** ** Certificate Manager

    Modelled from the spec: the certificate manager ([certs.go]) and the CA
    client are missing from the sources; only the tests of the manager are
    there. The per-tick policy below follows the specification of the
    certificate request state machine, status by status. *)
Module CA.

Record BatchResponse : Type := mkBatch {
  batch_id : nat;
  order_number : nat;
  creation_date : string;
  batch_status : string
}.

Record BatchDetailResponse : Type := mkDetail {
  detail_status : string;
  reject_reason : string;
  batch_name : string
}.

Record ProcessingInfo : Type := mkInfo {
  active : nat;
  success : nat;
  failed : nat
}.

(** The client contract; [None] is a transport error. *)
Record t : Type := mk {
  UserAvailableBalance : option nat;
  Batch : string -> list (string * string) -> option BatchResponse;
  BatchDetail : nat -> option BatchDetailResponse;
  BatchStatus : nat -> option string;
  BatchProcessingInfo : nat -> option ProcessingInfo
}.

(** The calls made to the CA, as a log. *)
Inductive Call : Type :=
| CallUserAvailableBalance
| CallBatch (profile : string) (params : list (string * string))
| CallBatchDetail (batch : nat)
| CallBatchStatus (batch : nat)
| CallBatchProcessingInfo (batch : nat).

Definition is_batch (c : Call) : bool :=
  match c with CallBatch _ _ => true | _ => false end.

Definition REJECTED : string := "REJECTED".
Definition NOT_ACCEPTABLE : string := "NOT_ACCEPTABLE".

End CA.

Section CertificateManager.

Variable env : Env.
Variable ca : CA.t.
Variable profile : string.     (* Sectigo.Profile *)

(** What a tick threads: the world and the log of CA calls. *)
Record Manager : Type := mkManager {
  world : World;
  ca_log : list CA.Call
}.

Definition automated : string := "automated".

(** A transition of a request: one audit entry by "automated", the new
    status, persisted. *)
Definition transition_request (state : CertificateRequestState)
    (reason : string) (r : CertificateRequest.t) (w : World) : World :=
  let '(now, w') := time_Now w in
  let r' :=
    CertificateRequest.with_status state
      (CertificateRequest.AuditLog r
       ++ [audit now (CertificateRequest.Status r) state reason automated])%list
      r in
  with_certreqs (<[CertificateRequest.Id r := r']> (certreqs w')) w'.

(** A transition of a VASP, likewise. *)
Definition transition_vasp (state : VerificationState) (reason : string)
    (v : VASP.t) (w : World) : World :=
  let '(now, w') := time_Now w in
  let v' :=
    VASP.with_status state
      (VASP.AuditLog v
       ++ [audit now (VASP.VerificationStatus v) state reason automated])%list
      v in
  with_vasps (<[VASP.Id v := v']> (vasps w')) w'.

(** The states from which a VASP may have a certificate submitted. *)
Definition valid_for_submission (s : VerificationState) : bool :=
  match s with
  | REVIEWED | ISSUING_CERTIFICATE | VERIFIED => true
  | _ => false
  end.

Definition with_batch (b : CA.BatchResponse) (r : CertificateRequest.t)
  : CertificateRequest.t :=
  CertificateRequest.mk (CertificateRequest.Id r) (CertificateRequest.Vasp r)
    (CertificateRequest.CommonName r) (CertificateRequest.Status r)
    (CertificateRequest.AuthorityId r) (CA.batch_id b)
    (CertificateRequest.BatchName r) (CA.batch_status b)
    (CA.order_number b) (CA.creation_date b) profile
    (CertificateRequest.Params r) (CertificateRequest.RejectReason r)
    (CertificateRequest.Certificate r) (CertificateRequest.AuditLog r).

Definition with_batch_status (status reason : string)
    (r : CertificateRequest.t) : CertificateRequest.t :=
  CertificateRequest.mk (CertificateRequest.Id r) (CertificateRequest.Vasp r)
    (CertificateRequest.CommonName r) (CertificateRequest.Status r)
    (CertificateRequest.AuthorityId r) (CertificateRequest.BatchId r)
    (CertificateRequest.BatchName r) status
    (CertificateRequest.OrderNumber r) (CertificateRequest.CreationDate r)
    (CertificateRequest.Profile r) (CertificateRequest.Params r) reason
    (CertificateRequest.Certificate r) (CertificateRequest.AuditLog r).

(** READY_TO_SUBMIT: gate on the VASP, make sure the VASP is issuing,
    require the password and a balance, submit the batch. In the state
    machine of the VASP only REVIEWED leads to ISSUING_CERTIFICATE, so that
    is the one transition this step makes. *)
Definition submit (r : CertificateRequest.t) (m : Manager) : Manager :=
  match vasps (world m) !! CertificateRequest.Vasp r with
  | None => m
  | Some vasp =>
      if negb (valid_for_submission (VASP.VerificationStatus vasp)) then
        mkManager
          (transition_request CR_REJECTED
             "vasp not in valid state for submission" r (world m))
          (ca_log m)
      else
        let w :=
          if decide (VASP.VerificationStatus vasp = REVIEWED) then
            transition_vasp ISSUING_CERTIFICATE "issuing certificate" vasp
              (world m)
          else world m in
        match LatestVersion w (CertificateRequest.Id r) "password" with
        | None => mkManager w (ca_log m)
        | Some _ =>
            let log := (ca_log m ++ [CA.CallUserAvailableBalance])%list in
            match CA.UserAvailableBalance ca with
            | None => mkManager w log
            | Some balance =>
                if Nat.eqb balance 0 then mkManager w log
                else
                  let log :=
                    (log ++ [CA.CallBatch profile
                               (CertificateRequest.Params r)])%list in
                  match CA.Batch ca profile (CertificateRequest.Params r) with
                  | None => mkManager w log
                  | Some b =>
                      mkManager
                        (transition_request PROCESSING
                           "certificate submitted" (with_batch b r) w)
                        log
                  end
            end
        end
  end.

(** The status of a batch: from the batch detail, or from the status
    endpoint when the detail carries none. *)
Definition batch_status (batch : nat) (log : list CA.Call)
  : option (string * string) * list CA.Call :=
  let log := (log ++ [CA.CallBatchDetail batch])%list in
  match CA.BatchDetail ca batch with
  | None => (None, log)
  | Some d =>
      if GoString.is_empty (CA.detail_status d) then
        let log := (log ++ [CA.CallBatchStatus batch])%list in
        match CA.BatchStatus ca batch with
        | None => (None, log)
        | Some s => (Some (s, CA.reject_reason d), log)
        end
      else (Some (CA.detail_status d, CA.reject_reason d), log)
  end.

(** A CA rejection: the request is rejected, the VASP keeps its status and
    a rejection email goes out, whose send-log lines are saved. *)
Definition reject (status reason : string) (r : CertificateRequest.t)
    (w : World) : World :=
  let w :=
    transition_request CR_REJECTED "certificate request rejected by the CA"
      (with_batch_status status reason r) w in
  match vasps w !! CertificateRequest.Vasp r with
  | None => w
  | Some vasp =>
      let '((vasp', _, _), w') := send env RejectRegistrationEmail vasp w in
      with_vasps (<[VASP.Id vasp' := vasp']> (vasps w')) w'
  end.

(** PROCESSING: poll the batch. *)
Definition process (r : CertificateRequest.t) (m : Manager) : Manager :=
  let batch := CertificateRequest.BatchId r in
  let log := (ca_log m ++ [CA.CallBatchProcessingInfo batch])%list in
  match CA.BatchProcessingInfo ca batch with
  | None => mkManager (world m) log
  | Some info =>
      if Nat.ltb 0 (CA.active info) then
        (* still active: a self-transition when the CA status changed *)
        match batch_status batch log with
        | (None, log) => mkManager (world m) log
        | (Some (status, reason), log) =>
            if String.eqb status (CertificateRequest.BatchStatus r) then
              mkManager (world m) log
            else
              mkManager
                (transition_request PROCESSING "batch still processing"
                   (with_batch_status status reason r) (world m))
                log
        end
      else if Nat.ltb 0 (CA.failed info) && Nat.eqb (CA.success info) 0 then
        match batch_status batch log with
        | (None, log) => mkManager (world m) log
        | (Some (status, reason), log) =>
            if String.eqb status CA.REJECTED then
              mkManager (reject status reason r (world m)) log
            else if String.eqb status CA.NOT_ACCEPTABLE then
              mkManager
                (transition_request CR_ERRORED "batch not acceptable"
                   (with_batch_status status reason r) (world m))
                log
            else mkManager (world m) log
        end
      else if Nat.ltb 0 (CA.success info) then
        mkManager
          (transition_request DOWNLOADING "certificate ready for download"
             r (world m))
          log
      else mkManager (world m) log
  end.

(** One tick on the stored request [id], for the two statuses in which the
    manager talks to the CA about the batch; [None] for a request that is
    not stored or whose status another step of the manager handles. *)
Definition tick (id : string) (m : Manager) : option Manager :=
  match certreqs (world m) !! id with
  | None => None
  | Some r =>
      match CertificateRequest.Status r with
      | READY_TO_SUBMIT => Some (submit r m)
      | PROCESSING => Some (process r m)
      | _ => None
      end
  end.

End CertificateManager.

(** ** Vocabulary of the statements *)

(** The language of a regular expression: what it means for a string to
    match, against which the matcher is checked. *)
Inductive matches : Regexp.re -> string -> Prop :=
| matches_Eps : matches Regexp.Eps ""
| matches_Class ranges c :
    Regexp.in_class c ranges = true ->
    matches (Regexp.Class ranges) (String c "")
| matches_Cat r1 r2 s1 s2 :
    matches r1 s1 -> matches r2 s2 -> matches (Regexp.Cat r1 r2) (s1 ++ s2)
| matches_AltL r1 r2 s : matches r1 s -> matches (Regexp.Alt r1 r2) s
| matches_AltR r1 r2 s : matches r2 s -> matches (Regexp.Alt r1 r2) s
| matches_StarNil r : matches (Regexp.Star r) ""
| matches_StarCons r s1 s2 :
    matches r s1 -> matches (Regexp.Star r) s2 ->
    matches (Regexp.Star r) (s1 ++ s2).

(** The query Lookup sends to the store for a common name. *)
Definition name_query (req : LookupRequest.t) : list (string * list string) :=
  [("name", [LookupRequest.CommonName req])].

(** The common name Register goes on with: the one supplied or, when none is
    supplied, the host of the endpoint. *)
Definition effective_common_name (req : RegisterRequest.t) : string :=
  if GoString.is_empty (RegisterRequest.CommonName req) then
    match Net.SplitHostPort (RegisterRequest.TrisaEndpoint req) with
    | inr (host, _) => host
    | inl _ => ""
    end
  else RegisterRequest.CommonName req.

(** A VASP without its contacts: the courier and the token helpers only
    touch the contacts. *)
Definition sans_contacts (v : VASP.t) : VASP.t := VASP.with_Contacts None v.

(** A VASP without its contacts and its audit log. *)
Definition core (v : VASP.t) : VASP.t :=
  VASP.with_status (VASP.VerificationStatus v) [] (sans_contacts v).

(** The slots VerifyContact visits: every contact of the VASP. *)
Definition all_contacts (v : VASP.t) : list ContactKind :=
  NewContactIterator (VASP.Contacts v) false false.

(** The contact carries the token of the request. *)
Definition has_token (token : string) (c : Contact.t) : bool :=
  String.eqb (Contact.Token c) token.

(** What VerifyContact does to one contact. *)
Definition verify_contact (token : string) (c : Contact.t) : Contact.t :=
  if has_token token c then Contact.with_verification "" true c else c.

(** The slot holds a contact with the token. *)
Definition slot_matches (token : string) (v : VASP.t) (k : ContactKind) : bool :=
  match VASP.contact k v with
  | Some c => has_token token c
  | None => false
  end.

(** The slot holds a contact that was verified before, with another token. *)
Definition slot_verified (token : string) (v : VASP.t) (k : ContactKind) : bool :=
  match VASP.contact k v with
  | Some c => negb (has_token token c) && Contact.Verified c
  | None => false
  end.

(** The review requests among the calls of the courier. *)
Definition review_requests (mails : list Mail) : list Mail :=
  List.filter
    (fun m => bool_decide (mail_template m = ReviewRequestEmail)) mails.

(** An audit entry that records [previous -> current]. *)
Definition records {St} (previous current : St) (e : AuditLogEntry.t St) : Prop :=
  AuditLogEntry.PreviousState e = previous
  /\ AuditLogEntry.CurrentState e = current.

(** ** Sample data *)
Module Sample.

(** An environment in which no call fails, the TRISA validation accepts
    the record and the courier delivers one message per call. *)
Definition env : Env :=
  mkEnv "trisatest.net" (fun _ => false) (fun _ => Valid)
    (fun n => n * 7 + 3)
    (fun n => "id-" ++ token_from (fun k => k) n 4)
    (fun key v => if String.eqb key "name" then [VASP.CommonName v] else [])
    (fun _ _ => mkOutcome 1 false (fun _ => [])).

Definition empty : World := mkWorld ∅ ∅ ∅ [] 0 0.

Definition ada : Contact.t := Contact.mk "Ada" "a@x.io" "" "" false [].

Definition registration (endpoint common_name : string) : RegisterRequest.t :=
  RegisterRequest.mk (Some (LegalPerson.mk "Acme" "US"))
    (Some (Contacts.mk None None (Some ada) None))
    endpoint common_name "https://x.io" 1 [] "" None.

(** The happy path of the specification. *)
Definition request : RegisterRequest.t :=
  registration "trisa.example.com:443" "".

(** No common name, a wildcard host in the endpoint. *)
Definition wildcard_host : RegisterRequest.t :=
  registration "*.example.com:443" "".

(** A wildcard common name. *)
Definition wildcard_name : RegisterRequest.t :=
  registration "trisa.example.com:443" "*.example.com".

(** The world after the happy registration. *)
Definition registered : World := snd (Register env request empty).

(** The VASP that the registration stored. *)
Definition submitted : VASP.t :=
  default (VASP.mk "" "" None None None [] "" "" "" 0 [] "" None
             NO_VERIFICATION "" 0 [] "" [])
    (vasps registered !! "id-0123").

(** A lookup of the registered VASP by its common name. *)
Definition lookup_by_name : LookupRequest.t :=
LookupRequest.mk "" "" "trisa.example.com".

(** The token Register gave to Ada, and the request that verifies it. *)
Definition ada_token : string :=
  "ahovCJQX4bipwDKRY5cjqxELSZ6dkryFMT07elszGNU18fmt".

Definition verify_ada : VerifyContactRequest.t :=
  VerifyContactRequest.mk "id-0123" ada_token.

(** The world after Ada has verified her address. *)
Definition verified : World := snd (VerifyContact env verify_ada registered).

(** A VASP in review: Ada, the legal contact, is verified, and Bob, the
    technical contact, still holds his token. *)
Definition bob : Contact.t := Contact.mk "Bob" "b@x.io" "" "bobs-token" false [].

Definition in_review : World :=
  mkWorld
    (<["id-0123" :=
         VASP.mk "id-0123" "trisatest.net" (Some (LegalPerson.mk "Acme" "US"))
           (Some (Contacts.mk (Some bob) None
                    (Some (Contact.with_verification "" true ada)) None))
           None [] "trisa.example.com" "https://x.io" "trisa.example.com:443"
           1 [] "" None PENDING_REVIEW "" 1 [] "admin-token" []]> ∅)
    ∅ ∅ [] 0 0.

Definition verify_bob : VerifyContactRequest.t :=
  VerifyContactRequest.mk "id-0123" "bobs-token".

End Sample.

(** Sample data for the certificate manager: the VASP "echo" with its
    request "quebec", ready to submit, and the VASP "foxtrot" with its
    request "sierra", in processing as batch 42. *)
Module Fixture.

Definition contact (email : string) : Contact.t :=
  Contact.mk "" email "" "" true [].

Definition vasp (id : string) (status : VerificationState) : VASP.t :=
  VASP.mk id "trisatest.net" (Some (LegalPerson.mk id "US"))
    (Some (Contacts.mk None None (Some (contact "legal@x.io")) None))
    None [] (id ++ ".example.com") "" (id ++ ".example.com:443") 1 [] ""
    None status "" 1 [] "" [].

Definition request (id vasp : string) (status : CertificateRequestState)
    (batch : nat) : CertificateRequest.t :=
  CertificateRequest.mk id vasp (vasp ++ ".example.com") status 0 batch ""
    "" 0 "" "" [] "" "" [].

(** The store with "echo" in the given status. *)
Definition store (echo : VerificationState) : World :=
  mkWorld
    (<["echo" := vasp "echo" echo]>
       (<["foxtrot" := vasp "foxtrot" ISSUING_CERTIFICATE]> ∅))
    (<["quebec" := request "quebec" "echo" READY_TO_SUBMIT 0]>
       (<["sierra" := request "sierra" "foxtrot" PROCESSING 42]> ∅))
    (<[("quebec", "password") := ["qDhAwnfMjgDEzzUC"]]> ∅)
    [] 0 7.

Definition start (echo : VerificationState) : Manager :=
  mkManager (store echo) [].

(** A CA without balance. *)
Definition broke : CA.t :=
  CA.mk (Some 0) (fun _ _ => None) (fun _ => None) (fun _ => None)
    (fun _ => None).

(** A CA that reports batch 42 as failed and rejected. *)
Definition rejecting : CA.t :=
  CA.mk (Some 10) (fun _ _ => None)
    (fun _ => Some (CA.mkDetail CA.REJECTED "not a member" "batch-42"))
    (fun _ => None)
    (fun _ => Some (CA.mkInfo 0 0 1)).

Definition profile : string := "CipherTrace EE".

End Fixture.

(** ** Vocabulary of the further properties *)

(** Letters and digits, and the hyphen besides: the two character classes of
    [cnre], as predicates. *)
Definition is_alnum (c : ascii) : bool :=
  Regexp.in_class c [("a", "z"); ("A", "Z"); ("0", "9")]%char.

Definition is_alnum_dash (c : ascii) : bool :=
  Regexp.in_class c [("a", "z"); ("A", "Z"); ("0", "9"); ("-", "-")]%char.

(** Every byte of the string satisfies [p]. *)
Fixpoint all_bytes (p : ascii -> bool) (s : string) : bool :=
  match s with
  | EmptyString => true
  | String c s' => p c && all_bytes p s'
  end.

(** The last byte of a string that starts with [c]. *)
Fixpoint last_byte (c : ascii) (s : string) : ascii :=
  match s with
  | EmptyString => c
  | String c' s' => last_byte c' s'
  end.

(** A label of a domain name, as the comment of ValidateCommonName describes
    it: one to 63 bytes, letters, digits and hyphens, no hyphen at either
    end. *)
Definition is_label (l : string) : bool :=
  match l with
  | EmptyString => false
  | String c rest =>
      is_alnum c && is_alnum (last_byte c rest) && all_bytes is_alnum_dash l
      && (String.length l <=? 63)%nat
  end.

(** The labels after the first, each behind its dot. *)
Fixpoint dotted (labels : list string) : string :=
  match labels with
  | [] => ""
  | l :: rest => "." ++ l ++ dotted rest
  end.

(** The number a string of decimal digits denotes, read after [n]. *)
Fixpoint decimal (s : string) (n : Z) : Z :=
  match s with
  | EmptyString => n
  | String c s' => decimal s' (n * 10 + (Strconv.byte_of c - 48))
  end.

(** A decimal numeral: an optional sign and at least one digit. *)
Definition numeral (s : string) : option Z :=
  match s with
  | EmptyString => None
  | String c s' =>
      let neg := Ascii.eqb c "-"%char in
      let digits := if neg || Ascii.eqb c "+"%char then s' else s in
      if GoString.is_empty digits then None
      else if all_bytes Strconv.is_digit digits
           then Some (if neg then - decimal digits 0 else decimal digits 0)%Z
           else None
  end.

(** The range of a Go [int] on a 64-bit platform. *)
Definition is_int64 (n : Z) : Prop := (- 2 ^ 63 <= n < 2 ^ 63)%Z.

(** The handler [m] never panics, and when it fails, the code and the message
    of the error satisfy [P]. *)
Definition fails_with {A} (P : Code -> string -> Prop) (m : M A) : Prop :=
  forall w,
    match fst (m w) with
    | Ok _ => True
    | Error c msg => P c msg
    | Panic => False
    end.

(** The directory, the certificate requests, the vault and the outbox are
    the same in both states. *)
Definition same_stores (w w' : World) : Prop :=
  vasps w' = vasps w /\ certreqs w' = certreqs w
  /\ vault w' = vault w /\ outbox w' = outbox w.

(** The message of the branch of Register that follows a failed
    [net.SplitHostPort]. *)
Definition unparsed_common_name : string :=
  "no common name supplied, could not parse common name from endpoint".

(** What an unsuccessful Register has done, by the kind of its answer. *)
Definition Register_verdict (req : RegisterRequest.t) (w : World)
    (r : Result RegisterReply.t) (w' : World) : Prop :=
  match r with
  | Ok _ => True
  | Panic => RegisterRequest.Contacts req = None /\ w' = w
  | Error c msg =>
      msg <> unparsed_common_name
      /\ match c with
         | InvalidArgument => w' = w
         | AlreadyExists => same_stores w w'
         | Aborted | Internal => True
         | NotFound | FailedPrecondition => False
         end
  end.

(** Worlds and requests that exercise the edges of the handlers. *)
Module Probe.

(** A VASP record without entity, as the store would hold it after a partial
    write. *)
Definition nameless : VASP.t :=
  VASP.mk "id-9" "trisatest.net" None None None [] "ghost.example.com" ""
    "ghost.example.com:443" 0 [] "" None NO_VERIFICATION "" 1 [] "" [].

Definition haunted : World := mkWorld {["id-9" := nameless]} ∅ ∅ [] 0 0.

(** A registration without contacts. *)
Definition no_contacts : RegisterRequest.t :=
  RegisterRequest.mk (Some (LegalPerson.mk "Acme" "US")) None
    "trisa.example.com:443" "" "https://x.io" 1 [] "" None.

(** A VASP that was rejected, whose one contact still holds its token and
    is not verified. *)
Definition turned_down_vasp : VASP.t :=
  VASP.mk "id-7" "trisatest.net" (Some (LegalPerson.mk "Acme" "US"))
    (Some (Contacts.mk (Some Sample.bob) None None None))
    None [] "trisa.example.com" "https://x.io" "trisa.example.com:443"
    1 [] "" None REJECTED "" 1 [] "" [].

Definition turned_down : World :=
  mkWorld (<["id-7" := turned_down_vasp]> ∅) ∅ ∅ [] 0 0.

Definition verify_turned_down : VerifyContactRequest.t :=
  VerifyContactRequest.mk "id-7" "bobs-token".

End Probe.

(** Every run of [m], whatever its outcome, takes the state along [R]. *)
Definition keeps {A} (R : World -> World -> Prop) (m : M A) : Prop :=
  forall w, R w (snd (m w)).

(** What VerifyContact may do to the state besides writing the VASP: it
    leaves the certificate requests and the vault alone and sends nothing
    but review requests. *)
Definition verify_frame (w w' : World) : Prop :=
  certreqs w' = certreqs w /\ vault w' = vault w
  /\ exists mails,
       outbox w' = (outbox w ++ mails)%list
       /\ Forall (fun m => mail_template m = ReviewRequestEmail) mails.

(** The record Register builds from a request, before the contacts are
    attached: [id] is the identifier of the store, [now] and [email] date and
    sign the audit entry, [request] is the certificate request. *)
Definition registered_record (env : Env) (req : RegisterRequest.t)
    (id : string) (now : nat) (email request : string) : VASP.t :=
  VASP.mk id (DirectoryID env) (RegisterRequest.Entity req) None None []
    (effective_common_name req) (RegisterRequest.Website req)
    (RegisterRequest.TrisaEndpoint req)
    (RegisterRequest.BusinessCategory req)
    (RegisterRequest.VaspCategories req)
    (RegisterRequest.EstablishedOn req) (RegisterRequest.Trixo req)
    SUBMITTED "" 1
    [audit now NO_VERIFICATION SUBMITTED "register request recevied" email]
    "" [request].

(** What Register makes of the contact [c] of a request: [c'] has the same
    payload, and when [c] has an address, a token of 48 bytes and no
    verification; a contact without address keeps what it came with. *)
Definition registered_contact (c c' : Contact.t) : Prop :=
  Contact.Name c' = Contact.Name c
  /\ Contact.Email c' = Contact.Email c
  /\ Contact.Phone c' = Contact.Phone c
  /\ (Contact.Email c <> ""
      -> String.length (Contact.Token c') = 48
         /\ Contact.Verified c' = false)
  /\ (Contact.Email c = ""
      -> Contact.Token c' = Contact.Token c
         /\ Contact.Verified c' = Contact.Verified c).


Module Outage.

(** The sample environment with a courier that cannot deliver. *)
Definition env : Env :=
  mkEnv "trisatest.net" (fun _ => false) (fun _ => Valid)
    (fun n => n * 7 + 3)
    (fun n => "id-" ++ token_from (fun k => k) n 4)
    (fun key v => if String.eqb key "name" then [VASP.CommonName v] else [])
    (fun _ _ => mkOutcome 0 true (fun _ => [])).

End Outage.

Module Breakdown.

(** The sample environment in which the certificate request cannot be
    created. *)
Definition env : Env :=
  mkEnv "trisatest.net"
    (fun s => match s with RegNewCertificateRequest => true | _ => false end)
    (fun _ => Valid)
    (fun n => n * 7 + 3)
    (fun n => "id-" ++ token_from (fun k => k) n 4)
    (fun key v => if String.eqb key "name" then [VASP.CommonName v] else [])
    (fun _ _ => mkOutcome 1 false (fun _ => [])).

End Breakdown.

Module Stall.

(** The sample environment in which the last write of VerifyContact
    fails. *)
Definition env : Env :=
  mkEnv "trisatest.net"
    (fun s => match s with VerifyUpdateVASPPendingReview => true | _ => false end)
    (fun _ => Valid)
    (fun n => n * 7 + 3)
    (fun n => "id-" ++ token_from (fun k => k) n 4)
    (fun key v => if String.eqb key "name" then [VASP.CommonName v] else [])
    (fun _ _ => mkOutcome 1 false (fun _ => [])).

End Stall.

(** * Properties *)

(** ** Running a handler step by step *)

Lemma bind_Ok {A B} (m : M A) (k : A -> M B) w b w' :
  bind m k w = (Ok b, w') ->
  exists a w1, m w = (Ok a, w1) /\ k a w1 = (Ok b, w').
Proof.
  unfold bind. destruct (m w) as [[a | c msg |] w1]; intros H; try discriminate.
  exists a, w1. split; [reflexivity | exact H].
Qed.

Lemma try_Ok {A} (op : Op A) c msg w a w' :
  try op c msg w = (Ok a, w') -> op w = (Some a, w').
Proof.
  unfold try. destruct (op w) as [[x |] w1]; intros H; inversion H; reflexivity.
Qed.

Lemma try_Some {A} (op : Op A) c msg w a w' :
  op w = (Some a, w') -> try op c msg w = (Ok a, w').
Proof. unfold try. intros ->. reflexivity. Qed.

Lemma try_None {A} (op : Op A) c msg w w' :
  op w = (None, w') -> try op c msg w = (Error c msg, w').
Proof. unfold try. intros ->. reflexivity. Qed.

Lemma ret_Ok {A} (a b : A) w w' : ret a w = (Ok b, w') -> a = b /\ w = w'.
Proof. unfold ret. intros H. inversion H. split; reflexivity. Qed.

Lemma throw_Ok {A} c msg w (a : A) w' : throw c msg w = (Ok a, w') -> False.
Proof. unfold throw. discriminate. Qed.

Lemma panic_Ok {A} w (a : A) w' : panic w = (Ok a, w') -> False.
Proof. unfold panic. discriminate. Qed.

Lemma is_empty_true s : GoString.is_empty s = true <-> s = "".
Proof. destruct s; simpl; split; congruence. Qed.

Lemma is_empty_false s : GoString.is_empty s = false <-> s <> "".
Proof. destruct s; simpl; split; congruence. Qed.

(** ** Endpoint validation *)

(** C10. validateEndpoint accepts an endpoint exactly when it splits into a
    non-empty host and a non-empty port that [strconv.Atoi] parses; there is
    no check of the port range, so "example.com:-1" and "example.com:99999"
    pass although -1 and 99999 are no TCP ports. Every other endpoint is
    rejected with one of the four errors of the function. *)
Theorem validateEndpoint_no_port_range_check (endpoint : string) :
  (validateEndpoint endpoint = None <->
     exists host port n,
       Net.SplitHostPort endpoint = inr (host, port)
       /\ host <> "" /\ port <> "" /\ Strconv.Atoi port = inr n)
  /\ (validateEndpoint endpoint = None
      \/ validateEndpoint endpoint = Some "unable to parse endpoint string"
      \/ validateEndpoint endpoint = Some "missing host in endpoint string"
      \/ validateEndpoint endpoint = Some "missing port in endpoint string"
      \/ validateEndpoint endpoint = Some "endpoint port is not an integer")
  /\ (validateEndpoint "example.com:-1" = None
      /\ Net.SplitHostPort "example.com:-1" = inr ("example.com", "-1")
      /\ Strconv.Atoi "-1" = inr (-1)%Z)
  /\ (validateEndpoint "example.com:99999" = None
      /\ Net.SplitHostPort "example.com:99999" = inr ("example.com", "99999")
      /\ Strconv.Atoi "99999" = inr 99999%Z).
Proof.
  split; [| split; [| split]].
  - unfold validateEndpoint.
    destruct (Net.SplitHostPort endpoint) as [e | [host port]].
    + split; [discriminate | intros (h & p & n & H & _); discriminate].
    + destruct (GoString.is_empty host) eqn:Hh.
      * apply is_empty_true in Hh. subst host.
        split; [discriminate |].
        intros (h & p & n & H & Hne & _). inversion H. congruence.
      * destruct (GoString.is_empty port) eqn:Hp.
        -- apply is_empty_true in Hp. subst port.
           split; [discriminate |].
           intros (h & p & n & H & _ & Hne & _). inversion H. congruence.
        -- apply is_empty_false in Hh, Hp.
           destruct (Strconv.Atoi port) as [e | n] eqn:Ha.
           ++ split; [discriminate |].
              intros (h & p & n & H & _ & _ & Hn). inversion H. subst.
              congruence.
           ++ split; [| reflexivity].
              intros _. exists host, port, n. auto.
  - unfold validateEndpoint.
    destruct (Net.SplitHostPort endpoint) as [e | [host port]]; [auto |].
    destruct (GoString.is_empty host); [auto |].
    destruct (GoString.is_empty port); [auto 6 |].
    destruct (Strconv.Atoi port); auto 6.
  - split; [| split]; vm_compute; reflexivity.
  - split; [| split]; vm_compute; reflexivity.
Qed.

(** ** The matcher decides the language of the pattern *)

Section Matcher.

Import Regexp.

Lemma append_empty (s1 s2 : string) : s1 ++ s2 = "" -> s1 = "" /\ s2 = "".
Proof. destruct s1; simpl; [auto | discriminate]. Qed.

Lemma append_cons (s1 s2 : string) c s :
  s1 ++ s2 = String c s ->
  (s1 = "" /\ s2 = String c s)
  \/ exists s1', s1 = String c s1' /\ s = s1' ++ s2.
Proof.
  destruct s1 as [| c1 s1']; simpl; intros H; [left; auto |].
  inversion H. right. exists s1'. auto.
Qed.

Lemma nullable_matches r : nullable r = true <-> matches r "".
Proof.
  split.
  - induction r; simpl; intros H; try discriminate.
    + constructor.
    + apply andb_true_iff in H as [H1 H2].
      change "" with ("" ++ ""). constructor; auto.
    + apply orb_true_iff in H as [H | H];
        [apply matches_AltL | apply matches_AltR]; auto.
    + constructor.
  - intros H. remember "" as s eqn:Hs.
    induction H; simpl; try reflexivity; try discriminate.
    + apply append_empty in Hs as [-> ->]. rewrite IHmatches1, IHmatches2; auto.
    + rewrite IHmatches; auto.
    + rewrite IHmatches; auto. apply orb_true_r.
Qed.

Lemma matches_Fail s : ~ matches Fail s.
Proof. intros H. inversion H. Qed.

Lemma matches_Eps_inv s : matches Eps s -> s = "".
Proof. intros H. inversion H. reflexivity. Qed.

Lemma matches_Cat_inv r1 r2 s :
  matches (Cat r1 r2) s ->
  exists s1 s2, s = s1 ++ s2 /\ matches r1 s1 /\ matches r2 s2.
Proof. intros H. inversion H. subst. eauto. Qed.

Lemma matches_Alt_inv r1 r2 s :
  matches (Alt r1 r2) s -> matches r1 s \/ matches r2 s.
Proof. intros H. inversion H; auto. Qed.

Lemma cat_matches r1 r2 s : matches (cat r1 r2) s <-> matches (Cat r1 r2) s.
Proof.
  assert (Hl : forall r, matches (Cat Fail r) s -> False).
  { intros r H. apply matches_Cat_inv in H as (? & ? & _ & H & _).
    eapply matches_Fail, H. }
  assert (Hr : forall r, matches (Cat r Fail) s -> False).
  { intros r H. apply matches_Cat_inv in H as (? & ? & _ & _ & H).
    eapply matches_Fail, H. }
  assert (He : forall r, matches r s <-> matches (Cat Eps r) s).
  { intros r. split.
    - intros H. change s with ("" ++ s). constructor; [constructor | exact H].
    - intros H. apply matches_Cat_inv in H as (s1 & s2 & -> & H1 & H2).
      apply matches_Eps_inv in H1. subst s1. exact H2. }
  destruct r1, r2; simpl; try reflexivity; try apply He;
    split; intros H; exfalso;
    first [eapply matches_Fail, H | eapply Hl, H | eapply Hr, H].
Qed.

Lemma alt_matches r1 r2 s : matches (alt r1 r2) s <-> matches (Alt r1 r2) s.
Proof.
  assert (Hl : forall r, matches r s <-> matches (Alt Fail r) s).
  { intros r. split; [apply matches_AltR |].
    intros H. apply matches_Alt_inv in H as [H | H]; [| exact H].
    exfalso. eapply matches_Fail, H. }
  assert (Hr : forall r, matches r s <-> matches (Alt r Fail) s).
  { intros r. split; [apply matches_AltL |].
    intros H. apply matches_Alt_inv in H as [H | H]; [exact H |].
    exfalso. eapply matches_Fail, H. }
  destruct r1, r2; simpl; try reflexivity; first [apply Hl | apply Hr].
Qed.

(** A non-empty string in [r*] starts with a non-empty string in [r]. *)
Lemma matches_Star_cons r c s :
  matches (Star r) (String c s) ->
  exists s1 s2,
    s = s1 ++ s2 /\ matches r (String c s1) /\ matches (Star r) s2.
Proof.
  intros H. remember (Star r) as r' eqn:Hr. remember (String c s) as t eqn:Ht.
  revert s Ht. induction H as [| | | | | | r0 t1 t2 H1 _ H2 IH2];
    intros u Hu; try discriminate.
  inversion Hr. subst r0. clear Hr.
  apply append_cons in Hu as [[-> ->] | (t1' & -> & ->)].
  - apply IH2; reflexivity.
  - exists t1', t2. auto.
Qed.

Lemma deriv_matches r : forall c s,
  matches (deriv c r) s <-> matches r (String c s).
Proof.
  induction r as [| | ranges | r1 IH1 r2 IH2 | r1 IH1 r2 IH2 | r IH];
    intros c s; simpl.
  - split; intros H; inversion H.
  - split; intros H; inversion H.
  - split; intros H.
    + destruct (in_class c ranges) eqn:Hc; [| inversion H].
      apply matches_Eps_inv in H. subst s. constructor. exact Hc.
    + inversion H as [| ? ? Hc | | | | |]. subst. rewrite Hc. constructor.
  - assert (Hcat : matches (Cat (deriv c r1) r2) s
                   <-> exists s1 s2, s = s1 ++ s2
                                     /\ matches r1 (String c s1)
                                     /\ matches r2 s2).
    { split.
      - intros H. apply matches_Cat_inv in H as (s1 & s2 & -> & H1 & H2).
        exists s1, s2. rewrite <- IH1. auto.
      - intros (s1 & s2 & -> & H1 & H2). constructor; [apply IH1, H1 | exact H2]. }
    destruct (nullable r1) eqn:Hn.
    + rewrite alt_matches. split.
      * intros H. apply matches_Alt_inv in H as [H | H].
        -- apply cat_matches, Hcat in H as (s1 & s2 & -> & H1 & H2).
           change (String c (s1 ++ s2)) with (String c s1 ++ s2).
           constructor; assumption.
        -- change (String c s) with ("" ++ String c s).
           constructor; [apply nullable_matches, Hn | apply IH2, H].
      * intros H. apply matches_Cat_inv in H as (t1 & t2 & Ht & H1 & H2).
        symmetry in Ht. apply append_cons in Ht as [[-> ->] | (s1 & -> & ->)].
        -- apply matches_AltR, IH2, H2.
        -- apply matches_AltL, cat_matches, Hcat. eauto.
    + rewrite cat_matches, Hcat. split.
      * intros (s1 & s2 & -> & H1 & H2).
        change (String c (s1 ++ s2)) with (String c s1 ++ s2).
        constructor; assumption.
      * intros H. apply matches_Cat_inv in H as (t1 & t2 & Ht & H1 & H2).
        symmetry in Ht. apply append_cons in Ht as [[-> ->] | (s1 & -> & ->)].
        -- apply nullable_matches in H1. congruence.
        -- eauto.
  - rewrite alt_matches. split.
    + intros H. apply matches_Alt_inv in H as [H | H];
        [apply matches_AltL, IH1 | apply matches_AltR, IH2]; exact H.
    + intros H. apply matches_Alt_inv in H as [H | H];
        [apply matches_AltL, IH1 | apply matches_AltR, IH2]; exact H.
  - rewrite cat_matches. split.
    + intros H. apply matches_Cat_inv in H as (s1 & s2 & -> & H1 & H2).
      change (String c (s1 ++ s2)) with (String c s1 ++ s2).
      constructor; [apply IH, H1 | exact H2].
    + intros H. apply matches_Star_cons in H as (s1 & s2 & -> & H1 & H2).
      constructor; [apply IH, H1 | exact H2].
Qed.

(** [MatchString] answers exactly whether the string is in the language. *)
Lemma MatchString_matches s : forall r,
  MatchString r s = true <-> matches r s.
Proof.
  induction s as [| c s IH]; intros r; simpl.
  - apply nullable_matches.
  - rewrite IH. apply deriv_matches.
Qed.

End Matcher.

(** ValidateCommonName accepts exactly the non-empty names without a leading
    '*' that are in the language of [cnre]. *)
Lemma ValidateCommonName_accepts name :
  ValidateCommonName name = None
  <-> name <> "" /\ GoString.HasPrefix name "*" = false /\ matches cnre name.
Proof.
  unfold ValidateCommonName.
  destruct (GoString.is_empty name) eqn:He.
  - apply is_empty_true in He. split; [discriminate | intros [H _]; contradiction].
  - apply is_empty_false in He.
    destruct (GoString.HasPrefix name "*");
      [split; [discriminate | intros (_ & H & _); discriminate] |].
    destruct (Regexp.MatchString cnre name) eqn:Hm; cbn [negb].
    + apply MatchString_matches in Hm. split; auto.
    + split; [discriminate |]. intros (_ & _ & H).
      apply MatchString_matches in H. congruence.
Qed.

(** ** Lookup *)

(** C9. A Lookup by common name (no id) succeeds only when the search of the
    store returns exactly one VASP; when the search returns none, two or
    more, or fails, Lookup answers NOT_FOUND with one and the same message,
    and the world is left as it was. *)
Theorem Lookup_by_common_name_exactly_one
    (env : Env) (w : World) (req : LookupRequest.t)
    (Hid : LookupRequest.Id req = "")
    (Hcn : LookupRequest.CommonName req <> "") :
  (forall out w', Lookup env req w = (Ok out, w') ->
     exists vasp,
       SearchVASPs env LookupSearchVASPs (name_query req) w = (Some [vasp], w)
       /\ LookupReply.Id out = VASP.Id vasp /\ w' = w)
  /\ (forall found,
        SearchVASPs env LookupSearchVASPs (name_query req) w = (Some found, w) ->
        List.length found <> 1 ->
        Lookup env req w = (Error NotFound not_found_by_name, w))
  /\ (fst (SearchVASPs env LookupSearchVASPs (name_query req) w) = None ->
      Lookup env req w = (Error NotFound not_found_by_name, w)).
Proof.
  apply is_empty_true in Hid. apply is_empty_false in Hcn.
  assert (Hw : snd (SearchVASPs env LookupSearchVASPs (name_query req) w) = w).
  { unfold SearchVASPs. destruct (fault env LookupSearchVASPs); reflexivity. }
  unfold Lookup, bind, try. rewrite Hid, Hcn. cbn [negb].
  fold (name_query req).
  destruct (SearchVASPs env LookupSearchVASPs (name_query req) w)
    as [[found |] w1] eqn:Hs; cbn [snd] in Hw; subst w1.
  - destruct found as [| vasp [| vasp' rest]]; cbn [List.length Nat.eqb negb].
    + split; [intros out w' H; discriminate |].
      split; [reflexivity | discriminate].
    + split.
      * intros out w' H. exists vasp. unfold ret in H.
        destruct (VASP.Entity vasp); inversion H. auto.
      * split; [| discriminate].
        intros found H Hlen. inversion H. subst found. simpl in Hlen. lia.
    + split; [intros out w' H; discriminate |].
      split; [reflexivity | discriminate].
  - split; [intros out w' H; discriminate |].
    split; [intros found H; discriminate | reflexivity].
Qed.

Lemma Lookup_by_common_name_exactly_one_witness :
  LookupRequest.Id Sample.lookup_by_name = ""
  /\ LookupRequest.CommonName Sample.lookup_by_name <> ""
  /\ (forall out w',
        Lookup Sample.env Sample.lookup_by_name Sample.registered = (Ok out, w') ->
        exists vasp,
          SearchVASPs Sample.env LookupSearchVASPs
            (name_query Sample.lookup_by_name) Sample.registered
          = (Some [vasp], Sample.registered)
          /\ LookupReply.Id out = VASP.Id vasp /\ w' = Sample.registered)
  /\ (forall found,
        SearchVASPs Sample.env LookupSearchVASPs
          (name_query Sample.lookup_by_name) Sample.registered
        = (Some found, Sample.registered) ->
        List.length found <> 1 ->
        Lookup Sample.env Sample.lookup_by_name Sample.registered
        = (Error NotFound not_found_by_name, Sample.registered))
  /\ (fst (SearchVASPs Sample.env LookupSearchVASPs
             (name_query Sample.lookup_by_name) Sample.registered) = None ->
      Lookup Sample.env Sample.lookup_by_name Sample.registered
      = (Error NotFound not_found_by_name, Sample.registered)).
Proof.
  assert (H1 : LookupRequest.Id Sample.lookup_by_name = "") by reflexivity.
  assert (H2 : LookupRequest.CommonName Sample.lookup_by_name <> "")
    by (vm_compute; discriminate).
  split; [exact H1 |]. split; [exact H2 |].
  exact (Lookup_by_common_name_exactly_one Sample.env Sample.registered
           Sample.lookup_by_name H1 H2).
Defined.

(** ** What the collaborators leave alone *)

Lemma set_contact_sans k c v :
  sans_contacts (VASP.set_contact k c v) = sans_contacts v.
Proof.
  unfold VASP.set_contact. destruct (VASP.Contacts v); reflexivity.
Qed.

Lemma sans_contacts_fields v v' :
  sans_contacts v' = sans_contacts v ->
  VASP.Id v' = VASP.Id v
  /\ VASP.VerificationStatus v' = VASP.VerificationStatus v
  /\ VASP.AuditLog v' = VASP.AuditLog v
  /\ VASP.AdminVerificationToken v' = VASP.AdminVerificationToken v
  /\ VASP.CertificateRequests v' = VASP.CertificateRequests v
  /\ VASP.CommonName v' = VASP.CommonName v
  /\ VASP.RegisteredDirectory v' = VASP.RegisteredDirectory v.
Proof.
  destruct v, v'. unfold sans_contacts, VASP.with_Contacts. simpl.
  intros H. inversion H. subst. repeat split; reflexivity.
Qed.

Lemma log_sends_sans o v : sans_contacts (log_sends o v) = sans_contacts v.
Proof.
  unfold log_sends. generalize contactOrder. intros kinds. revert v.
  induction kinds as [| k kinds IH]; intros v; simpl; [reflexivity |].
  rewrite IH. destruct (VASP.contact k v); [apply set_contact_sans | reflexivity].
Qed.

Lemma token_from_length rnd pos n : String.length (token_from rnd pos n) = n.
Proof.
  revert pos. induction n as [| n IH]; intros pos; simpl; [reflexivity |].
  rewrite IH. reflexivity.
Qed.

Section Steps.

Variable env : Env.

Lemma CreateToken_Ok n w t w' :
  CreateToken env n w = (Ok t, w') ->
  String.length t = n /\ w' = with_entropy (entropy w + n) w.
Proof.
  unfold CreateToken, lift. intros H. inversion H.
  split; [apply token_from_length | reflexivity].
Qed.

Lemma UpdateVASP_Some s v w u w' :
  UpdateVASP env s v w = (Some u, w') ->
  w' = with_vasps (<[VASP.Id v := v]> (vasps w)) w.
Proof.
  unfold UpdateVASP. destruct (fault env s); intros H; inversion H. reflexivity.
Qed.

Lemma UpdateCertReq_Some s r w u w' :
  UpdateCertReq env s r w = (Some u, w') ->
  w' = with_certreqs (<[CertificateRequest.Id r := r]> (certreqs w)) w.
Proof.
  unfold UpdateCertReq. destruct (fault env s); intros H; inversion H.
  reflexivity.
Qed.

Lemma CreateVASP_Some s v w id w' :
  CreateVASP env s v w = (Some id, w') ->
  certreqs w' = certreqs w /\ vault w' = vault w /\ outbox w' = outbox w.
Proof.
  unfold CreateVASP. destruct (fault env s); [discriminate |].
  destruct (common_name_taken _ _); intros H; inversion H. auto.
Qed.

Lemma UpdateVerificationStatus_Some s v state description source w v' w' :
  UpdateVerificationStatus env s v state description source w = (Some v', w') ->
  v' = VASP.with_status state
         (VASP.AuditLog v
          ++ [audit (clock w) (VASP.VerificationStatus v) state description
                source])%list v
  /\ w' = with_clock (S (clock w)) w.
Proof.
  unfold UpdateVerificationStatus. destruct (fault env s); [discriminate |].
  simpl. intros H. inversion H. auto.
Qed.

Lemma SetContactVerification_Some s v k token verified w v' w' :
  SetContactVerification env s v k token verified w = (Some v', w') ->
  w' = w
  /\ exists c, VASP.contact k v = Some c
       /\ v' = VASP.set_contact k
                 (Some (Contact.with_verification token verified c)) v.
Proof.
  unfold SetContactVerification. destruct (fault env s); [discriminate |].
  destruct (VASP.contact k v) as [c |]; intros H; inversion H.
  split; [reflexivity | exists c; auto].
Qed.

Lemma GetContactVerification_Some s v k tv w w' :
  GetContactVerification env s v k w = (Some tv, w') ->
  w' = w
  /\ exists c, VASP.contact k v = Some c
       /\ tv = (Contact.Token c, Contact.Verified c).
Proof.
  unfold GetContactVerification. destruct (fault env s); [discriminate |].
  destruct (VASP.contact k v) as [c |]; intros H; inversion H.
  split; [reflexivity | exists c; auto].
Qed.

Lemma NewCertificateRequest_Some s v w r w' :
  NewCertificateRequest env s v w = (Some r, w') ->
  CertificateRequest.Vasp r = VASP.Id v
  /\ CertificateRequest.Status r = INITIALIZED
  /\ CertificateRequest.AuditLog r = []
  /\ w' = with_entropy (S (entropy w)) w.
Proof.
  unfold NewCertificateRequest. destruct (fault env s); [discriminate |].
  intros H. inversion H. auto.
Qed.

Lemma UpdateCertificateRequestStatus_Some s r state description source w r' w' :
  UpdateCertificateRequestStatus env s r state description source w
    = (Some r', w') ->
  r' = CertificateRequest.with_status state
         (CertificateRequest.AuditLog r
          ++ [audit (clock w) (CertificateRequest.Status r) state description
                source])%list r
  /\ w' = with_clock (S (clock w)) w.
Proof.
  unfold UpdateCertificateRequestStatus. destruct (fault env s);
    [discriminate |].
  simpl. intros H. inversion H. auto.
Qed.

Lemma CreateSecret_Some s scope name w u w' :
  CreateSecret env s scope name w = (Some u, w') ->
  vasps w' = vasps w /\ certreqs w' = certreqs w
  /\ is_Some (vault w' !! (scope, name))
  /\ default [] (vault w' !! (scope, name))
     = default [] (vault w !! (scope, name)).
Proof.
  unfold CreateSecret. destruct (fault env s); [discriminate |].
  destruct (vault w !! (scope, name)) as [vs |] eqn:Hv; intros H; inversion H;
    subst; simpl.
  - rewrite Hv. eauto.
  - rewrite lookup_insert_eq. eauto.
Qed.

Lemma AddSecretVersion_Some s scope name data w u w' :
  AddSecretVersion env s scope name data w = (Some u, w') ->
  vasps w' = vasps w /\ certreqs w' = certreqs w
  /\ LatestVersion w' scope name = Some data.
Proof.
  unfold AddSecretVersion, LatestVersion. destruct (fault env s);
    [discriminate |].
  intros H. inversion H. subst. simpl. rewrite lookup_insert_eq.
  rewrite fmap_app. simpl. rewrite last_last. auto.
Qed.

Lemma AppendCertReqID_Some s v id w v' w' :
  AppendCertReqID env s v id w = (Some v', w') ->
  v' = VASP.with_CertificateRequests (VASP.CertificateRequests v ++ [id])%list v
  /\ w' = w.
Proof.
  unfold AppendCertReqID. destruct (fault env s); intros H; inversion H. auto.
Qed.

Lemma create_tokens_Ok kinds v w v' w' :
  create_tokens env kinds v w = (Ok v', w') ->
  sans_contacts v' = sans_contacts v
  /\ certreqs w' = certreqs w /\ vault w' = vault w /\ vasps w' = vasps w.
Proof.
  revert v w. induction kinds as [| k kinds IH]; intros v w; simpl.
  - intros H. apply ret_Ok in H as [-> ->]. auto.
  - intros H. apply bind_Ok in H as (token & w1 & Ht & H).
    apply CreateToken_Ok in Ht as [_ ->].
    apply bind_Ok in H as (v1 & w2 & Hs & H).
    apply try_Ok, SetContactVerification_Some in Hs as [-> (c & _ & ->)].
    apply IH in H as (Hv & Hc & Hva & Hvs).
    rewrite Hv, set_contact_sans. auto.
Qed.

End Steps.

(** ** Register *)

(** What a successful Register has done: the VASP is stored under the id of
    the reply and lists one certificate request; that request is stored, in
    the status Register gave it; the vault holds the password of the
    reply. *)
Lemma Register_Ok env req w reply w' :
  Register env req w = (Ok reply, w') ->
  exists vasp request,
    vasps w' !! RegisterReply.Id reply = Some vasp
    /\ VASP.Id vasp = RegisterReply.Id reply
    /\ VASP.VerificationStatus vasp = RegisterReply.Status reply
    /\ VASP.CertificateRequests vasp = [CertificateRequest.Id request]
    /\ certreqs w' !! CertificateRequest.Id request = Some request
    /\ CertificateRequest.Vasp request = RegisterReply.Id reply
    /\ CertificateRequest.Status request = INITIALIZED
    /\ (exists now source,
          CertificateRequest.AuditLog request
          = [audit now INITIALIZED INITIALIZED "created certificate request"
               source])
    /\ LatestVersion w' (CertificateRequest.Id request) "password"
       = Some (RegisterReply.Pkcs12Password reply)
    /\ String.length (RegisterReply.Pkcs12Password reply) = 16.
Proof.
  unfold Register.
  destruct (GoString.is_empty (RegisterRequest.TrisaEndpoint req));
    [intros H; exfalso; eapply throw_Ok, H |].
  destruct (validateEndpoint (RegisterRequest.TrisaEndpoint req));
    [intros H; exfalso; eapply throw_Ok, H |].
  intros H.
  apply bind_Ok in H as (v0 & w0 & Hv0 & H).
  apply bind_Ok in H as (u0 & w1 & _ & H).
  destruct (VASP.Contacts v0) as [contacts |];
    [| exfalso; eapply panic_Ok, H].
  match type of H with
  | context [GoString.is_empty ?e] => destruct (GoString.is_empty e)
  end; [exfalso; eapply throw_Ok, H |].
  apply bind_Ok in H as (v1 & w2 & Hv1 & H).
  apply try_Ok, UpdateVerificationStatus_Some in Hv1 as [Hv1 _].
  apply bind_Ok in H as (id & w3 & Hid & H).
  apply bind_Ok in H as (v2 & w4 & Hv2 & H).
  apply create_tokens_Ok in Hv2 as (Hv2 & _).
  apply bind_Ok in H as (u1 & w5 & _ & H).
  apply bind_Ok in H as (mailed & w6 & Hm & H).
  apply bind_Ok in H as (u2 & w7 & _ & H).
  apply bind_Ok in H as (password & w8 & Hp & H).
  apply CreateToken_Ok in Hp as [Hp _].
  apply bind_Ok in H as (r0 & w9 & Hr0 & H).
  apply try_Ok, NewCertificateRequest_Some in Hr0 as (Hr0v & Hr0s & Hr0l & _).
  apply bind_Ok in H as (r1 & w10 & Hr1 & H).
  apply try_Ok, UpdateCertificateRequestStatus_Some in Hr1 as [Hr1 _].
  apply bind_Ok in H as (u3 & w11 & _ & H).
  apply bind_Ok in H as (u4 & w12 & Ha & H).
  apply try_Ok, AddSecretVersion_Some in Ha as (_ & _ & Ha).
  apply bind_Ok in H as (u5 & w13 & Hu & H).
  apply try_Ok, UpdateCertReq_Some in Hu.
  apply bind_Ok in H as (v3 & w14 & Hv3 & H).
  apply try_Ok, AppendCertReqID_Some in Hv3 as [Hv3 ->].
  apply bind_Ok in H as (u6 & w15 & Hf & H).
  apply try_Ok, UpdateVASP_Some in Hf.
  apply ret_Ok in H as [<- ->].
  unfold SendVerifyContacts, send, lift in Hm. inversion Hm. subst mailed.
  clear Hm. cbn [fst] in *.
  set (vm := log_sends (courier env VerifyContactEmail v2) v2) in *.
  assert (Hvm : sans_contacts vm = sans_contacts (VASP.with_Id id v1)).
  { unfold vm. rewrite log_sends_sans. exact Hv2. }
  clearbody vm.
  apply sans_contacts_fields in Hvm as (HId & HSt & _ & _ & HCr & _ & _).
  assert (Hnone : VASP.CertificateRequests v0 = []).
  { revert Hv0. cbn [VASP.CommonName].
    destruct (GoString.is_empty (RegisterRequest.CommonName req)).
    - destruct (Net.SplitHostPort _) as [e | [host port]]; intros Hv0;
        [exfalso; eapply throw_Ok, Hv0 |].
      apply ret_Ok in Hv0 as [<- _]. reflexivity.
    - destruct (ValidateCommonName _); intros Hv0;
        [exfalso; eapply throw_Ok, Hv0 |].
      apply ret_Ok in Hv0 as [<- _]. reflexivity. }
  assert (Hcr : VASP.CertificateRequests vm = []).
  { rewrite HCr, Hv1. exact Hnone. }
  assert (Hst : CertificateRequest.Status r1 = INITIALIZED /\
                CertificateRequest.Id r1 = CertificateRequest.Id r0 /\
                CertificateRequest.Vasp r1 = VASP.Id vm).
  { rewrite Hr1. cbn. auto. }
  destruct Hst as (Hst & Hrid & Hrv).
  exists v3, r1. cbn [RegisterReply.Id RegisterReply.Status
                      RegisterReply.Pkcs12Password].
  rewrite Hf, Hu. cbn [vasps certreqs with_vasps with_certreqs].
  rewrite !lookup_insert_eq.
  split; [reflexivity |]. split; [reflexivity |]. split; [reflexivity |].
  split; [rewrite Hv3; cbn; rewrite Hcr; reflexivity |].
  split; [reflexivity |].
  split; [rewrite Hrv, Hv3; reflexivity |].
  split; [exact Hst |].
  split; [rewrite Hr1; cbn; rewrite Hr0l, Hr0s; eauto |].
  split; [| exact Hp].
  unfold LatestVersion in *. cbn. exact Ha.
Qed.

(** C1 (as stated) fails. The happy registration succeeds and the one
    certificate request it stores is in INITIALIZED, not READY_TO_SUBMIT:
    Register records the state INITIALIZED and makes no other transition. *)
Lemma Register_request_not_READY_TO_SUBMIT :
  exists reply w' request,
    Register Sample.env Sample.request Sample.empty = (Ok reply, w')
    /\ snd <$> map_to_list (certreqs w') = [request]
    /\ CertificateRequest.Vasp request = RegisterReply.Id reply
    /\ CertificateRequest.Status request = INITIALIZED
    /\ CertificateRequest.Status request <> READY_TO_SUBMIT.
Proof.
  eexists _, _, _. split; [vm_compute; reflexivity |].
  split; [vm_compute; reflexivity |].
  split; [reflexivity |]. split; [reflexivity | discriminate].
Qed.

(** C1 (amended). After a successful Register the certificate request it
    created is stored, belongs to the registered VASP, which lists it, and its
    status is INITIALIZED, with the one audit entry of its creation. *)
Theorem Register_persists_request_INITIALIZED
    (env : Env) (req : RegisterRequest.t) (w w' : World)
    (reply : RegisterReply.t)
    (Hok : Register env req w = (Ok reply, w')) :
  exists vasp request,
    vasps w' !! RegisterReply.Id reply = Some vasp
    /\ VASP.CertificateRequests vasp = [CertificateRequest.Id request]
    /\ certreqs w' !! CertificateRequest.Id request = Some request
    /\ CertificateRequest.Vasp request = RegisterReply.Id reply
    /\ CertificateRequest.Status request = INITIALIZED
    /\ exists now source,
         CertificateRequest.AuditLog request
         = [audit now INITIALIZED INITIALIZED "created certificate request"
              source].
Proof.
  apply Register_Ok in Hok
    as (vasp & request & Hv & _ & _ & Hl & Hr & Hrv & Hs & Ha & _).
  exists vasp, request. auto 10.
Qed.

Lemma Register_persists_request_INITIALIZED_witness :
  Register Sample.env Sample.request Sample.empty
  = (Ok (RegisterReply.mk "id-0123" "trisatest.net" "trisa.example.com"
           SUBMITTED registered_message "AHOV29gnuBIPW3ah"),
     Sample.registered)
  /\ exists vasp request,
       vasps Sample.registered !! "id-0123" = Some vasp
       /\ VASP.CertificateRequests vasp = [CertificateRequest.Id request]
       /\ certreqs Sample.registered !! CertificateRequest.Id request
          = Some request
       /\ CertificateRequest.Vasp request = "id-0123"
       /\ CertificateRequest.Status request = INITIALIZED
       /\ exists now source,
            CertificateRequest.AuditLog request
            = [audit now INITIALIZED INITIALIZED "created certificate request"
                 source].
Proof.
  assert (H : Register Sample.env Sample.request Sample.empty
              = (Ok (RegisterReply.mk "id-0123" "trisatest.net"
                       "trisa.example.com" SUBMITTED registered_message
                       "AHOV29gnuBIPW3ah"),
                 Sample.registered)) by (vm_compute; reflexivity).
  split; [exact H |].
  exact (Register_persists_request_INITIALIZED _ _ _ _ _ H).
Defined.

(** C2. After a successful Register the latest version of the "password"
    secret in the vault, under the scope of the certificate request that
    Register created, is 16 bytes long and equal to the Pkcs12Password of the
    reply. *)
Theorem Register_password_in_vault
    (env : Env) (req : RegisterRequest.t) (w w' : World)
    (reply : RegisterReply.t)
    (Hok : Register env req w = (Ok reply, w')) :
  exists vasp request,
    vasps w' !! RegisterReply.Id reply = Some vasp
    /\ VASP.CertificateRequests vasp = [CertificateRequest.Id request]
    /\ certreqs w' !! CertificateRequest.Id request = Some request
    /\ LatestVersion w' (CertificateRequest.Id request) "password"
       = Some (RegisterReply.Pkcs12Password reply)
    /\ String.length (RegisterReply.Pkcs12Password reply) = 16.
Proof.
  apply Register_Ok in Hok
    as (vasp & request & Hv & _ & _ & Hl & Hr & _ & _ & _ & Hp & Hlen).
  exists vasp, request. auto 10.
Qed.

Lemma Register_password_in_vault_witness :
  Register Sample.env Sample.request Sample.empty
  = (Ok (RegisterReply.mk "id-0123" "trisatest.net" "trisa.example.com"
           SUBMITTED registered_message "AHOV29gnuBIPW3ah"),
     Sample.registered)
  /\ exists vasp request,
       vasps Sample.registered !! "id-0123" = Some vasp
       /\ VASP.CertificateRequests vasp = [CertificateRequest.Id request]
       /\ certreqs Sample.registered !! CertificateRequest.Id request
          = Some request
       /\ LatestVersion Sample.registered (CertificateRequest.Id request)
            "password" = Some "AHOV29gnuBIPW3ah"
       /\ String.length "AHOV29gnuBIPW3ah" = 16.
Proof.
  assert (H : Register Sample.env Sample.request Sample.empty
              = (Ok (RegisterReply.mk "id-0123" "trisatest.net"
                       "trisa.example.com" SUBMITTED registered_message
                       "AHOV29gnuBIPW3ah"),
                 Sample.registered)) by (vm_compute; reflexivity).
  split; [exact H |].
  exact (Register_password_in_vault _ _ _ _ _ H).
Defined.

(** C6 (as stated) fails. Without a common name, the host of the endpoint
    becomes the common name unchecked: for the endpoint "*.example.com:443"
    the effective common name starts with '*' and does not match [cnre],
    which ValidateCommonName refuses, yet Register succeeds and stores the
    VASP under that name. *)
Lemma Register_accepts_wildcard_host :
  effective_common_name Sample.wildcard_host = "*.example.com"
  /\ GoString.HasPrefix (effective_common_name Sample.wildcard_host) "*" = true
  /\ Regexp.MatchString cnre (effective_common_name Sample.wildcard_host)
     = false
  /\ ValidateCommonName (effective_common_name Sample.wildcard_host)
     = Some "wildcards are not allowed in TRISA common names"
  /\ exists reply w' vasp,
       Register Sample.env Sample.wildcard_host Sample.empty = (Ok reply, w')
       /\ vasps w' !! RegisterReply.Id reply = Some vasp
       /\ VASP.CommonName vasp = "*.example.com".
Proof.
  split; [vm_compute; reflexivity |]. split; [vm_compute; reflexivity |].
  split; [vm_compute; reflexivity |]. split; [vm_compute; reflexivity |].
  eexists _, _, _. split; [vm_compute; reflexivity |].
  split; [vm_compute; reflexivity | reflexivity].
Qed.

Lemma ValidateCommonName_refuses name :
  GoString.HasPrefix name "*" = true
  \/ Regexp.MatchString cnre name = false ->
  ValidateCommonName name <> None.
Proof.
  unfold ValidateCommonName. intros H.
  destruct (GoString.is_empty name); [discriminate |].
  destruct (GoString.HasPrefix name "*"); [discriminate |].
  destruct H as [H | H]; [discriminate |]. rewrite H. discriminate.
Qed.

(** C6 (amended). When a common name is supplied, it must match the grammar
    of [cnre] and must not start with '*'; otherwise Register returns
    INVALID_ARGUMENT and leaves the world, hence the store, as it was. *)
Theorem Register_rejects_invalid_supplied_common_name
    (env : Env) (req : RegisterRequest.t) (w : World)
    (Hsupplied : RegisterRequest.CommonName req <> "")
    (Hinvalid : GoString.HasPrefix (RegisterRequest.CommonName req) "*" = true
                \/ Regexp.MatchString cnre (RegisterRequest.CommonName req)
                   = false) :
  exists msg, Register env req w = (Error InvalidArgument msg, w).
Proof.
  apply is_empty_false in Hsupplied.
  apply ValidateCommonName_refuses in Hinvalid.
  unfold Register.
  destruct (GoString.is_empty (RegisterRequest.TrisaEndpoint req));
    [eexists; reflexivity |].
  destruct (validateEndpoint (RegisterRequest.TrisaEndpoint req));
    [eexists; reflexivity |].
  cbn [VASP.CommonName]. rewrite Hsupplied.
  destruct (ValidateCommonName (RegisterRequest.CommonName req));
    [| congruence].
  eexists. reflexivity.
Qed.

Lemma Register_rejects_invalid_supplied_common_name_witness :
  RegisterRequest.CommonName Sample.wildcard_name <> ""
  /\ (GoString.HasPrefix (RegisterRequest.CommonName Sample.wildcard_name) "*"
      = true
      \/ Regexp.MatchString cnre
           (RegisterRequest.CommonName Sample.wildcard_name) = false)
  /\ exists msg,
       Register Sample.env Sample.wildcard_name Sample.empty
       = (Error InvalidArgument msg, Sample.empty).
Proof.
  assert (H1 : RegisterRequest.CommonName Sample.wildcard_name <> "")
    by (vm_compute; discriminate).
  assert (H2 : GoString.HasPrefix
                 (RegisterRequest.CommonName Sample.wildcard_name) "*" = true
               \/ Regexp.MatchString cnre
                    (RegisterRequest.CommonName Sample.wildcard_name) = false)
    by (left; vm_compute; reflexivity).
  split; [exact H1 |]. split; [exact H2 |].
  exact (Register_rejects_invalid_supplied_common_name
           Sample.env Sample.wildcard_name Sample.empty H1 H2).
Defined.

(** ** Certificate Manager *)

Lemma valid_for_submission_false s :
  s ∉ [REVIEWED; ISSUING_CERTIFICATE; VERIFIED] ->
  valid_for_submission s = false.
Proof.
  intros H. destruct s; try reflexivity; exfalso; apply H;
    repeat first [apply list_elem_of_here | apply list_elem_of_further].
Qed.

Lemma valid_for_submission_true s :
  s ∈ [REVIEWED; ISSUING_CERTIFICATE; VERIFIED] ->
  valid_for_submission s = true.
Proof.
  intros H. repeat (apply elem_of_cons in H as [-> | H]; [reflexivity |]).
  apply elem_of_nil in H. contradiction.
Qed.

(** C3. A tick on a stored request in READY_TO_SUBMIT whose VASP is in none
    of the states REVIEWED, ISSUING_CERTIFICATE, VERIFIED rejects the request:
    it is stored in CR_REJECTED, with the audit entry of that transition by
    "automated", and the tick calls the CA not at all, so no batch is
    submitted. *)
Theorem tick_rejects_request_of_invalid_vasp
    (env : Env) (ca : CA.t) (profile id : string) (m : Manager)
    (r : CertificateRequest.t) (vasp : VASP.t)
    (Hr : certreqs (world m) !! id = Some r)
    (Hid : CertificateRequest.Id r = id)
    (Hstatus : CertificateRequest.Status r = READY_TO_SUBMIT)
    (Hvasp : vasps (world m) !! CertificateRequest.Vasp r = Some vasp)
    (Hstate : VASP.VerificationStatus vasp
              ∉ [REVIEWED; ISSUING_CERTIFICATE; VERIFIED]) :
  exists m' r' e,
    tick env ca profile id m = Some m'
    /\ certreqs (world m') !! id = Some r'
    /\ CertificateRequest.Status r' = CR_REJECTED
    /\ CertificateRequest.AuditLog r' = (CertificateRequest.AuditLog r ++ [e])%list
    /\ records READY_TO_SUBMIT CR_REJECTED e
    /\ AuditLogEntry.Description e = "vasp not in valid state for submission"
    /\ AuditLogEntry.Source e = "automated"
    /\ ca_log m' = ca_log m
    /\ vasps (world m') = vasps (world m).
Proof.
  unfold tick. rewrite Hr, Hstatus. unfold submit. rewrite Hvasp.
  rewrite (valid_for_submission_false _ Hstate). cbn [negb].
  eexists _, _, _. split; [reflexivity |].
  unfold transition_request. cbn. rewrite Hid, lookup_insert_eq.
  split; [reflexivity |]. cbn. rewrite Hstatus.
  repeat split; reflexivity.
Qed.

Lemma tick_rejects_request_of_invalid_vasp_witness :
  certreqs (world (Fixture.start PENDING_REVIEW)) !! "quebec"
  = Some (Fixture.request "quebec" "echo" READY_TO_SUBMIT 0)
  /\ vasps (world (Fixture.start PENDING_REVIEW)) !! "echo"
     = Some (Fixture.vasp "echo" PENDING_REVIEW)
  /\ (PENDING_REVIEW ∉ [REVIEWED; ISSUING_CERTIFICATE; VERIFIED])
  /\ exists m' r' e,
       tick Sample.env Fixture.rejecting Fixture.profile "quebec"
         (Fixture.start PENDING_REVIEW) = Some m'
       /\ certreqs (world m') !! "quebec" = Some r'
       /\ CertificateRequest.Status r' = CR_REJECTED
       /\ CertificateRequest.AuditLog r' = [e]
       /\ records READY_TO_SUBMIT CR_REJECTED e
       /\ AuditLogEntry.Description e = "vasp not in valid state for submission"
       /\ AuditLogEntry.Source e = "automated"
       /\ ca_log m' = []
       /\ vasps (world m') = vasps (Fixture.store PENDING_REVIEW).
Proof.
  assert (H1 : certreqs (world (Fixture.start PENDING_REVIEW)) !! "quebec"
               = Some (Fixture.request "quebec" "echo" READY_TO_SUBMIT 0))
    by (vm_compute; reflexivity).
  assert (H2 : vasps (world (Fixture.start PENDING_REVIEW)) !! "echo"
               = Some (Fixture.vasp "echo" PENDING_REVIEW))
    by (vm_compute; reflexivity).
  assert (H3 : PENDING_REVIEW ∉ [REVIEWED; ISSUING_CERTIFICATE; VERIFIED]).
  { intros H. repeat (apply elem_of_cons in H as [H | H]; [discriminate |]).
    apply elem_of_nil in H. exact H. }
  split; [exact H1 |]. split; [exact H2 |]. split; [exact H3 |].
  exact (tick_rejects_request_of_invalid_vasp Sample.env Fixture.rejecting
           Fixture.profile "quebec" (Fixture.start PENDING_REVIEW)
           _ _ H1 eq_refl eq_refl H2 H3).
Defined.

(** C4 (as stated) fails. With the VASP in PENDING_REVIEW the gate comes
    first: although the CA has no balance, the tick moves the request from
    READY_TO_SUBMIT to CR_REJECTED. *)
Lemma tick_no_balance_still_rejects :
  CA.UserAvailableBalance Fixture.broke = Some 0
  /\ (CertificateRequest.Status
        <$> certreqs (world (Fixture.start PENDING_REVIEW)) !! "quebec")
     = Some READY_TO_SUBMIT
  /\ exists m',
       tick Sample.env Fixture.broke Fixture.profile "quebec"
         (Fixture.start PENDING_REVIEW) = Some m'
       /\ (CertificateRequest.Status <$> certreqs (world m') !! "quebec")
          = Some CR_REJECTED.
Proof.
  split; [reflexivity |]. split; [vm_compute; reflexivity |].
  eexists. split; vm_compute; reflexivity.
Qed.

(** One tick without balance, on a VASP that passes the gate. *)
Lemma submit_no_balance ca profile (m : Manager) r vasp :
  vasps (world m) !! CertificateRequest.Vasp r = Some vasp ->
  VASP.Id vasp = CertificateRequest.Vasp r ->
  valid_for_submission (VASP.VerificationStatus vasp) = true ->
  CA.UserAvailableBalance ca = Some 0 ->
  let m' := submit ca profile r m in
  certreqs (world m') = certreqs (world m)
  /\ vault (world m') = vault (world m)
  /\ Forall (fun c => CA.is_batch c = false) (drop (length (ca_log m)) (ca_log m'))
  /\ (VASP.VerificationStatus vasp = REVIEWED ->
      exists e,
        vasps (world m')
        = <[CertificateRequest.Vasp r :=
              VASP.with_status ISSUING_CERTIFICATE
                (VASP.AuditLog vasp ++ [e])%list vasp]> (vasps (world m))
        /\ records REVIEWED ISSUING_CERTIFICATE e
        /\ AuditLogEntry.Source e = "automated")
  /\ (VASP.VerificationStatus vasp <> REVIEWED -> world m' = world m).
Proof.
  intros Hv Hid Hvalid Hbal. unfold submit. rewrite Hv, Hvalid. cbn [negb].
  destruct (decide (VASP.VerificationStatus vasp = REVIEWED)) as [Hrev | Hrev].
  - set (w := transition_vasp ISSUING_CERTIFICATE "issuing certificate" vasp
                (world m)).
    assert (Hw : certreqs w = certreqs (world m) /\ vault w = vault (world m)
                 /\ vasps w
                    = <[CertificateRequest.Vasp r :=
                          VASP.with_status ISSUING_CERTIFICATE
                            (VASP.AuditLog vasp
                             ++ [audit (clock (world m)) REVIEWED
                                   ISSUING_CERTIFICATE "issuing certificate"
                                   automated])%list vasp]> (vasps (world m))).
    { unfold w, transition_vasp. cbn. rewrite Hid, Hrev. auto. }
    destruct Hw as (Hc & Hva & Hvs). rewrite Hbal. cbn [Nat.eqb].
    destruct (LatestVersion w (CertificateRequest.Id r) "password"); cbn.
    + rewrite drop_app_length. repeat split; try assumption.
      * repeat constructor.
      * intros _. eexists. split; [exact Hvs |]. repeat split; reflexivity.
      * intros H. contradiction.
    + rewrite drop_all. repeat split; try assumption.
      * constructor.
      * intros _. eexists. split; [exact Hvs |]. repeat split; reflexivity.
      * intros H. contradiction.
  - rewrite Hbal. cbn [Nat.eqb].
    destruct (LatestVersion (world m) (CertificateRequest.Id r) "password"); cbn.
    + rewrite drop_app_length. repeat split; try reflexivity.
      * repeat constructor.
      * intros H. contradiction.
    + rewrite drop_all. repeat split; try reflexivity.
      * constructor.
      * intros H. contradiction.
Qed.

(** C4 (amended). A tick on a stored request in READY_TO_SUBMIT whose VASP is
    in REVIEWED, ISSUING_CERTIFICATE or VERIFIED, when the CA has no balance:
    the requests and the vault are as before, so the request stays in
    READY_TO_SUBMIT, and no batch is submitted. A VASP in REVIEWED moves to
    ISSUING_CERTIFICATE with one audit entry by "automated" and is otherwise
    the same record; a VASP in another state leaves the whole world
    unchanged. A second tick changes no VASP again: the transition happens at
    most once. *)
Theorem tick_no_balance_keeps_request
    (env : Env) (ca : CA.t) (profile id : string) (m : Manager)
    (r : CertificateRequest.t) (vasp : VASP.t)
    (Hr : certreqs (world m) !! id = Some r)
    (Hstatus : CertificateRequest.Status r = READY_TO_SUBMIT)
    (Hvasp : vasps (world m) !! CertificateRequest.Vasp r = Some vasp)
    (Hvid : VASP.Id vasp = CertificateRequest.Vasp r)
    (Hstate : VASP.VerificationStatus vasp
              ∈ [REVIEWED; ISSUING_CERTIFICATE; VERIFIED])
    (Hbalance : CA.UserAvailableBalance ca = Some 0) :
  exists m',
    tick env ca profile id m = Some m'
    /\ certreqs (world m') = certreqs (world m)
    /\ certreqs (world m') !! id = Some r
    /\ Forall (fun c => CA.is_batch c = false)
         (drop (length (ca_log m)) (ca_log m'))
    /\ (VASP.VerificationStatus vasp = REVIEWED ->
        exists e,
          vasps (world m')
          = <[CertificateRequest.Vasp r :=
                VASP.with_status ISSUING_CERTIFICATE
                  (VASP.AuditLog vasp ++ [e])%list vasp]> (vasps (world m))
          /\ records REVIEWED ISSUING_CERTIFICATE e
          /\ AuditLogEntry.Source e = "automated")
    /\ (VASP.VerificationStatus vasp <> REVIEWED -> world m' = world m)
    /\ exists m'',
         tick env ca profile id m' = Some m'' /\ world m'' = world m'.
Proof.
  apply valid_for_submission_true in Hstate.
  destruct (submit_no_balance ca profile m r vasp Hvasp Hvid Hstate Hbalance)
    as (Hc & Hva & Hlog & Hrev & Hother).
  exists (submit ca profile r m).
  assert (Htick : tick env ca profile id m = Some (submit ca profile r m)).
  { unfold tick. rewrite Hr, Hstatus. reflexivity. }
  split; [exact Htick |]. split; [exact Hc |].
  split; [rewrite Hc; exact Hr |]. split; [exact Hlog |].
  split; [exact Hrev |]. split; [exact Hother |].
  (* the second tick *)
  set (m' := submit ca profile r m) in *.
  exists (submit ca profile r m'). split.
  { unfold tick. rewrite Hc, Hr, Hstatus. reflexivity. }
  destruct (decide (VASP.VerificationStatus vasp = REVIEWED)) as [Heq | Hne].
  - destruct (Hrev Heq) as (e & Hvs & _).
    set (vasp' := VASP.with_status ISSUING_CERTIFICATE
                    (VASP.AuditLog vasp ++ [e])%list vasp) in *.
    assert (Hv' : vasps (world m') !! CertificateRequest.Vasp r = Some vasp')
      by (rewrite Hvs; apply lookup_insert_eq).
    destruct (submit_no_balance ca profile m' r vasp' Hv' Hvid eq_refl
                Hbalance) as (_ & _ & _ & _ & Hsame).
    apply Hsame. discriminate.
  - assert (Hv' : vasps (world m') !! CertificateRequest.Vasp r = Some vasp)
      by (rewrite (Hother Hne); exact Hvasp).
    destruct (submit_no_balance ca profile m' r vasp Hv' Hvid Hstate
                Hbalance) as (_ & _ & _ & _ & Hsame).
    apply Hsame. exact Hne.
Qed.

Lemma tick_no_balance_keeps_request_witness :
  certreqs (world (Fixture.start REVIEWED)) !! "quebec"
  = Some (Fixture.request "quebec" "echo" READY_TO_SUBMIT 0)
  /\ vasps (world (Fixture.start REVIEWED)) !! "echo"
     = Some (Fixture.vasp "echo" REVIEWED)
  /\ (REVIEWED ∈ [REVIEWED; ISSUING_CERTIFICATE; VERIFIED])
  /\ CA.UserAvailableBalance Fixture.broke = Some 0
  /\ exists m',
       tick Sample.env Fixture.broke Fixture.profile "quebec"
         (Fixture.start REVIEWED) = Some m'
       /\ certreqs (world m') = certreqs (Fixture.store REVIEWED)
       /\ certreqs (world m') !! "quebec"
          = Some (Fixture.request "quebec" "echo" READY_TO_SUBMIT 0)
       /\ Forall (fun c => CA.is_batch c = false) (drop 0 (ca_log m'))
       /\ (REVIEWED = REVIEWED ->
           exists e,
             vasps (world m')
             = <["echo" :=
                   VASP.with_status ISSUING_CERTIFICATE [e]
                     (Fixture.vasp "echo" REVIEWED)]>
                 (vasps (Fixture.store REVIEWED))
             /\ records REVIEWED ISSUING_CERTIFICATE e
             /\ AuditLogEntry.Source e = "automated")
       /\ (REVIEWED <> REVIEWED -> world m' = Fixture.store REVIEWED)
       /\ exists m'',
            tick Sample.env Fixture.broke Fixture.profile "quebec" m'
            = Some m'' /\ world m'' = world m'.
Proof.
  assert (H1 : certreqs (world (Fixture.start REVIEWED)) !! "quebec"
               = Some (Fixture.request "quebec" "echo" READY_TO_SUBMIT 0))
    by (vm_compute; reflexivity).
  assert (H2 : vasps (world (Fixture.start REVIEWED)) !! "echo"
               = Some (Fixture.vasp "echo" REVIEWED))
    by (vm_compute; reflexivity).
  assert (H3 : REVIEWED ∈ [REVIEWED; ISSUING_CERTIFICATE; VERIFIED])
    by apply list_elem_of_here.
  split; [exact H1 |]. split; [exact H2 |]. split; [exact H3 |].
  split; [reflexivity |].
  exact (tick_no_balance_keeps_request Sample.env Fixture.broke
           Fixture.profile "quebec" (Fixture.start REVIEWED) _ _
           H1 eq_refl H2 eq_refl H3 eq_refl).
Defined.

(** C5. A tick on a stored request in PROCESSING whose batch the CA reports
    as failed (nothing active, no success, a failure) with the status
    REJECTED: the request is stored in CR_REJECTED, with the audit entry
    PROCESSING -> CR_REJECTED by "automated" appended, while the VASP keeps
    its verification status and its audit log; a VASP that was in
    ISSUING_CERTIFICATE remains there. *)
Theorem tick_CA_rejection_keeps_vasp
    (env : Env) (ca : CA.t) (profile id : string) (m : Manager)
    (r : CertificateRequest.t) (vasp : VASP.t)
    (info : CA.ProcessingInfo) (detail : CA.BatchDetailResponse)
    (Hr : certreqs (world m) !! id = Some r)
    (Hid : CertificateRequest.Id r = id)
    (Hstatus : CertificateRequest.Status r = PROCESSING)
    (Hvasp : vasps (world m) !! CertificateRequest.Vasp r = Some vasp)
    (Hvid : VASP.Id vasp = CertificateRequest.Vasp r)
    (Hinfo : CA.BatchProcessingInfo ca (CertificateRequest.BatchId r)
             = Some info)
    (Hactive : CA.active info = 0)
    (Hsuccess : CA.success info = 0)
    (Hfailed : 0 < CA.failed info)
    (Hdetail : CA.BatchDetail ca (CertificateRequest.BatchId r) = Some detail)
    (Hrejected : CA.detail_status detail = "REJECTED") :
  exists m' r' e vasp',
    tick env ca profile id m = Some m'
    /\ certreqs (world m') !! id = Some r'
    /\ CertificateRequest.Status r' = CR_REJECTED
    /\ CertificateRequest.AuditLog r'
       = (CertificateRequest.AuditLog r ++ [e])%list
    /\ records PROCESSING CR_REJECTED e
    /\ AuditLogEntry.Source e = "automated"
    /\ vasps (world m') !! CertificateRequest.Vasp r = Some vasp'
    /\ VASP.VerificationStatus vasp' = VASP.VerificationStatus vasp
    /\ VASP.AuditLog vasp' = VASP.AuditLog vasp
    /\ (VASP.VerificationStatus vasp = ISSUING_CERTIFICATE ->
        VASP.VerificationStatus vasp' = ISSUING_CERTIFICATE).
Proof.
  unfold tick. rewrite Hr, Hstatus. unfold process.
  rewrite Hinfo, Hactive, Hsuccess. cbn [Nat.ltb Nat.leb Nat.eqb].
  destruct (CA.failed info) as [| n] eqn:Hf; [lia |].
  cbn [Nat.ltb Nat.leb andb].
  unfold batch_status. rewrite Hdetail, Hrejected. cbn [GoString.is_empty].
  change (String.eqb "REJECTED" CA.REJECTED) with true. cbn iota.
  unfold reject, transition_request. cbn -[send]. rewrite Hvasp.
  unfold send.
  assert (Hsame : sans_contacts
                    (log_sends (courier env RejectRegistrationEmail vasp) vasp)
                  = sans_contacts vasp) by apply log_sends_sans.
  apply sans_contacts_fields in Hsame as (HId & HSt & HLog & _).
  set (vasp' := log_sends (courier env RejectRegistrationEmail vasp) vasp) in *.
  clearbody vasp'. cbn. rewrite HId, Hid, Hvid.
  eexists _, _, _, vasp'. split; [reflexivity |]. cbn.
  rewrite !lookup_insert_eq. split; [reflexivity |]. cbn. rewrite Hstatus.
  repeat split; try reflexivity; try assumption.
  intros H. rewrite HSt. exact H.
Qed.

Lemma tick_CA_rejection_keeps_vasp_witness :
  certreqs (world (Fixture.start ISSUING_CERTIFICATE)) !! "sierra"
  = Some (Fixture.request "sierra" "foxtrot" PROCESSING 42)
  /\ vasps (world (Fixture.start ISSUING_CERTIFICATE)) !! "foxtrot"
     = Some (Fixture.vasp "foxtrot" ISSUING_CERTIFICATE)
  /\ CA.BatchProcessingInfo Fixture.rejecting 42 = Some (CA.mkInfo 0 0 1)
  /\ CA.BatchDetail Fixture.rejecting 42
     = Some (CA.mkDetail "REJECTED" "not a member" "batch-42")
  /\ exists m' r' e vasp',
       tick Sample.env Fixture.rejecting Fixture.profile "sierra"
         (Fixture.start ISSUING_CERTIFICATE) = Some m'
       /\ certreqs (world m') !! "sierra" = Some r'
       /\ CertificateRequest.Status r' = CR_REJECTED
       /\ CertificateRequest.AuditLog r' = [e]
       /\ records PROCESSING CR_REJECTED e
       /\ AuditLogEntry.Source e = "automated"
       /\ vasps (world m') !! "foxtrot" = Some vasp'
       /\ VASP.VerificationStatus vasp' = ISSUING_CERTIFICATE
       /\ VASP.AuditLog vasp' = []
       /\ (ISSUING_CERTIFICATE = ISSUING_CERTIFICATE ->
           VASP.VerificationStatus vasp' = ISSUING_CERTIFICATE).
Proof.
  assert (H1 : certreqs (world (Fixture.start ISSUING_CERTIFICATE)) !! "sierra"
               = Some (Fixture.request "sierra" "foxtrot" PROCESSING 42))
    by (vm_compute; reflexivity).
  assert (H2 : vasps (world (Fixture.start ISSUING_CERTIFICATE)) !! "foxtrot"
               = Some (Fixture.vasp "foxtrot" ISSUING_CERTIFICATE))
    by (vm_compute; reflexivity).
  split; [exact H1 |]. split; [exact H2 |].
  split; [reflexivity |]. split; [reflexivity |].
  exact (tick_CA_rejection_keeps_vasp Sample.env Fixture.rejecting
           Fixture.profile "sierra" (Fixture.start ISSUING_CERTIFICATE)
           _ _ (CA.mkInfo 0 0 1)
           (CA.mkDetail "REJECTED" "not a member" "batch-42")
           H1 eq_refl eq_refl H2 eq_refl eq_refl eq_refl eq_refl
           (le_n 1) eq_refl eq_refl).
Defined.

(** ** VerifyContact *)

(** *** Contacts of a VASP *)

Lemma contact_with_status k s l v :
  VASP.contact k (VASP.with_status s l v) = VASP.contact k v.
Proof. reflexivity. Qed.

Lemma contact_with_AdminVerificationToken k x v :
  VASP.contact k (VASP.with_AdminVerificationToken x v) = VASP.contact k v.
Proof. reflexivity. Qed.

Lemma contact_set_contact_eq k c v :
  is_Some (VASP.contact k v) ->
  VASP.contact k (VASP.set_contact k c v) = c.
Proof.
  destruct v as [? ? ? cs ? ? ? ? ? ? ? ? ? ? ? ? ? ? ?].
  destruct cs as [cs |]; [| intros [x Hx]; discriminate].
  intros _. destruct k; reflexivity.
Qed.

Lemma contact_set_contact_ne k k' c v :
  k <> k' -> VASP.contact k' (VASP.set_contact k c v) = VASP.contact k' v.
Proof.
  intros Hne. destruct v as [? ? ? cs ? ? ? ? ? ? ? ? ? ? ? ? ? ? ?].
  destruct cs as [cs |]; [| reflexivity].
  destruct k, k'; try reflexivity; contradiction.
Qed.

Lemma log_sends_contact o v k :
  VASP.contact k (log_sends o v)
  = Contact.with_log (appended o k) <$> VASP.contact k v.
Proof.
  destruct v as [? ? ? cs ? ? ? ? ? ? ? ? ? ? ? ? ? ? ?].
  destruct cs as [[t a l b] |]; [| reflexivity].
  destruct t, a, l, b, k; reflexivity.
Qed.

Lemma core_set_contact k c v : core (VASP.set_contact k c v) = core v.
Proof.
  unfold VASP.set_contact. destruct (VASP.Contacts v); reflexivity.
Qed.

Lemma core_with_status l v :
  core (VASP.with_status (VASP.VerificationStatus v) l v) = core v.
Proof. reflexivity. Qed.

Lemma core_fields v v' :
  core v' = core v ->
  VASP.Id v' = VASP.Id v
  /\ VASP.VerificationStatus v' = VASP.VerificationStatus v
  /\ VASP.AdminVerificationToken v' = VASP.AdminVerificationToken v.
Proof.
  destruct v, v'. unfold core, sans_contacts, VASP.with_status,
    VASP.with_Contacts. simpl.
  intros H. inversion H. subst. auto.
Qed.

(** *** The iterator over all contacts *)

Lemma iterate_contacts_all cs seen kinds k :
  k ∈ iterate_contacts cs false false seen kinds
  <-> k ∈ kinds /\ is_Some (Contacts.get k cs).
Proof.
  revert seen. induction kinds as [| k0 kinds IH]; intros seen; simpl.
  - split; [intros H | intros [H _]]; apply elem_of_nil in H; contradiction.
  - destruct (Contacts.get k0 cs) as [c |] eqn:Hc.
    + rewrite !elem_of_cons, IH. split.
      * intros [-> | [H1 H2]]; [rewrite Hc; eauto | auto].
      * intros [[-> | H1] H2]; auto.
    + rewrite IH, elem_of_cons. split.
      * intros [H1 H2]. auto.
      * intros [[-> | H1] H2]; [| auto].
        rewrite Hc in H2. destruct H2 as [x Hx]. discriminate.
Qed.

Lemma iterate_contacts_sublist cs a b seen kinds :
  iterate_contacts cs a b seen kinds `sublist_of` kinds.
Proof.
  revert seen. induction kinds as [| k kinds IH]; intros seen; simpl.
  - constructor.
  - destruct (Contacts.get k cs) as [c |]; [| apply sublist_cons, IH].
    destruct (a && GoString.is_empty (Contact.Email c));
      [apply sublist_cons, IH |].
    destruct (b && existsb (String.eqb (Contact.Email c)) seen);
      [apply sublist_cons, IH | apply sublist_skip, IH].
Qed.

Lemma contactOrder_NoDup : NoDup contactOrder.
Proof.
  apply (bool_decide_unpack _). vm_compute. exact I.
Qed.

Lemma NewContactIterator_NoDup cs a b : NoDup (NewContactIterator cs a b).
Proof.
  destruct cs as [cs |]; unfold NewContactIterator; [| constructor].
  eapply sublist_NoDup;
    [apply contactOrder_NoDup | apply iterate_contacts_sublist].
Qed.

Lemma NewContactIterator_all v k :
  k ∈ NewContactIterator (VASP.Contacts v) false false
  <-> is_Some (VASP.contact k v).
Proof.
  unfold NewContactIterator, VASP.contact.
  destruct (VASP.Contacts v) as [cs |].
  - rewrite iterate_contacts_all. split; [intros [_ H]; exact H |].
    intros H. split; [| exact H].
    unfold contactOrder. destruct k; rewrite !elem_of_cons; auto.
  - split; [intros H; apply elem_of_nil in H; contradiction |].
    intros [x Hx]. discriminate.
Qed.

(** *** The loop over the contacts *)

Lemma existsb_agree {A} (f g : A -> bool) (l : list A) :
  (forall x, x ∈ l -> f x = g x) -> existsb f l = existsb g l.
Proof.
  induction l as [| a l IH]; intros H; simpl; [reflexivity |].
  rewrite (H a), IH; [reflexivity | | apply list_elem_of_here].
  intros x Hx. apply H, list_elem_of_further, Hx.
Qed.

Lemma filter_agree {A} (f g : A -> bool) (l : list A) :
  (forall x, x ∈ l -> f x = g x) -> List.filter f l = List.filter g l.
Proof.
  induction l as [| a l IH]; intros H; simpl; [reflexivity |].
  rewrite (H a), IH; [reflexivity | | apply list_elem_of_here].
  intros x Hx. apply H, list_elem_of_further, Hx.
Qed.

Lemma with_clock_same w : with_clock (clock w + 0) w = w.
Proof. destruct w. unfold with_clock. simpl. rewrite Nat.add_0_r. reflexivity. Qed.

Lemma with_clock_twice n w :
  with_clock (clock (with_clock (S (clock w)) w) + n) (with_clock (S (clock w)) w)
  = with_clock (clock w + S n) w.
Proof. destruct w. unfold with_clock. simpl. f_equal. lia. Qed.

Section Scan.

Variable env : Env.
Variable token : string.

(** What a completed loop has done. *)
Lemma scan_contacts_Ok kinds : forall st w st' w',
  NoDup kinds ->
  scan_contacts env token kinds st w = (Ok st', w') ->
  core (scan_vasp st') = core (scan_vasp st)
  /\ (forall k,
        VASP.contact k (scan_vasp st')
        = if bool_decide (k ∈ kinds)
          then verify_contact token <$> VASP.contact k (scan_vasp st)
          else VASP.contact k (scan_vasp st))
  /\ (exists entries,
        VASP.AuditLog (scan_vasp st')
        = (VASP.AuditLog (scan_vasp st) ++ entries)%list
        /\ Forall (records (VASP.VerificationStatus (scan_vasp st))
                     (VASP.VerificationStatus (scan_vasp st))) entries
        /\ w' = with_clock (clock w + length entries) w
        /\ (existsb (slot_matches token (scan_vasp st)) kinds = false ->
            entries = []))
  /\ found st'
     = found st || existsb (slot_matches token (scan_vasp st)) kinds
  /\ prevVerified st'
     = prevVerified st
       + length (List.filter (slot_verified token (scan_vasp st)) kinds).
Proof.
  induction kinds as [| k rest IH]; intros st w st' w' Hnd H.
  - apply ret_Ok in H as [<- <-]. split; [reflexivity |].
    split; [intros k; reflexivity |].
    split; [exists []; rewrite app_nil_r, with_clock_same;
            repeat split; constructor |].
    simpl. rewrite orb_false_r, Nat.add_0_r. split; reflexivity.
  - apply NoDup_cons in Hnd as [Hk Hnd].
    cbn [scan_contacts] in H.
    apply bind_Ok in H as (tv & w1 & Hg & H).
    apply try_Ok, GetContactVerification_Some in Hg as [-> (c & Hc & ->)].
    cbn [fst snd] in H.
    assert (Hrest : forall v1,
               (forall k', k' <> k ->
                  VASP.contact k' v1 = VASP.contact k' (scan_vasp st)) ->
               existsb (slot_matches token v1) rest
               = existsb (slot_matches token (scan_vasp st)) rest
               /\ List.filter (slot_verified token v1) rest
                  = List.filter (slot_verified token (scan_vasp st)) rest).
    { intros v1 Hv1. split; [apply existsb_agree | apply filter_agree];
        intros k' Hk'; unfold slot_matches, slot_verified;
        rewrite Hv1; try reflexivity; intros ->; contradiction. }
    destruct (String.eqb (Contact.Token c) token) eqn:Ht.
    + (* the token matches *)
      apply bind_Ok in H as (v1 & w2 & Hs & H).
      apply try_Ok, SetContactVerification_Some in Hs as [-> (c' & Hc' & ->)].
      rewrite Hc in Hc'. inversion Hc'. subst c'. clear Hc'.
      apply bind_Ok in H as (v2 & w3 & Hu & H).
      apply try_Ok, UpdateVerificationStatus_Some in Hu as [-> ->].
      apply IH in H as (Hcore & Hcontacts & (entries & Hlog & Hall & Hw & _)
                        & Hfound & Hprev); [| exact Hnd].
      cbn [scan_vasp found prevVerified] in *.
      set (v1 := VASP.set_contact k
                   (Some (Contact.with_verification "" true c))
                   (scan_vasp st)) in *.
      assert (Hv1 : core v1 = core (scan_vasp st)) by apply core_set_contact.
      assert (Hother : forall k', k' <> k ->
                VASP.contact k' v1 = VASP.contact k' (scan_vasp st)).
      { intros k' Hne. apply contact_set_contact_ne. congruence. }
      assert (Hthis : VASP.contact k v1
                      = Some (Contact.with_verification "" true c)).
      { apply contact_set_contact_eq. rewrite Hc. eauto. }
      assert (Hlog1 : VASP.AuditLog v1 = VASP.AuditLog (scan_vasp st)).
      { unfold v1, VASP.set_contact.
        destruct (VASP.Contacts (scan_vasp st)); reflexivity. }
      destruct (core_fields _ _ Hv1) as (_ & Hst1 & _).
      set (e := audit (clock w) (VASP.VerificationStatus v1)
                  (VASP.VerificationStatus v1) "contact verified"
                  match VASP.contact k v1 with
                  | Some contact => Contact.Email contact
                  | None => ""
                  end) in *.
      set (v2 := VASP.with_status (VASP.VerificationStatus v1)
                   (VASP.AuditLog v1 ++ [e])%list v1) in *.
      assert (Hc2 : forall k', VASP.contact k' v2 = VASP.contact k' v1)
        by reflexivity.
      assert (Hcore2 : core v2 = core v1) by reflexivity.
      assert (Hlog2 : VASP.AuditLog v2 = (VASP.AuditLog v1 ++ [e])%list)
        by reflexivity.
      assert (Hst2 : VASP.VerificationStatus v2 = VASP.VerificationStatus v1)
        by reflexivity.
      assert (He : records (VASP.VerificationStatus v1)
                     (VASP.VerificationStatus v1) e)
        by (split; reflexivity).
      destruct (Hrest v2) as [Hex Hfi].
      { intros k' Hne. rewrite Hc2. apply Hother, Hne. }
      clearbody v2 e. clearbody v1.
      split; [rewrite Hcore, Hcore2; exact Hv1 |].
      split.
      { intros k'. rewrite Hcontacts, Hc2.
        destruct (decide (k' = k)) as [-> | Hne].
        - rewrite (bool_decide_eq_false_2 _ Hk).
          rewrite bool_decide_eq_true_2 by apply list_elem_of_here.
          rewrite Hthis, Hc. cbn. unfold verify_contact, has_token.
          rewrite Ht. reflexivity.
        - rewrite (Hother _ Hne).
          destruct (bool_decide (k' ∈ rest)) eqn:Hin.
          + apply bool_decide_eq_true_1 in Hin.
            rewrite bool_decide_eq_true_2
              by (apply list_elem_of_further, Hin).
            reflexivity.
          + apply bool_decide_eq_false_1 in Hin.
            rewrite bool_decide_eq_false_2; [reflexivity |].
            rewrite elem_of_cons. intros [? | ?]; contradiction. }
      split.
      { exists (e :: entries).
        rewrite Hlog, Hlog2, Hlog1, <- app_assoc. split; [reflexivity |].
        rewrite Hst2, Hst1 in Hall. rewrite Hst1 in He.
        split; [constructor; [exact He | exact Hall] |].
        split; [rewrite Hw; apply with_clock_twice |].
        cbn [existsb]. unfold slot_matches at 1. rewrite Hc.
        unfold has_token. rewrite Ht. discriminate. }
      split.
      { rewrite Hfound. cbn [existsb]. unfold slot_matches at 2.
        rewrite Hc. unfold has_token. rewrite Ht.
        cbn. rewrite orb_true_r. reflexivity. }
      rewrite Hprev, Hfi. cbn [List.filter]. unfold slot_verified at 2.
      rewrite Hc. unfold has_token. rewrite Ht. reflexivity.
    + (* another token *)
      assert (Hm : slot_matches token (scan_vasp st) k = false)
        by (unfold slot_matches, has_token; rewrite Hc; exact Ht).
      assert (Hin : forall k' (T : Type) (a b : T),
                 k' <> k ->
                 (if bool_decide (k' ∈ k :: rest) then a else b)
                 = (if bool_decide (k' ∈ rest) then a else b)).
      { intros k' T a b Hne. destruct (bool_decide (k' ∈ rest)) eqn:Hin.
        - apply bool_decide_eq_true_1 in Hin.
          rewrite bool_decide_eq_true_2
            by (apply list_elem_of_further, Hin).
          reflexivity.
        - apply bool_decide_eq_false_1 in Hin.
          rewrite bool_decide_eq_false_2; [reflexivity |].
          rewrite elem_of_cons. intros [? | ?]; contradiction. }
      assert (Hkeep : forall k',
                 (if bool_decide (k' ∈ rest)
                  then verify_contact token <$> VASP.contact k' (scan_vasp st)
                  else VASP.contact k' (scan_vasp st))
                 = (if bool_decide (k' ∈ k :: rest)
                    then verify_contact token
                           <$> VASP.contact k' (scan_vasp st)
                    else VASP.contact k' (scan_vasp st))).
      { intros k'. destruct (decide (k' = k)) as [-> | Hne].
        - rewrite (bool_decide_eq_false_2 _ Hk).
          rewrite bool_decide_eq_true_2 by apply list_elem_of_here.
          rewrite Hc. cbn. unfold verify_contact, has_token. rewrite Ht.
          reflexivity.
        - symmetry. apply Hin, Hne. }
      destruct (Contact.Verified c) eqn:Hv.
      * apply IH in H as (Hcore & Hcontacts & (entries & Hlog & Hall & Hw & He)
                          & Hfound & Hprev); [| exact Hnd].
        cbn [scan_vasp found prevVerified] in *.
        split; [exact Hcore |].
        split; [intros k'; rewrite Hcontacts; apply Hkeep |].
        split.
        { exists entries. repeat split; try assumption.
          cbn [existsb]. rewrite Hm. exact He. }
        split; [rewrite Hfound; cbn [existsb]; rewrite Hm; reflexivity |].
        rewrite Hprev. cbn [List.filter]. unfold slot_verified at 2.
        rewrite Hc. unfold has_token. rewrite Ht, Hv. cbn. lia.
      * apply IH in H as (Hcore & Hcontacts & (entries & Hlog & Hall & Hw & He)
                          & Hfound & Hprev); [| exact Hnd].
        split; [exact Hcore |].
        split; [intros k'; rewrite Hcontacts; apply Hkeep |].
        split.
        { exists entries. repeat split; try assumption.
          cbn [existsb]. rewrite Hm. exact He. }
        split; [rewrite Hfound; cbn [existsb]; rewrite Hm; reflexivity |].
        rewrite Hprev. cbn [List.filter]. unfold slot_verified at 2.
        rewrite Hc. unfold has_token. rewrite Ht, Hv. reflexivity.
Qed.

End Scan.

(** *** A successful VerifyContact *)

Lemma verified_everywhere token v v' :
  (forall k,
     VASP.contact k v'
     = if bool_decide (k ∈ all_contacts v)
       then verify_contact token <$> VASP.contact k v
       else VASP.contact k v) ->
  forall k, VASP.contact k v' = verify_contact token <$> VASP.contact k v.
Proof.
  intros H k. rewrite H. destruct (bool_decide (k ∈ all_contacts v)) eqn:Hin;
    [reflexivity |].
  apply bool_decide_eq_false_1 in Hin. unfold all_contacts in Hin.
  rewrite NewContactIterator_all in Hin.
  destruct (VASP.contact k v); [exfalso; apply Hin; eauto | reflexivity].
Qed.

Lemma SetAdminVerificationToken_Some env s v token w v' w' :
  SetAdminVerificationToken env s v token w = (Some v', w') ->
  v' = VASP.with_AdminVerificationToken token v /\ w' = w.
Proof.
  unfold SetAdminVerificationToken. destruct (fault env s); intros H;
    inversion H. auto.
Qed.

Lemma RetrieveVASP_Some env s id w v w' :
  RetrieveVASP env s id w = (Some v, w') -> vasps w !! id = Some v /\ w' = w.
Proof.
  unfold RetrieveVASP. destruct (fault env s); intros H; inversion H. auto.
Qed.

(** The two ways VerifyContact succeeds, for a VASP stored under its id. *)
Lemma VerifyContact_Ok env req w reply w1 vasp :
  vasps w !! VerifyContactRequest.Id req = Some vasp ->
  VASP.Id vasp = VerifyContactRequest.Id req ->
  VerifyContact env req w = (Ok reply, w1) ->
  let token := VerifyContactRequest.Token req in
  let status := VASP.VerificationStatus vasp in
  let verified_before :=
    Nat.ltb 0 (length (List.filter (slot_verified token vasp)
                         (all_contacts vasp)))
    && Nat.ltb (state_number SUBMITTED) (state_number status) in
  token <> ""
  /\ existsb (slot_matches token vasp) (all_contacts vasp) = true
  /\ exists vasp1 entries,
       vasps w1 = <[VerifyContactRequest.Id req := vasp1]> (vasps w)
       /\ certreqs w1 = certreqs w /\ vault w1 = vault w
       /\ Forall (records status status) entries
       /\ ((verified_before = true
            /\ reply = VerifyContactReply.mk status "email successfully verified"
            /\ outbox w1 = outbox w
            /\ core vasp1 = core vasp
            /\ VASP.AuditLog vasp1 = (VASP.AuditLog vasp ++ entries)%list
            /\ forall k, VASP.contact k vasp1
                         = verify_contact token <$> VASP.contact k vasp)
           \/ (verified_before = false
               /\ reply = VerifyContactReply.mk PENDING_REVIEW
                    "email successfully verified and verification review sent to TRISA admins"
               /\ VASP.VerificationStatus vasp1 = PENDING_REVIEW
               /\ String.length (VASP.AdminVerificationToken vasp1) = 48
               /\ exists mail e1 e2 o,
                    outbox w1 = (outbox w ++ [mail])%list
                    /\ mail_template mail = ReviewRequestEmail
                    /\ mail_vasp mail = VerifyContactRequest.Id req
                    /\ VASP.AuditLog vasp1
                       = (VASP.AuditLog vasp ++ entries ++ [e1; e2])%list
                    /\ records status EMAIL_VERIFIED e1
                    /\ records EMAIL_VERIFIED PENDING_REVIEW e2
                    /\ forall k, VASP.contact k vasp1
                                 = Contact.with_log (appended o k)
                                     <$> (verify_contact token
                                            <$> VASP.contact k vasp))).
Proof.
  intros Hstored Hkey H. unfold VerifyContact in H.
  destruct (GoString.is_empty (VerifyContactRequest.Token req)) eqn:Htok;
    [exfalso; eapply throw_Ok, H |].
  apply is_empty_false in Htok.
  apply bind_Ok in H as (v0 & w0 & Hr & H).
  apply try_Ok, RetrieveVASP_Some in Hr as [Hr ->].
  rewrite Hstored in Hr. inversion Hr. subst v0. clear Hr.
  apply bind_Ok in H as (st & w2 & Hscan & H).
  apply scan_contacts_Ok in Hscan
    as (Hcore & Hcontacts & (entries & Hlog & Hall & Hw2 & _) & Hfound & Hprev);
    [| apply NewContactIterator_NoDup].
  cbn [scan_vasp found prevVerified] in *.
  fold (all_contacts vasp) in *.
  pose proof (verified_everywhere _ _ _ Hcontacts) as Hverified.
  clear Hcontacts.
  destruct (core_fields _ _ Hcore) as (HId & HSt & HTok).
  destruct (found st) eqn:Hf; [| exfalso; eapply throw_Ok, H].
  cbn [negb] in H. rewrite orb_false_l in Hfound.
  split; [exact Htok |]. split; [symmetry; exact Hfound |].
  rewrite Hprev, HSt in H. cbn [Nat.add] in H.
  destruct (Nat.ltb 0 _ && Nat.ltb _ _) eqn:Hbefore.
  - (* contacts were verified before *)
    apply bind_Ok in H as (u & w3 & Hu & H).
    apply try_Ok, UpdateVASP_Some in Hu. apply ret_Ok in H as [<- <-].
    exists (scan_vasp st), entries. rewrite Hu, Hw2, HId, Hkey, HSt.
    split; [reflexivity |]. split; [reflexivity |]. split; [reflexivity |].
    split; [exact Hall |]. left. auto 10.
  - (* the first verification *)
    apply bind_Ok in H as (v3 & w3 & H3 & H).
    apply try_Ok, UpdateVerificationStatus_Some in H3 as [-> ->].
    apply bind_Ok in H as (admin & w4 & H4 & H).
    apply CreateToken_Ok in H4 as [Hlen ->].
    apply bind_Ok in H as (v5 & w5 & H5 & H).
    apply try_Ok, SetAdminVerificationToken_Some in H5 as [-> ->].
    apply bind_Ok in H as (u6 & w6 & H6 & H).
    apply try_Ok, UpdateVASP_Some in H6.
    apply bind_Ok in H as (mailed & w7 & H7 & H).
    unfold SendReviewRequest, send, lift in H7. inversion H7.
    subst mailed w7. clear H7. cbn [fst] in H.
    apply bind_Ok in H as (v8 & w8 & H8 & H).
    apply try_Ok, UpdateVerificationStatus_Some in H8 as [-> ->].
    apply bind_Ok in H as (u9 & w9 & H9 & H).
    apply try_Ok, UpdateVASP_Some in H9. apply ret_Ok in H as [<- <-].
    set (v5 := VASP.with_AdminVerificationToken admin
                 (VASP.with_status EMAIL_VERIFIED _ (scan_vasp st))) in *.
    assert (Hv5id : VASP.Id v5 = VerifyContactRequest.Id req)
      by (unfold v5; cbn; rewrite HId; exact Hkey).
    set (o := courier env ReviewRequestEmail v5) in *.
    assert (Hs : sans_contacts (log_sends o v5) = sans_contacts v5)
      by apply log_sends_sans.
    apply sans_contacts_fields in Hs as (HId5 & HSt5 & HLog5 & HTok5 & _).
    pose proof (log_sends_contact o v5) as Hc5.
    set (v6 := log_sends o v5) in *. clearbody v6.
    eexists _, entries. rewrite H9.
    cbn [vasps with_vasps with_clock with_outbox with_entropy certreqs vault
         outbox VASP.Id VASP.with_status].
    rewrite H6.
    cbn [vasps with_vasps with_clock with_outbox with_entropy certreqs vault
         outbox VASP.Id VASP.with_status].
    rewrite Hw2.
    cbn [vasps with_vasps with_clock with_outbox with_entropy certreqs vault
         outbox VASP.Id VASP.with_status].
    rewrite ?HId5, !Hv5id, insert_insert_eq.
    split; [reflexivity |]. split; [reflexivity |]. split; [reflexivity |].
    split; [exact Hall |]. right.
    split; [reflexivity |]. split; [reflexivity |]. split; [reflexivity |].
    split.
    { cbn [VASP.AdminVerificationToken VASP.with_status]. rewrite HTok5.
      exact Hlen. }
    eexists _, _, _, o. split; [reflexivity |]. split; [reflexivity |].
    split; [cbn [mail_vasp]; rewrite ?HId; exact Hkey |]. split.
    { cbn [VASP.AuditLog VASP.with_status]. rewrite HLog5. unfold v5.
      cbn [VASP.AuditLog VASP.with_status VASP.with_AdminVerificationToken].
      rewrite Hlog, <- !app_assoc. reflexivity. }
    split; [split; [cbn; rewrite HSt |]; reflexivity |].
    split; [split; [cbn; rewrite HSt5 |]; reflexivity |].
    intros k. rewrite contact_with_status, Hc5. unfold v5.
    rewrite contact_with_AdminVerificationToken, contact_with_status.
    rewrite Hverified. reflexivity.
Qed.

(** *** A token that no contact holds *)

Lemma scan_contacts_no_match env token kinds : forall st w,
  (forall k, fault env (VerifyGetContactVerification k) = false) ->
  (forall k, k ∈ kinds ->
     exists c, VASP.contact k (scan_vasp st) = Some c
               /\ has_token token c = false) ->
  exists st',
    scan_contacts env token kinds st w = (Ok st', w)
    /\ found st' = found st /\ scan_vasp st' = scan_vasp st.
Proof.
  induction kinds as [| k rest IH]; intros st w Hread Hnone.
  - exists st. auto.
  - destruct (Hnone k) as (c & Hc & Ht); [apply list_elem_of_here |].
    cbn [scan_contacts]. unfold bind at 1, try at 1, GetContactVerification.
    rewrite Hread, Hc. cbn [fst snd]. unfold has_token in Ht. rewrite Ht.
    destruct (Contact.Verified c).
    + destruct (IH (mkScan (scan_vasp st) (S (prevVerified st)) (found st)
                      (contactEmail st)) w Hread) as (st' & Hs & Hf & Hv).
      { intros k' Hk'. apply Hnone, list_elem_of_further, Hk'. }
      exists st'. auto.
    + destruct (IH st w Hread) as (st' & Hs & Hf & Hv).
      { intros k' Hk'. apply Hnone, list_elem_of_further, Hk'. }
      exists st'. auto.
Qed.

Lemma VerifyContact_NotFound env req w :
  VerifyContactRequest.Token req <> "" ->
  (forall k, fault env (VerifyGetContactVerification k) = false) ->
  (forall vasp k c,
     vasps w !! VerifyContactRequest.Id req = Some vasp ->
     VASP.contact k vasp = Some c ->
     Contact.Token c <> VerifyContactRequest.Token req) ->
  exists msg, VerifyContact env req w = (Error NotFound msg, w).
Proof.
  intros Htok Hread Hnone. apply is_empty_false in Htok.
  unfold VerifyContact. rewrite Htok.
  unfold bind at 1, try at 1, RetrieveVASP.
  destruct (fault env VerifyRetrieveVASP); [eexists; reflexivity |].
  destruct (vasps w !! VerifyContactRequest.Id req) as [vasp |] eqn:Hv;
    [| eexists; reflexivity].
  destruct (scan_contacts_no_match env (VerifyContactRequest.Token req)
              (NewContactIterator (VASP.Contacts vasp) false false)
              (mkScan vasp 0 false "") w Hread) as (st' & Hs & Hf & _).
  { intros k Hk. apply NewContactIterator_all in Hk as [c Hc].
    exists c. split; [exact Hc |]. unfold has_token.
    apply String.eqb_neq. eapply Hnone; [reflexivity | exact Hc]. }
  unfold bind at 1. rewrite Hs. cbn [found] in Hf. rewrite Hf. cbn [negb].
  eexists. reflexivity.
Qed.

Lemma verify_contact_clears token c :
  token <> "" -> Contact.Token (verify_contact token c) <> token.
Proof.
  intros Htok. unfold verify_contact, has_token.
  destruct (String.eqb (Contact.Token c) token) eqn:Ht.
  - cbn. congruence.
  - apply String.eqb_neq. exact Ht.
Qed.

Lemma verified_before_exists token vasp :
  Nat.ltb 0 (length (List.filter (slot_verified token vasp) (all_contacts vasp)))
  = true
  <-> exists k c, VASP.contact k vasp = Some c
                  /\ Contact.Token c <> token /\ Contact.Verified c = true.
Proof.
  split.
  - intros H. apply Nat.ltb_lt in H.
    destruct (List.filter _ _) as [| k l] eqn:Hfilter; [simpl in H; lia |].
    assert (Hin : In k (List.filter (slot_verified token vasp)
                          (all_contacts vasp)))
      by (rewrite Hfilter; left; reflexivity).
    apply List.filter_In in Hin as [_ Hk]. unfold slot_verified in Hk.
    destruct (VASP.contact k vasp) as [c |] eqn:Hc; [| discriminate].
    apply andb_true_iff in Hk as [Ht Hv]. exists k, c.
    split; [exact Hc |]. split; [| exact Hv].
    apply String.eqb_neq. apply negb_true_iff in Ht. exact Ht.
  - intros (k & c & Hc & Ht & Hv). apply Nat.ltb_lt.
    assert (Hin : In k (List.filter (slot_verified token vasp)
                          (all_contacts vasp))).
    { apply List.filter_In. split.
      - apply list_elem_of_In. unfold all_contacts.
        apply NewContactIterator_all. rewrite Hc. eauto.
      - unfold slot_verified, has_token. rewrite Hc, Hv.
        apply String.eqb_neq in Ht. rewrite Ht. reflexivity. }
    destruct (List.filter _ _); [destruct Hin | simpl; lia].
Qed.

Lemma slot_matches_exists token vasp :
  existsb (slot_matches token vasp) (all_contacts vasp) = true ->
  exists k c, VASP.contact k vasp = Some c /\ Contact.Token c = token.
Proof.
  intros H. apply existsb_exists in H as (k & _ & Hk).
  unfold slot_matches, has_token in Hk.
  destruct (VASP.contact k vasp) as [c |] eqn:Hc; [| discriminate].
  exists k, c. split; [exact Hc |]. apply String.eqb_eq, Hk.
Qed.

(** C7 (as stated) fails, in two ways. After the happy registration the
    first VerifyContact with Ada's token answers with the longer message
    "email successfully verified and verification review sent to TRISA
    admins". And for a VASP in review with a contact verified before, the
    first call with Bob's token answers "email successfully verified", the
    second NOT_FOUND, and no review request has gone out in either call. *)
Lemma VerifyContact_message_and_mail_count :
  (exists reply w1,
     VerifyContact Sample.env Sample.verify_ada Sample.registered
     = (Ok reply, w1)
     /\ VerifyContactReply.Message reply <> "email successfully verified")
  /\ (exists reply w1 msg,
        VerifyContact Sample.env Sample.verify_bob Sample.in_review
        = (Ok reply, w1)
        /\ VerifyContactReply.Message reply = "email successfully verified"
        /\ VerifyContact Sample.env Sample.verify_bob w1
           = (Error NotFound msg, w1)
        /\ review_requests (outbox Sample.in_review) = []
        /\ review_requests (outbox w1) = []).
Proof.
  split.
  - eexists _, _. split; [vm_compute; reflexivity | discriminate].
  - eexists _, _, _. split; [vm_compute; reflexivity |].
    split; [reflexivity |]. split; [vm_compute; reflexivity |].
    split; reflexivity.
Qed.

(** C7 (amended). For a VASP stored under its id, a first VerifyContact that
    succeeds has matched a contact and leaves no contact with the token.
    When a contact with another token was verified before and the VASP is
    past SUBMITTED, it answers "email successfully verified" and sends
    nothing; in every other case it answers "email successfully verified and
    verification review sent to TRISA admins" and has asked the courier for
    one review request. A second call with the same token, when the
    verification data of the contacts can be read, returns NOT_FOUND and
    leaves the world as the first call left it: verification state,
    send-logs and outbox. So the admin review is requested once across both
    calls in the second case and not at all in the first. *)
Theorem VerifyContact_same_token_twice
    (env env' : Env) (req : VerifyContactRequest.t) (w w1 : World)
    (reply : VerifyContactReply.t) (vasp : VASP.t)
    (Hstored : vasps w !! VerifyContactRequest.Id req = Some vasp)
    (Hkey : VASP.Id vasp = VerifyContactRequest.Id req)
    (Hfirst : VerifyContact env req w = (Ok reply, w1))
    (Hread : forall k, fault env' (VerifyGetContactVerification k) = false) :
  let token := VerifyContactRequest.Token req in
  let verified_before :=
    (exists k c, VASP.contact k vasp = Some c
                 /\ Contact.Token c <> token
                 /\ Contact.Verified c = true)
    /\ state_number SUBMITTED < state_number (VASP.VerificationStatus vasp) in
  (exists k c, VASP.contact k vasp = Some c /\ Contact.Token c = token)
  /\ (exists vasp1,
        vasps w1 !! VerifyContactRequest.Id req = Some vasp1
        /\ forall k c, VASP.contact k vasp1 = Some c -> Contact.Token c <> token)
  /\ ((verified_before
       /\ VerifyContactReply.Message reply = "email successfully verified"
       /\ outbox w1 = outbox w)
      \/ (~ verified_before
          /\ VerifyContactReply.Message reply
             = "email successfully verified and verification review sent to TRISA admins"
          /\ exists mail,
               outbox w1 = (outbox w ++ [mail])%list
               /\ mail_template mail = ReviewRequestEmail
               /\ mail_vasp mail = VerifyContactRequest.Id req))
  /\ exists msg, VerifyContact env' req w1 = (Error NotFound msg, w1).
Proof.
  intros token verified_before.
  destruct (VerifyContact_Ok env req w reply w1 vasp Hstored Hkey Hfirst)
    as (Htok & Hmatch & vasp1 & entries & Hvasps & _ & _ & _ & Hcases).
  fold token in Htok, Hmatch, Hcases.
  assert (Hstored1 : vasps w1 !! VerifyContactRequest.Id req = Some vasp1)
    by (rewrite Hvasps; apply lookup_insert_eq).
  assert (Hcleared : forall k c,
             VASP.contact k vasp1 = Some c -> Contact.Token c <> token).
  { intros k c Hc.
    destruct Hcases as [(_ & _ & _ & _ & _ & Hcontacts)
                       | (_ & _ & _ & _ & mail & e1 & e2 & o & _ & _ & _ & _
                          & _ & _ & Hcontacts)];
      rewrite Hcontacts in Hc;
      destruct (VASP.contact k vasp) as [c0 |]; try discriminate;
      inversion Hc; apply verify_contact_clears, Htok. }
  split; [apply slot_matches_exists, Hmatch |].
  split; [exists vasp1; auto |].
  split.
  - destruct Hcases as [(Hbefore & -> & Hout & _)
                       | (Hno & -> & _ & _ & mail & e1 & e2 & o & Hout & Htpl
                          & Hid & _)].
    + left. apply andb_true_iff in Hbefore as [Hv Hs].
      split; [| split; [reflexivity | exact Hout]].
      split; [apply verified_before_exists, Hv | apply Nat.ltb_lt, Hs].
    + right. split; [| split; [reflexivity | exists mail; auto]].
      intros [Hv Hs]. apply verified_before_exists in Hv.
      apply Nat.ltb_lt in Hs. rewrite Hv, Hs in Hno. discriminate Hno.
  - apply VerifyContact_NotFound; [exact Htok | exact Hread |].
    intros vasp' k c Hv Hc. rewrite Hstored1 in Hv. inversion Hv. subst vasp'.
    eapply Hcleared, Hc.
Qed.

Lemma VerifyContact_same_token_twice_witness :
  vasps Sample.registered !! "id-0123" = Some Sample.submitted
  /\ VASP.Id Sample.submitted = "id-0123"
  /\ VerifyContact Sample.env Sample.verify_ada Sample.registered
     = (Ok (VerifyContactReply.mk PENDING_REVIEW
              "email successfully verified and verification review sent to TRISA admins"),
        Sample.verified)
  /\ (forall k, fault Sample.env (VerifyGetContactVerification k) = false)
  /\ (exists k c, VASP.contact k Sample.submitted = Some c
                  /\ Contact.Token c = Sample.ada_token)
  /\ (exists vasp1,
        vasps Sample.verified !! "id-0123" = Some vasp1
        /\ forall k c, VASP.contact k vasp1 = Some c ->
                       Contact.Token c <> Sample.ada_token)
  /\ ((((exists k c, VASP.contact k Sample.submitted = Some c
                     /\ Contact.Token c <> Sample.ada_token
                     /\ Contact.Verified c = true)
        /\ state_number SUBMITTED
           < state_number (VASP.VerificationStatus Sample.submitted))
       /\ "email successfully verified and verification review sent to TRISA admins"
          = "email successfully verified"
       /\ outbox Sample.verified = outbox Sample.registered)
      \/ (~ ((exists k c, VASP.contact k Sample.submitted = Some c
                          /\ Contact.Token c <> Sample.ada_token
                          /\ Contact.Verified c = true)
             /\ state_number SUBMITTED
                < state_number (VASP.VerificationStatus Sample.submitted))
          /\ "email successfully verified and verification review sent to TRISA admins"
             = "email successfully verified and verification review sent to TRISA admins"
          /\ exists mail,
               outbox Sample.verified = (outbox Sample.registered ++ [mail])%list
               /\ mail_template mail = ReviewRequestEmail
               /\ mail_vasp mail = "id-0123"))
  /\ exists msg,
       VerifyContact Sample.env Sample.verify_ada Sample.verified
       = (Error NotFound msg, Sample.verified).
Proof.
  assert (H1 : vasps Sample.registered !! "id-0123" = Some Sample.submitted)
    by (vm_compute; reflexivity).
  assert (H2 : VASP.Id Sample.submitted = "id-0123")
    by (vm_compute; reflexivity).
  assert (H3 : VerifyContact Sample.env Sample.verify_ada Sample.registered
               = (Ok (VerifyContactReply.mk PENDING_REVIEW
                        "email successfully verified and verification review sent to TRISA admins"),
                  Sample.verified))
    by (vm_compute; reflexivity).
  split; [exact H1 |]. split; [exact H2 |]. split; [exact H3 |].
  split; [intros k; reflexivity |].
  exact (VerifyContact_same_token_twice Sample.env Sample.env
           Sample.verify_ada Sample.registered Sample.verified _ _
           H1 H2 H3 (fun _ => eq_refl)).
Defined.

(** *** The first verification *)

Lemma scan_contacts_total env token kinds : forall st w,
  (forall s, fault env s = false) ->
  (forall k, k ∈ kinds -> is_Some (VASP.contact k (scan_vasp st))) ->
  exists st' w', scan_contacts env token kinds st w = (Ok st', w').
Proof.
  induction kinds as [| k rest IH]; intros st w Hfaults Hall.
  - eexists _, _. reflexivity.
  - destruct (Hall k) as [c Hc]; [apply list_elem_of_here |].
    assert (Hrest : forall k', k' ∈ rest ->
                      is_Some (VASP.contact k' (scan_vasp st)))
      by (intros k' Hk'; apply Hall, list_elem_of_further, Hk').
    cbn [scan_contacts]. unfold bind at 1, try at 1, GetContactVerification.
    rewrite Hfaults, Hc. cbn [fst snd].
    destruct (String.eqb (Contact.Token c) token).
    + unfold bind at 1, try at 1, SetContactVerification.
      rewrite Hfaults, Hc.
      unfold bind at 1, try at 1, UpdateVerificationStatus.
      rewrite Hfaults. cbn [time_Now].
      apply IH; [exact Hfaults |]. cbn [scan_vasp]. intros k' Hk'.
      rewrite contact_with_status.
      destruct (decide (k = k')) as [<- | Hne].
      * rewrite contact_set_contact_eq; [eauto | rewrite Hc; eauto].
      * rewrite contact_set_contact_ne by exact Hne. apply Hrest, Hk'.
    + destruct (Contact.Verified c); apply IH; auto.
Qed.

Lemma VerifyContact_total env req w vasp :
  (forall s, fault env s = false) ->
  VerifyContactRequest.Token req <> "" ->
  vasps w !! VerifyContactRequest.Id req = Some vasp ->
  (exists k c, VASP.contact k vasp = Some c
               /\ Contact.Token c = VerifyContactRequest.Token req) ->
  exists reply w1, VerifyContact env req w = (Ok reply, w1).
Proof.
  intros Hfaults Htok Hstored (k & c & Hc & Ht).
  apply is_empty_false in Htok.
  destruct (scan_contacts_total env (VerifyContactRequest.Token req)
              (all_contacts vasp) (mkScan vasp 0 false "") w Hfaults)
    as (st & w2 & Hscan).
  { intros k' Hk'. apply NewContactIterator_all, Hk'. }
  destruct (scan_contacts_Ok env _ _ _ _ _ _
              (NewContactIterator_NoDup _ _ _) Hscan)
    as (_ & _ & _ & Hfound & _).
  cbn [scan_vasp found] in Hfound. rewrite orb_false_l in Hfound.
  fold (all_contacts vasp) in Hfound.
  assert (Hex : existsb (slot_matches (VerifyContactRequest.Token req) vasp)
                  (all_contacts vasp) = true).
  { apply existsb_exists. exists k. split.
    - apply list_elem_of_In, NewContactIterator_all. rewrite Hc. eauto.
    - unfold slot_matches, has_token. rewrite Hc. apply String.eqb_eq, Ht. }
  rewrite Hex in Hfound.
  unfold VerifyContact. rewrite Htok.
  unfold bind at 1, try at 1, RetrieveVASP. rewrite Hfaults, Hstored.
  fold (all_contacts vasp). unfold bind at 1. rewrite Hscan, Hfound.
  cbn [negb].
  destruct (Nat.ltb 0 (prevVerified st) && _).
  - unfold bind, try, UpdateVASP, ret. rewrite Hfaults.
    eexists _, _. reflexivity.
  - unfold bind, try, lift, UpdateVerificationStatus, CreateToken,
      SetAdminVerificationToken, UpdateVASP, SendReviewRequest, send, ret,
      time_Now.
    rewrite !Hfaults. eexists _, _. reflexivity.
Qed.

(** C8 (as stated) fails. The claim has the VASP go SUBMITTED ->
    EMAIL_VERIFIED on the first verification, but VerifyContact does not
    look at the status before it sets EMAIL_VERIFIED: a rejected VASP whose
    one contact holds its token and is not verified goes REJECTED ->
    EMAIL_VERIFIED -> PENDING_REVIEW, and no entry of its audit log records
    SUBMITTED -> EMAIL_VERIFIED. *)
Lemma VerifyContact_first_verification_from_REJECTED :
  vasps Probe.turned_down !! "id-7" = Some Probe.turned_down_vasp
  /\ VASP.VerificationStatus Probe.turned_down_vasp = REJECTED
  /\ (exists k c, VASP.contact k Probe.turned_down_vasp = Some c
                  /\ Contact.Token c = "bobs-token")
  /\ (forall k c, VASP.contact k Probe.turned_down_vasp = Some c ->
                  Contact.Verified c = false)
  /\ exists w1 vasp1 e0 e1 e2,
       VerifyContact Sample.env Probe.verify_turned_down Probe.turned_down
       = (Ok (VerifyContactReply.mk PENDING_REVIEW
                "email successfully verified and verification review sent to TRISA admins"),
          w1)
       /\ vasps w1 !! "id-7" = Some vasp1
       /\ VASP.AuditLog vasp1 = [e0; e1; e2]
       /\ records REJECTED REJECTED e0
       /\ records REJECTED EMAIL_VERIFIED e1
       /\ records EMAIL_VERIFIED PENDING_REVIEW e2
       /\ ~ Exists (records SUBMITTED EMAIL_VERIFIED) (VASP.AuditLog vasp1).
Proof.
  split; [vm_compute; reflexivity |]. split; [reflexivity |].
  split; [exists technical, Sample.bob; split; reflexivity |].
  split.
  { intros k c. destruct k; vm_compute; intros H; inversion H; reflexivity. }
  eexists _, _, _, _, _. split; [vm_compute; reflexivity |].
  split; [vm_compute; reflexivity |]. split; [reflexivity |].
  split; [split; reflexivity |]. split; [split; reflexivity |].
  split; [split; reflexivity |].
  intros H. apply Exists_cons in H as [[H _] | H]; [discriminate H |].
  apply Exists_cons in H as [[H _] | H]; [discriminate H |].
  apply Exists_cons in H as [[H _] | H]; [discriminate H |].
  apply Exists_nil in H. exact H.
Qed.

(** C8 (amended). When the token of a VerifyContact call matches a contact of
    a VASP none of whose contacts is verified, and no call to the store or
    to a helper fails, the call succeeds whatever the status S of the VASP
    is: after the audit entries of the verified contacts the VASP goes S ->
    EMAIL_VERIFIED (SUBMITTED -> EMAIL_VERIFIED for a VASP in SUBMITTED, as
    Register leaves it), an admin verification token of 48 bytes is stored
    with it, the courier is asked for the review request (whether or not it
    can send it), the VASP goes EMAIL_VERIFIED -> PENDING_REVIEW and is
    stored so, and PENDING_REVIEW is the status of the reply. *)
Theorem VerifyContact_first_verification
    (env : Env) (req : VerifyContactRequest.t) (w : World) (vasp : VASP.t)
    (Hfaults : forall s, fault env s = false)
    (Htoken : VerifyContactRequest.Token req <> "")
    (Hstored : vasps w !! VerifyContactRequest.Id req = Some vasp)
    (Hkey : VASP.Id vasp = VerifyContactRequest.Id req)
    (Hmatch : exists k c, VASP.contact k vasp = Some c
                          /\ Contact.Token c = VerifyContactRequest.Token req)
    (Hnone : forall k c, VASP.contact k vasp = Some c ->
                         Contact.Verified c = false) :
  exists reply w1 vasp1 entries e1 e2 mail,
    VerifyContact env req w = (Ok reply, w1)
    /\ VerifyContactReply.Status reply = PENDING_REVIEW
    /\ vasps w1 !! VerifyContactRequest.Id req = Some vasp1
    /\ VASP.VerificationStatus vasp1 = PENDING_REVIEW
    /\ VASP.AuditLog vasp1 = (VASP.AuditLog vasp ++ entries ++ [e1; e2])%list
    /\ Forall (records (VASP.VerificationStatus vasp)
                 (VASP.VerificationStatus vasp)) entries
    /\ records (VASP.VerificationStatus vasp) EMAIL_VERIFIED e1
    /\ records EMAIL_VERIFIED PENDING_REVIEW e2
    /\ String.length (VASP.AdminVerificationToken vasp1) = 48
    /\ outbox w1 = (outbox w ++ [mail])%list
    /\ mail_template mail = ReviewRequestEmail
    /\ mail_vasp mail = VerifyContactRequest.Id req.
Proof.
  destruct (VerifyContact_total env req w vasp Hfaults Htoken Hstored Hmatch)
    as (reply & w1 & Hok).
  destruct (VerifyContact_Ok env req w reply w1 vasp Hstored Hkey Hok)
    as (_ & _ & vasp1 & entries & Hvasps & _ & _ & Hall & Hcases).
  destruct Hcases as [(Hbefore & _)
                     | (_ & -> & Hst & Hlen & mail & e1 & e2 & o & Hout & Htpl
                        & Hid & Hlog & He1 & He2 & _)].
  - exfalso. apply andb_true_iff in Hbefore as [Hv _].
    apply verified_before_exists in Hv as (k & c & Hc & _ & Hver).
    rewrite (Hnone k c Hc) in Hver. discriminate.
  - exists (VerifyContactReply.mk PENDING_REVIEW
              "email successfully verified and verification review sent to TRISA admins"),
      w1, vasp1, entries, e1, e2, mail.
    split; [exact Hok |]. split; [reflexivity |].
    split; [rewrite Hvasps; apply lookup_insert_eq |].
    auto 12.
Qed.

Lemma VerifyContact_first_verification_witness :
  (forall s, fault Sample.env s = false)
  /\ VerifyContactRequest.Token Sample.verify_ada <> ""
  /\ vasps Sample.registered !! "id-0123" = Some Sample.submitted
  /\ VASP.Id Sample.submitted = "id-0123"
  /\ VASP.VerificationStatus Sample.submitted = SUBMITTED
  /\ (exists k c, VASP.contact k Sample.submitted = Some c
                  /\ Contact.Token c = Sample.ada_token)
  /\ (forall k c, VASP.contact k Sample.submitted = Some c ->
                  Contact.Verified c = false)
  /\ exists reply w1 vasp1 entries e1 e2 mail,
       VerifyContact Sample.env Sample.verify_ada Sample.registered
       = (Ok reply, w1)
       /\ VerifyContactReply.Status reply = PENDING_REVIEW
       /\ vasps w1 !! "id-0123" = Some vasp1
       /\ VASP.VerificationStatus vasp1 = PENDING_REVIEW
       /\ VASP.AuditLog vasp1
          = (VASP.AuditLog Sample.submitted ++ entries ++ [e1; e2])%list
       /\ Forall (records (VASP.VerificationStatus Sample.submitted)
                    (VASP.VerificationStatus Sample.submitted)) entries
       /\ records (VASP.VerificationStatus Sample.submitted) EMAIL_VERIFIED e1
       /\ records EMAIL_VERIFIED PENDING_REVIEW e2
       /\ String.length (VASP.AdminVerificationToken vasp1) = 48
       /\ outbox w1 = (outbox Sample.registered ++ [mail])%list
       /\ mail_template mail = ReviewRequestEmail
       /\ mail_vasp mail = "id-0123".
Proof.
  assert (H1 : forall s, fault Sample.env s = false) by (intros s; reflexivity).
  assert (H2 : VerifyContactRequest.Token Sample.verify_ada <> "")
    by (vm_compute; discriminate).
  assert (H3 : vasps Sample.registered !! "id-0123" = Some Sample.submitted)
    by (vm_compute; reflexivity).
  assert (H4 : VASP.Id Sample.submitted = "id-0123")
    by (vm_compute; reflexivity).
  assert (H5 : VASP.VerificationStatus Sample.submitted = SUBMITTED)
    by (vm_compute; reflexivity).
  assert (H6 : exists k c, VASP.contact k Sample.submitted = Some c
                           /\ Contact.Token c = Sample.ada_token).
  { exists legal. eexists. split; vm_compute; reflexivity. }
  assert (H7 : forall k c, VASP.contact k Sample.submitted = Some c ->
                           Contact.Verified c = false).
  { intros k c. destruct k; vm_compute; intros H; inversion H; reflexivity. }
  split; [exact H1 |]. split; [exact H2 |]. split; [exact H3 |].
  split; [exact H4 |]. split; [exact H5 |]. split; [exact H6 |].
  split; [exact H7 |].
  exact (VerifyContact_first_verification Sample.env Sample.verify_ada
           Sample.registered Sample.submitted H1 H2 H3 H4 H6 H7).
Defined.

(** * Further properties of the code *)

(** ** The common name grammar *)

Section Labels.

Import Regexp.

#[local] Arguments String.append !s1 s2 : simpl nomatch.

Lemma append_assoc (a b c : string) : (a ++ b) ++ c = a ++ (b ++ c).
Proof. induction a as [| x a IH]; simpl; [reflexivity | rewrite IH; reflexivity]. Qed.

Lemma append_nil_r (a : string) : a ++ "" = a.
Proof. induction a as [| x a IH]; simpl; [reflexivity | rewrite IH; reflexivity]. Qed.

Lemma length_append (a b : string) :
  String.length (a ++ b) = String.length a + String.length b.
Proof. induction a as [| x a IH]; simpl; [reflexivity | rewrite IH; reflexivity]. Qed.

Lemma all_bytes_append p a b :
  all_bytes p (a ++ b) = all_bytes p a && all_bytes p b.
Proof.
  induction a as [| x a IH]; simpl; [reflexivity |].
  rewrite IH, andb_assoc. reflexivity.
Qed.

Lemma last_byte_append c a x : last_byte c (a ++ String x "") = x.
Proof. revert c. induction a as [| y a IH]; intros c; simpl; [reflexivity | apply IH]. Qed.

(** A non-empty string ends in its last byte. *)
Lemma snoc_last c s :
  exists front, String c s = front ++ String (last_byte c s) "".
Proof.
  revert c. induction s as [| y s IH]; intros c; simpl.
  - exists "". reflexivity.
  - destruct (IH y) as [front Hf]. exists (String c front).
    simpl. rewrite <- Hf. reflexivity.
Qed.

Lemma is_alnum_dash_of_alnum c : is_alnum c = true -> is_alnum_dash c = true.
Proof.
  unfold is_alnum, is_alnum_dash, in_class. cbn [existsb].
  destruct (in_range c ("a", "z")%char); [reflexivity |].
  destruct (in_range c ("A", "Z")%char); [reflexivity |].
  destruct (in_range c ("0", "9")%char); [reflexivity | discriminate].
Qed.

Lemma matches_Class_inv ranges s :
  matches (Class ranges) s ->
  exists c, s = String c "" /\ in_class c ranges = true.
Proof. intros H. inversion H. subst. eauto. Qed.

(** [c{0,n}] for a character class: at most [n] bytes of the class. *)
Lemma matches_upto_class ranges n s :
  matches (upto n (Class ranges)) s
  <-> String.length s <= n /\ all_bytes (fun c => in_class c ranges) s = true.
Proof.
  revert s. induction n as [| n IH]; intros s; simpl.
  - split.
    + intros H. apply matches_Eps_inv in H. subst s. simpl. auto.
    + intros [H _]. destruct s; simpl in H; [constructor | lia].
  - split.
    + intros H. apply matches_Alt_inv in H as [H | H].
      * apply matches_Eps_inv in H. subst s. simpl. split; [lia | reflexivity].
      * apply matches_Cat_inv in H as (s1 & s2 & -> & H1 & H2).
        apply matches_Class_inv in H1 as (c & -> & Hc).
        apply IH in H2 as [Hlen Hall]. simpl. rewrite Hc, Hall.
        split; [lia | reflexivity].
    + intros [Hlen Hall]. destruct s as [| c s]; [apply matches_AltL; constructor |].
      simpl in Hlen, Hall. apply andb_true_iff in Hall as [Hc Hall].
      apply matches_AltR. change (String c s) with (String c "" ++ s).
      constructor; [constructor; exact Hc |]. apply IH. split; [lia | exact Hall].
Qed.

(** The pattern of one label matches exactly the labels. *)
Lemma matches_cn_label s : matches cn_label s <-> is_label s = true.
Proof.
  unfold cn_label. split.
  - intros H. apply matches_Alt_inv in H as [H | H].
    + apply matches_Class_inv in H as (c & -> & Hc).
      fold (is_alnum c) in Hc. simpl.
      rewrite Hc, (is_alnum_dash_of_alnum _ Hc). reflexivity.
    + apply matches_Cat_inv in H as (s1 & s2 & -> & H1 & H2).
      apply matches_Class_inv in H1 as (c & -> & Hc). fold (is_alnum c) in Hc.
      apply matches_Cat_inv in H2 as (mid & s3 & -> & Hmid & H3).
      apply matches_Class_inv in H3 as (x & -> & Hx). fold (is_alnum x) in Hx.
      apply matches_upto_class in Hmid as [Hlen Hall].
      assert (Hall' : all_bytes is_alnum_dash mid = true) by exact Hall.
      simpl append. cbn [is_label]. rewrite last_byte_append, Hc, Hx.
      cbn [all_bytes String.length]. rewrite all_bytes_append, length_append.
      rewrite (is_alnum_dash_of_alnum _ Hc), Hall'.
      cbn [all_bytes String.length].
      rewrite (is_alnum_dash_of_alnum _ Hx). cbn [andb].
      apply Nat.leb_le. lia.
  - intros H. destruct s as [| c rest]; [discriminate |]. cbn [is_label] in H.
    apply andb_true_iff in H as [H Hlen]. apply andb_true_iff in H as [H Hall].
    apply andb_true_iff in H as [Hc Hx]. apply Nat.leb_le in Hlen.
    destruct rest as [| y rest].
    + apply matches_AltL. constructor. exact Hc.
    + apply matches_AltR. destruct (snoc_last y rest) as [mid Hmid].
      rewrite Hmid in Hall, Hlen |- *. cbn [last_byte] in Hx.
      change (String c (mid ++ String (last_byte y rest) ""))
        with (String c "" ++ (mid ++ String (last_byte y rest) "")).
      constructor; [constructor; exact Hc |].
      constructor; [| constructor; exact Hx].
      apply matches_upto_class. cbn [all_bytes String.length] in Hall, Hlen.
      rewrite all_bytes_append in Hall. rewrite length_append in Hlen.
      cbn [String.length] in Hlen.
      apply andb_true_iff in Hall as [_ Hall].
      apply andb_true_iff in Hall as [Hall _].
      split; [lia | exact Hall].
Qed.

End Labels.

Section Names.

Import Regexp.

#[local] Arguments String.append !s1 s2 : simpl nomatch.

Lemma concat_dotted l labels :
  String.concat "." (l :: labels) = l ++ dotted labels.
Proof.
  revert l. induction labels as [| l' labels IH]; intros l.
  - simpl. rewrite append_nil_r. reflexivity.
  - change (String.concat "." (l :: l' :: labels))
      with (l ++ "." ++ String.concat "." (l' :: labels)).
    rewrite IH. reflexivity.
Qed.

(** The tail of [cnre]: any number of dotted labels. *)
Lemma matches_dotted s :
  matches (Star (Cat (Class [(".", ".")]%char) cn_label)) s
  <-> exists labels, s = dotted labels /\ forallb is_label labels = true.
Proof.
  split.
  - intros H.
    remember (Star (Cat (Class [(".", ".")]%char) cn_label)) as r eqn:Hr.
    induction H as [| | | | | r0 | r0 s1 s2 H1 _ H2 IH2]; try discriminate.
    + exists []. auto.
    + inversion Hr. subst r0. destruct (IH2 Hr) as (labels & -> & Hall).
      apply matches_Cat_inv in H1 as (d & l & -> & Hd & Hl).
      apply matches_Class_inv in Hd as (c & -> & Hc).
      assert (c = "."%char) as ->.
      { destruct c as [[] [] [] [] [] [] [] []];
          solve [reflexivity | vm_compute in Hc; discriminate Hc]. }
      apply matches_cn_label in Hl. exists (l :: labels).
      split; [| simpl; rewrite Hl, Hall; reflexivity].
      reflexivity.
  - intros (labels & -> & Hall). induction labels as [| l labels IH]; simpl.
    + constructor.
    + simpl in Hall. apply andb_true_iff in Hall as [Hl Hall].
      change (String "." (l ++ dotted labels))
        with ((String "." "" ++ l) ++ dotted labels).
      constructor; [| apply IH, Hall].
      constructor; [constructor; reflexivity | apply matches_cn_label, Hl].
Qed.

Lemma matches_cnre s :
  matches cnre s
  <-> exists l labels,
        s = String.concat "." (l :: labels)
        /\ forallb is_label (l :: labels) = true.
Proof.
  unfold cnre. split.
  - intros H. apply matches_Cat_inv in H as (l & rest & -> & Hl & Hrest).
    apply matches_cn_label in Hl.
    apply matches_dotted in Hrest as (labels & -> & Hall).
    exists l, labels. rewrite concat_dotted. simpl. rewrite Hl, Hall. auto.
  - intros (l & labels & -> & Hall). simpl in Hall.
    apply andb_true_iff in Hall as [Hl Hall]. rewrite concat_dotted.
    constructor; [apply matches_cn_label, Hl |].
    apply matches_dotted. eauto.
Qed.

Lemma is_label_head l :
  is_label l = true ->
  exists c rest, l = String c rest /\ is_alnum c = true.
Proof.
  destruct l as [| c rest]; [discriminate |]. cbn [is_label]. intros H.
  apply andb_true_iff in H as [H _]. apply andb_true_iff in H as [H _].
  apply andb_true_iff in H as [H _]. eauto.
Qed.

Lemma accepts_labels (name : string) :
  ValidateCommonName name = None
  <-> exists l labels,
        name = String.concat "." (l :: labels)
        /\ forallb is_label (l :: labels) = true.
Proof.
  rewrite ValidateCommonName_accepts, <- matches_cnre. split.
  - intros (_ & _ & H). exact H.
  - intros H. pose proof H as Hm.
    apply matches_cnre in H as (l & labels & -> & Hall).
    simpl in Hall. apply andb_true_iff in Hall as [Hl _].
    apply is_label_head in Hl as (c & rest & -> & Hc).
    rewrite concat_dotted in *.
    change (String c rest ++ dotted labels)
      with (String c (rest ++ dotted labels)) in *.
    split; [discriminate |]. split; [| exact Hm].
    unfold GoString.HasPrefix.
    change (String.prefix "*" (String c (rest ++ dotted labels)))
      with (if ascii_dec "*" c
            then String.prefix "" (rest ++ dotted labels) else false).
    destruct (ascii_dec "*" c) as [<- | Hne]; [discriminate | reflexivity].
Qed.

(** X1. ValidateCommonName accepts exactly the names that are one or more
    labels joined by dots, every label being 1 to 63 bytes of letters, digits
    and hyphens with no hyphen at either end. *)
Theorem ValidateCommonName_labels (name : string) :
  ValidateCommonName name = None
  <-> exists l labels,
        name = String.concat "." (l :: labels)
        /\ forallb is_label (l :: labels) = true.
Proof. exact (accepts_labels name). Qed.

(** X2. The two tests before the regular expression decide nothing: a name
    is accepted exactly when [cnre] matches it. The empty name and the
    leading wildcard only get an error message of their own. *)
Theorem ValidateCommonName_is_cnre (name : string) :
  ValidateCommonName name = None <-> Regexp.MatchString cnre name = true.
Proof.
  rewrite MatchString_matches, matches_cnre. apply accepts_labels.
Qed.

End Names.

(** ** Endpoints: [net.SplitHostPort] and [strconv.Atoi] *)

Section Endpoints.

Import GoString.

#[local] Arguments String.append !s1 s2 : simpl nomatch.

Lemma contains_nil c : Net.contains "" c = false.
Proof. reflexivity. Qed.

Lemma contains_cons d s c :
  Net.contains (String d s) c = Ascii.eqb d c || Net.contains s c.
Proof.
  unfold Net.contains. simpl. destruct (Ascii.eqb d c); [reflexivity |].
  destruct (IndexByteString s c); reflexivity.
Qed.

Lemma contains_append a b c :
  Net.contains (a ++ b) c = Net.contains a c || Net.contains b c.
Proof.
  induction a as [| x a IH]; simpl; [reflexivity |].
  rewrite !contains_cons, IH, orb_assoc. reflexivity.
Qed.

Lemma last_none s c : last s c = None <-> Net.contains s c = false.
Proof.
  induction s as [| d s IH]; [simpl; tauto |].
  rewrite contains_cons. simpl. destruct (last s c) eqn:E.
  - split; [discriminate |]. intros H.
    apply orb_false_iff in H as [_ H]. apply IH in H. discriminate.
  - destruct IH as [IH _]. rewrite (IH eq_refl), orb_false_r.
    destruct (Ascii.eqb d c); split; congruence.
Qed.

(** The string splits at its last [c], and no [c] follows. *)
Lemma last_some s c i :
  last s c = Some i ->
  s = take i s ++ String c (drop (S i) s)
  /\ Net.contains (drop (S i) s) c = false.
Proof.
  revert i. induction s as [| d s IH]; intros i; simpl; [discriminate |].
  destruct (last s c) as [j |] eqn:E.
  - intros [= <-]. destruct (IH j eq_refl) as [H1 H2].
    split; [| exact H2]. simpl. f_equal. exact H1.
  - destruct (Ascii.eqb d c) eqn:Ed; [| discriminate]. intros [= <-].
    apply Ascii.eqb_eq in Ed. subst d. simpl.
    split; [destruct s; reflexivity |].
    apply last_none in E. destruct s; exact E.
Qed.

Lemma last_append host port c :
  Net.contains port c = false ->
  last (host ++ String c port) c = Some (String.length host).
Proof.
  intros H. induction host as [| d host IH]; simpl.
  - apply last_none in H. rewrite H, Ascii.eqb_refl. reflexivity.
  - rewrite IH. reflexivity.
Qed.

Lemma take_append a b : take (String.length a) (a ++ b) = a.
Proof. induction a as [| x a IH]; simpl; [destruct b | rewrite IH]; reflexivity. Qed.

Lemma drop_append a b : drop (String.length a) (a ++ b) = b.
Proof. induction a as [| x a IH]; simpl; [destruct b; reflexivity | exact IH]. Qed.

Lemma drop_0 s : drop 0 s = s.
Proof. destruct s; reflexivity. Qed.

Lemma HasPrefix_byte d s c :
  HasPrefix (String d s) (String c "") = Ascii.eqb d c.
Proof.
  unfold HasPrefix.
  change (String.prefix (String c "") (String d s))
    with (if ascii_dec c d then String.prefix "" s else false).
  destruct (ascii_dec c d) as [<- | Hne].
  - rewrite Ascii.eqb_refl. destruct s; reflexivity.
  - symmetry. apply Ascii.eqb_neq. congruence.
Qed.

(** The two forms of an address: [host:port] and [[host]:port]. *)
Lemma SplitHostPort_plain hostport i :
  last hostport ":" = Some i ->
  HasPrefix hostport "[" = false ->
  Net.SplitHostPort hostport =
    if Net.contains (take i hostport) ":" then inl Net.tooManyColons
    else Net.finish hostport (take i hostport) i 0 0.
Proof.
  intros Hl Hp. unfold Net.SplitHostPort. rewrite Hl.
  destruct hostport as [| c t]; [reflexivity |].
  rewrite HasPrefix_byte in Hp.
  destruct c as [[] [] [] [] [] [] [] []]; try reflexivity. discriminate Hp.
Qed.

Lemma SplitHostPort_bracketed t i :
  last (String "[" t) ":" = Some i ->
  Net.SplitHostPort (String "[" t) =
    match IndexByteString (String "[" t) "]" with
    | None => inl Net.missingBracket
    | Some e =>
        if Nat.eqb (S e) (String.length (String "[" t)) then inl Net.missingPort
        else if Nat.eqb (S e) i then
          Net.finish (String "[" t) (slice 1 e (String "[" t)) i 1 (S e)
        else if Net.contains (take 1 (drop (S e) (String "[" t))) ":"
             then inl Net.tooManyColons
             else inl Net.missingPort
    end.
Proof. intros Hl. unfold Net.SplitHostPort. rewrite Hl. reflexivity. Qed.

Lemma index_take s c e :
  IndexByteString s c = Some e -> take (S e) s = take e s ++ String c "".
Proof.
  revert e. induction s as [| d s IH]; intros e; simpl; [discriminate |].
  destruct (Ascii.eqb d c) eqn:Ed.
  - intros [= <-]. apply Ascii.eqb_eq in Ed. subst d. destruct s; reflexivity.
  - destruct (IndexByteString s c) as [j |]; [| discriminate].
    intros [= <-]. simpl. f_equal. apply IH. reflexivity.
Qed.

Lemma SplitHostPort_append (host port : string)
  (Hhost : Net.contains host ":" = false
           /\ Net.contains host "[" = false /\ Net.contains host "]" = false)
  (Hport : Net.contains port ":" = false
           /\ Net.contains port "[" = false /\ Net.contains port "]" = false) :
  Net.SplitHostPort (host ++ ":" ++ port) = inr (host, port).
Proof.
  destruct Hhost as (Hh1 & Hh2 & Hh3), Hport as (Hp1 & Hp2 & Hp3).
  change (host ++ ":" ++ port) with (host ++ String ":" port).
  rewrite (SplitHostPort_plain _ (String.length host)).
  - rewrite take_append, Hh1. unfold Net.finish.
    rewrite !drop_0, !contains_append, !contains_cons, Hh2, Hh3, Hp2, Hp3.
    cbn [orb].
    assert (Hd : forall a b c, drop (S (String.length a)) (a ++ String c b) = b).
    { intros a b c. induction a as [| x a IH]; simpl; [destruct b; reflexivity |].
      exact IH. }
    rewrite Hd. reflexivity.
  - apply last_append, Hp1.
  - destruct host as [| c h]; [reflexivity |].
    rewrite contains_cons in Hh2. apply orb_false_iff in Hh2 as [Hc _].
    change (String c h ++ String ":" port)
      with (String c (h ++ String ":" port)).
    rewrite HasPrefix_byte. exact Hc.
Qed.

(** X3. net.SplitHostPort undoes the joining of a host and a port: when
    neither holds a colon or a square bracket, ["host:port"] splits into the
    two again. *)
Theorem SplitHostPort_joined (host port : string)
  (Hhost : Net.contains host ":" = false
           /\ Net.contains host "[" = false /\ Net.contains host "]" = false)
  (Hport : Net.contains port ":" = false
           /\ Net.contains port "[" = false /\ Net.contains port "]" = false) :
  Net.SplitHostPort (host ++ ":" ++ port) = inr (host, port).
Proof. exact (SplitHostPort_append host port Hhost Hport). Qed.

Lemma SplitHostPort_joined_witness :
  Net.SplitHostPort ("example.com" ++ ":" ++ "443")
  = inr ("example.com", "443").
Proof.
  assert (H1 : Net.contains "example.com" ":" = false
               /\ Net.contains "example.com" "[" = false
               /\ Net.contains "example.com" "]" = false)
    by (vm_compute; auto).
  assert (H2 : Net.contains "443" ":" = false
               /\ Net.contains "443" "[" = false
               /\ Net.contains "443" "]" = false)
    by (vm_compute; auto).
  exact (SplitHostPort_joined "example.com" "443" H1 H2).
Defined.

Lemma HasPrefix_open s :
  HasPrefix s "[" = true -> exists t, s = String "[" t.
Proof.
  destruct s as [| c t]; [discriminate |]. rewrite HasPrefix_byte.
  intros H. apply Ascii.eqb_eq in H. subst c. eauto.
Qed.

(** X4. A split loses nothing but the brackets: when net.SplitHostPort
    succeeds, the address is ["host:port"] or ["[host]:port"] for the host
    and port it returns, and the port holds no colon. *)
Theorem SplitHostPort_inverse (hostport host port : string) :
  Net.SplitHostPort hostport = inr (host, port) ->
  (hostport = host ++ ":" ++ port \/ hostport = "[" ++ host ++ "]:" ++ port)
  /\ Net.contains port ":" = false.
Proof.
  destruct (last hostport ":") as [i |] eqn:Hl;
    [| unfold Net.SplitHostPort; rewrite Hl; discriminate].
  destruct (last_some _ _ _ Hl) as [Hsplit Hport].
  destruct (HasPrefix hostport "[") eqn:Hp.
  - apply HasPrefix_open in Hp as [t ->].
    rewrite (SplitHostPort_bracketed _ _ Hl).
    destruct (IndexByteString (String "[" t) "]") as [e |] eqn:He;
      [| discriminate].
    destruct (Nat.eqb (S e) (String.length (String "[" t))); [discriminate |].
    destruct (Nat.eqb (S e) i) eqn:Hei;
      [| destruct (Net.contains (take 1 _) ":"); discriminate].
    apply Nat.eqb_eq in Hei. subst i. unfold Net.finish.
    destruct (Net.contains _ "["); [discriminate |].
    destruct (Net.contains _ "]"); [discriminate |].
    intros [= <- <-]. split; [right | exact Hport].
    rewrite (index_take _ _ _ He) in Hsplit.
    destruct e as [| e];
      [cbn in He; destruct (IndexByteString t "]"); discriminate He |].
    rewrite Hsplit at 1. unfold slice.
    change (take (S e) (String "[" t)) with (String "[" (take e t)).
    change (drop 1 (String "[" t)) with (drop 0 t).
    replace (S e - 1) with e by lia.
    rewrite drop_0, append_assoc. reflexivity.
  - rewrite (SplitHostPort_plain _ _ Hl Hp).
    destruct (Net.contains (take i hostport) ":"); [discriminate |].
    unfold Net.finish.
    destruct (Net.contains _ "["); [discriminate |].
    destruct (Net.contains _ "]"); [discriminate |].
    intros [= <- <-]. split; [left; exact Hsplit | exact Hport].
Qed.

Lemma SplitHostPort_inverse_witness :
  ("[::1]:8080" = "::1" ++ ":" ++ "8080"
   \/ "[::1]:8080" = "[" ++ "::1" ++ "]:" ++ "8080")
  /\ Net.contains "8080" ":" = false.
Proof.
  assert (H : Net.SplitHostPort "[::1]:8080" = inr ("::1", "8080"))
    by (vm_compute; reflexivity).
  exact (SplitHostPort_inverse "[::1]:8080" "::1" "8080" H).
Defined.

(** X5. An endpoint without a colon is refused as unparseable: a bare host
    name is no endpoint. *)
Theorem validateEndpoint_needs_colon (endpoint : string) :
  Net.contains endpoint ":" = false ->
  validateEndpoint endpoint = Some "unable to parse endpoint string".
Proof.
  intros H. apply last_none in H.
  unfold validateEndpoint, Net.SplitHostPort. rewrite H. reflexivity.
Qed.

Lemma validateEndpoint_needs_colon_witness :
  validateEndpoint "trisa.example.com"
  = Some "unable to parse endpoint string".
Proof.
  assert (H : Net.contains "trisa.example.com" ":" = false)
    by (vm_compute; reflexivity).
  exact (validateEndpoint_needs_colon "trisa.example.com" H).
Defined.

End Endpoints.

(** ** Ports: [strconv.Atoi] *)

Section Numerals.

Import GoString Strconv.

Local Open Scope Z_scope.

Lemma digit_byte c :
  (9 <? (byte_of c - 48) mod 256) = negb (is_digit c)
  /\ (is_digit c = true ->
      (byte_of c - 48) mod 256 = byte_of c - 48 /\ 0 <= byte_of c - 48 <= 9).
Proof.
  destruct c as [[] [] [] [] [] [] [] []]; vm_compute;
    (split; [reflexivity | intros H; try discriminate H; repeat split; congruence]).
Qed.

Lemma fast_digits_decimal s n :
  fast_digits s n = if all_bytes is_digit s then Some (decimal s n) else None.
Proof.
  revert n. induction s as [| c s IH]; intros n; [reflexivity |].
  cbn [fast_digits all_bytes decimal].
  destruct (digit_byte c) as [H1 H2]. rewrite H1.
  destruct (is_digit c); cbn [negb andb]; [| reflexivity].
  destruct (H2 eq_refl) as [-> _]. apply IH.
Qed.

Lemma decimal_bounds s n :
  all_bytes is_digit s = true -> 0 <= n ->
  n * 10 ^ Z.of_nat (String.length s) <= decimal s n
  < (n + 1) * 10 ^ Z.of_nat (String.length s).
Proof.
  revert n. induction s as [| c s IH]; intros n Hall Hn.
  - cbn [decimal String.length]. change (10 ^ Z.of_nat 0) with 1. lia.
  - cbn [all_bytes] in Hall. apply andb_true_iff in Hall as [Hc Hall].
    destruct (digit_byte c) as [_ H2]. destruct (H2 Hc) as [_ Hd].
    cbn [decimal String.length]. rewrite Nat2Z.inj_succ, Z.pow_succ_r by lia.
    specialize (IH (n * 10 + (byte_of c - 48)) Hall ltac:(lia)).
    assert (Hp : 0 < 10 ^ Z.of_nat (String.length s))
      by (apply Z.pow_pos_nonneg; lia).
    nia.
Qed.

Lemma decimal_ge s n :
  all_bytes is_digit s = true -> 0 <= n -> n <= decimal s n.
Proof.
  intros Hall Hn. destruct (decimal_bounds s n Hall Hn) as [H _].
  assert (Hp : 0 < 10 ^ Z.of_nat (String.length s))
    by (apply Z.pow_pos_nonneg; lia).
  nia.
Qed.

(** The loop of ParseUint, with its overflow tests in 64-bit arithmetic,
    yields the number the digits denote whenever that number fits. *)
Lemma ParseUint_loop_decimal s n m :
  0 <= n <= maxUint64 ->
  ParseUint_loop s n = inr m
  <-> all_bytes is_digit s = true /\ decimal s n = m /\ m <= maxUint64.
Proof.
  revert n. induction s as [| c s IH]; intros n Hn.
  - cbn [ParseUint_loop all_bytes decimal]. split.
    + intros [= <-]. split; [reflexivity | split; [reflexivity | lia]].
    + intros (_ & <- & _). reflexivity.
  - cbn [ParseUint_loop all_bytes decimal].
    destruct (is_digit c) eqn:Hc; cbn [negb andb].
    2: { split; [discriminate | intros [H _]; discriminate H]. }
    destruct (digit_byte c) as [_ H2]. destruct (H2 Hc) as [_ Hd].
    unfold maxUint64 in *. change (2 ^ 64) with 18446744073709551616 in *.
    change ((18446744073709551616 - 1) / 10 + 1) with 1844674407370955162.
    set (d := byte_of c - 48) in *.
    destruct (Z.leb_spec 1844674407370955162 n) as [Hcut | Hcut].
    { split; [discriminate |]. intros (Hall & Hdec & Hm).
      pose proof (decimal_ge s (n * 10 + d) Hall ltac:(lia)). lia. }
    destruct (Z_lt_ge_dec (n * 10 + d) 18446744073709551616) as [Hfit | Hover].
    + rewrite (Z.mod_small (n * 10 + d)) by lia.
      destruct (Z.ltb_spec (n * 10 + d) (n * 10)) as [Hlt | _]; [lia |].
      destruct (Z.ltb_spec (18446744073709551616 - 1) (n * 10 + d))
        as [Hlt | _]; [lia |].
      cbn [orb]. apply IH. lia.
    + assert (Hmod : (n * 10 + d) mod 18446744073709551616
                     = n * 10 + d - 18446744073709551616).
      { symmetry. apply (Z.mod_unique _ _ 1); lia. }
      rewrite Hmod.
      destruct (Z.ltb_spec (n * 10 + d - 18446744073709551616) (n * 10))
        as [_ | Hge]; [| lia].
      cbn [orb]. split; [discriminate |]. intros (Hall & Hdec & Hm).
      pose proof (decimal_ge s (n * 10 + d) Hall ltac:(lia)). lia.
Qed.

Lemma ParseUint_decimal s m :
  ParseUint s = inr m
  <-> s <> "" /\ all_bytes is_digit s = true
      /\ decimal s 0 = m /\ m <= maxUint64.
Proof.
  destruct s as [| c s].
  - split; [discriminate | intros [H _]; contradiction].
  - change (ParseUint (String c s)) with (ParseUint_loop (String c s) 0).
    rewrite ParseUint_loop_decimal by (vm_compute; split; discriminate).
    split; [intros H; split; [discriminate | exact H] | intros [_ H]; exact H].
Qed.

Lemma numeral_cons c s' n :
  numeral (String c s') = Some n
  <-> let neg := Ascii.eqb c "-" in
      let digits := if neg || Ascii.eqb c "+" then s' else String c s' in
      digits <> "" /\ all_bytes is_digit digits = true
      /\ n = if neg then - decimal digits 0 else decimal digits 0.
Proof.
  unfold numeral. cbn zeta.
  set (neg := Ascii.eqb c "-").
  set (digits := if neg || Ascii.eqb c "+" then s' else String c s').
  destruct (is_empty digits) eqn:He.
  - apply is_empty_true in He. split; [discriminate | intros [H _]; contradiction].
  - apply is_empty_false in He.
    destruct (all_bytes is_digit digits).
    + split; [intros [= <-]; auto | intros (_ & _ & ->); reflexivity].
    + split; [discriminate | intros (_ & H & _); discriminate].
Qed.

Lemma fast_path (neg : bool) digits n :
  digits <> "" -> (String.length digits < 19)%nat ->
  match fast_digits digits 0 with
  | None => inl ErrSyntax
  | Some m => inr (if neg then - m else m)
  end = inr n
  <-> (digits <> "" /\ all_bytes is_digit digits = true
       /\ n = if neg then - decimal digits 0 else decimal digits 0)
      /\ is_int64 n.
Proof.
  intros Hne Hlen. rewrite fast_digits_decimal.
  destruct (all_bytes is_digit digits) eqn:Hall.
  - split.
    + intros [= <-]. split; [auto |].
      destruct (decimal_bounds digits 0 Hall ltac:(lia)) as [Hlo Hhi].
      assert (Hpow : 10 ^ Z.of_nat (String.length digits) <= 10 ^ 18)
        by (apply Z.pow_le_mono_r; lia).
      change (10 ^ 18) with 1000000000000000000 in Hpow.
      unfold is_int64. change (2 ^ 63) with 9223372036854775808.
      destruct neg; lia.
    + intros [(_ & _ & ->) _]. reflexivity.
  - split; [discriminate | intros [(_ & H & _) _]; discriminate].
Qed.

Lemma slow_path (neg : bool) digits n :
  match ParseUint digits with
  | inl ErrSyntax => inl ErrSyntax
  | inl ErrRange => inl ErrRange
  | inr un =>
      if negb neg && (2 ^ (intSize - 1) <=? un) then inl ErrRange
      else if neg && (2 ^ (intSize - 1) <? un) then inl ErrRange
      else inr (if neg then - un else un)
  end = inr n
  <-> (digits <> "" /\ all_bytes is_digit digits = true
       /\ n = if neg then - decimal digits 0 else decimal digits 0)
      /\ is_int64 n.
Proof.
  unfold is_int64. change (2 ^ (intSize - 1)) with 9223372036854775808.
  change (2 ^ 63) with 9223372036854775808.
  destruct (ParseUint digits) as [e | un] eqn:Hp.
  - assert (Hno : forall m, ParseUint digits <> inr m) by congruence.
    split; [destruct e; discriminate |].
    intros [(Hne & Hall & ->) Hr]. exfalso.
    apply (Hno (decimal digits 0)). apply ParseUint_decimal.
    split; [exact Hne |]. split; [exact Hall |]. split; [reflexivity |].
    unfold maxUint64. change (2 ^ 64) with 18446744073709551616.
    destruct neg; lia.
  - apply ParseUint_decimal in Hp as (Hne & Hall & Hdec & Hmax).
    pose proof (decimal_ge digits 0 Hall ltac:(lia)) as Hpos.
    rewrite Hdec in *.
    destruct neg; cbn [negb andb].
    + destruct (Z.ltb_spec 9223372036854775808 un).
      * split; [discriminate | intros [(_ & _ & ->) Hr]; lia].
      * split; [intros [= <-]; split; [auto | lia]
               | intros [(_ & _ & ->) _]; reflexivity].
    + destruct (Z.leb_spec 9223372036854775808 un).
      * split; [discriminate | intros [(_ & _ & ->) Hr]; lia].
      * split; [intros [= <-]; split; [auto | lia]
               | intros [(_ & _ & ->) _]; reflexivity].
Qed.

Lemma Atoi_decimal (s : string) (n : Z) :
  Atoi s = inr n <-> numeral s = Some n /\ is_int64 n.
Proof.
  destruct s as [| c s'].
  - split; [discriminate | intros [H _]; discriminate].
  - rewrite numeral_cons. cbn zeta. unfold Atoi.
    destruct ((0 <? String.length (String c s'))%nat
              && (String.length (String c s') <? 19)%nat) eqn:Hshort.
    + apply andb_true_iff in Hshort as [_ Hlen]. apply Nat.ltb_lt in Hlen.
      cbn [String.length] in Hlen.
      destruct (Ascii.eqb c "-" || Ascii.eqb c "+") eqn:Hsign.
      * cbn [andb].
        destruct (is_empty s') eqn:He.
        -- apply is_empty_true in He.
           split; [discriminate | intros [[H _] _]; contradiction].
        -- apply is_empty_false in He. apply fast_path; [exact He | lia].
      * cbn [andb].
        apply fast_path; [discriminate | cbn [String.length]; lia].
    + unfold ParseInt.
      rewrite (orb_comm (Ascii.eqb c "-") (Ascii.eqb c "+")).
      apply slow_path.
Qed.

(** X6. strconv.Atoi accepts exactly the decimal numerals, an optional sign
    and at least one digit, whose value fits a 64-bit int, and returns that
    value: the short loop for up to 18 bytes and ParseInt with its overflow
    tests agree with the positional reading of the digits. *)
Theorem Atoi_numeral (s : string) (n : Z) :
  Atoi s = inr n <-> numeral s = Some n /\ is_int64 n.
Proof. exact (Atoi_decimal s n). Qed.

(** X7. For a host and a port without colon or square bracket,
    validateEndpoint accepts ["host:port"] exactly when the host is not
    empty and the port is a decimal numeral within a 64-bit int. *)
Theorem validateEndpoint_plain (host port : string)
  (Hhost : Net.contains host ":" = false
           /\ Net.contains host "[" = false /\ Net.contains host "]" = false)
  (Hport : Net.contains port ":" = false
           /\ Net.contains port "[" = false /\ Net.contains port "]" = false) :
  validateEndpoint (host ++ ":" ++ port)%string = None
  <-> host <> ""%string /\ exists n, numeral port = Some n /\ is_int64 n.
Proof.
  unfold validateEndpoint. rewrite (SplitHostPort_append host port Hhost Hport).
  destruct (is_empty host) eqn:Hh.
  - apply is_empty_true in Hh. split; [discriminate | intros [H _]; contradiction].
  - apply is_empty_false in Hh. destruct (is_empty port) eqn:Hp.
    + apply is_empty_true in Hp. subst port.
      split; [discriminate | intros (_ & n & H & _); discriminate].
    + destruct (Atoi port) as [e | n] eqn:Ha.
      * split; [discriminate |]. intros (_ & n & Hn).
        apply Atoi_decimal in Hn. congruence.
      * apply Atoi_decimal in Ha. split; [eauto | reflexivity].
Qed.

Lemma validateEndpoint_plain_witness :
  validateEndpoint ("trisa.example.com" ++ ":" ++ "4435")%string = None
  <-> "trisa.example.com"%string <> ""%string
      /\ exists n, numeral "4435" = Some n /\ is_int64 n.
Proof.
  assert (H1 : Net.contains "trisa.example.com" ":" = false
               /\ Net.contains "trisa.example.com" "[" = false
               /\ Net.contains "trisa.example.com" "]" = false)
    by (vm_compute; auto).
  assert (H2 : Net.contains "4435" ":" = false
               /\ Net.contains "4435" "[" = false
               /\ Net.contains "4435" "]" = false)
    by (vm_compute; auto).
  exact (validateEndpoint_plain "trisa.example.com" "4435" H1 H2).
Defined.

End Numerals.

(** ** Lookup and the contact email *)

Section Reading.

Variable env : Env.

Lemma Lookup_state req w r w' : Lookup env req w = (r, w') -> w' = w.
Proof.
  unfold Lookup, bind, try, RetrieveVASP, SearchVASPs, throw, ret, panic.
  destruct (negb (GoString.is_empty (LookupRequest.Id req))).
  - destruct (fault env LookupRetrieveVASP); [intros [= _ <-]; reflexivity |].
    destruct (vasps w !! LookupRequest.Id req) as [v |];
      [| intros [= _ <-]; reflexivity].
    destruct (VASP.Entity v); intros [= _ <-]; reflexivity.
  - destruct (negb (GoString.is_empty (LookupRequest.CommonName req)));
      [| intros [= _ <-]; reflexivity].
    destruct (fault env LookupSearchVASPs); [intros [= _ <-]; reflexivity |].
    destruct (negb (Nat.eqb (length _) 1)); [intros [= _ <-]; reflexivity |].
    destruct (List.filter _ _) as [| v vs]; [intros [= _ <-]; reflexivity |].
    destruct (VASP.Entity v); intros [= _ <-]; reflexivity.
Qed.

(** X8. Lookup only reads: whatever it answers, a reply, an error or a
    panic, it leaves the store, the vault, the outbox and the clock as they
    were. *)
Theorem Lookup_read_only (req : LookupRequest.t) (w : World) :
  snd (Lookup env req w) = w.
Proof.
  destruct (Lookup env req w) as [r w'] eqn:H. exact (Lookup_state _ _ _ _ H).
Qed.

(** X9. When an id is given, Lookup looks at nothing else: the registered
    directory and the common name of the request have no influence on the
    answer. *)
Theorem Lookup_id_first (id d cn d' cn' : string) (w : World) :
  id <> "" ->
  Lookup env (LookupRequest.mk id d cn) w
  = Lookup env (LookupRequest.mk id d' cn') w.
Proof.
  intros Hid. apply is_empty_false in Hid. unfold Lookup.
  cbn [LookupRequest.Id]. rewrite Hid. reflexivity.
Qed.

(** X10. Lookup dereferences the entity of the VASP it found without a
    test: it panics only when the store holds a VASP without entity. When
    every stored VASP has one, Lookup never panics. *)
Theorem Lookup_panics_on_missing_entity (req : LookupRequest.t) (w w' : World) :
  Lookup env req w = (Panic, w') ->
  exists id vasp, vasps w !! id = Some vasp /\ VASP.Entity vasp = None.
Proof.
  unfold Lookup, bind, try, RetrieveVASP, SearchVASPs, throw, ret, panic.
  destruct (negb (GoString.is_empty (LookupRequest.Id req))).
  - destruct (fault env LookupRetrieveVASP); [discriminate |].
    destruct (vasps w !! LookupRequest.Id req) as [v |] eqn:Hv;
      [| discriminate].
    destruct (VASP.Entity v) eqn:He; [discriminate |]. eauto.
  - destruct (negb (GoString.is_empty (LookupRequest.CommonName req)));
      [| discriminate].
    destruct (fault env LookupSearchVASPs); [discriminate |].
    destruct (List.filter _ _) as [| v vs] eqn:Hf; [discriminate |].
    destruct (negb (Nat.eqb (length (v :: vs)) 1)); [discriminate |].
    destruct (VASP.Entity v) eqn:He; [discriminate |]. intros _.
    assert (Hin : In v (List.filter
                          (fun v => forallb (meets env v)
                                      [("name", [LookupRequest.CommonName req])])
                          (snd <$> map_to_list (vasps w))))
      by (rewrite Hf; left; reflexivity).
    apply filter_In in Hin as [Hin _].
    apply list_elem_of_In, list_elem_of_fmap in Hin as ([id v'] & -> & Hin).
    apply elem_of_map_to_list in Hin. eauto.
Qed.

End Reading.

Lemma Lookup_id_first_witness :
  Lookup Sample.env (LookupRequest.mk "id-0123" "" "") Sample.registered
  = Lookup Sample.env
      (LookupRequest.mk "id-0123" "elsewhere" "nobody.example.com")
      Sample.registered.
Proof.
  assert (H : "id-0123" <> "") by discriminate.
  exact (Lookup_id_first Sample.env "id-0123" "" "" "elsewhere"
           "nobody.example.com" Sample.registered H).
Defined.

Lemma Lookup_panics_on_missing_entity_witness :
  exists id vasp,
    vasps Probe.haunted !! id = Some vasp /\ VASP.Entity vasp = None.
Proof.
  assert (H : Lookup Sample.env (LookupRequest.mk "id-9" "" "") Probe.haunted
              = (Panic, Probe.haunted))
    by (vm_compute; reflexivity).
  exact (Lookup_panics_on_missing_entity Sample.env _ _ _ H).
Defined.

Lemma iterate_contacts_email cs seen kinds k :
  k ∈ iterate_contacts cs true false seen kinds
  <-> k ∈ kinds
      /\ exists c, Contacts.get k cs = Some c /\ Contact.Email c <> "".
Proof.
  revert seen. induction kinds as [| k0 kinds IH]; intros seen; simpl.
  - split; [intros H | intros [H _]]; apply elem_of_nil in H; contradiction.
  - destruct (Contacts.get k0 cs) as [c |] eqn:Hc.
    + destruct (GoString.is_empty (Contact.Email c)) eqn:He.
      * apply is_empty_true in He. rewrite IH, elem_of_cons. split.
        -- intros [H1 H2]. auto.
        -- intros [[-> | H1] H2]; [| auto].
           destruct H2 as (c' & Hc' & Hne). congruence.
      * apply is_empty_false in He. rewrite !elem_of_cons, IH. split.
        -- intros [-> | [H1 H2]]; [eauto | auto].
        -- intros [[-> | H1] H2]; auto.
    + rewrite IH, elem_of_cons. split.
      * intros [H1 H2]. auto.
      * intros [[-> | H1] H2]; [| auto].
        destruct H2 as (c' & Hc' & _). congruence.
Qed.

Lemma NewContactIterator_email v k :
  k ∈ NewContactIterator (VASP.Contacts v) true false
  <-> exists c, VASP.contact k v = Some c /\ Contact.Email c <> "".
Proof.
  unfold NewContactIterator, VASP.contact.
  destruct (VASP.Contacts v) as [cs |].
  - rewrite iterate_contacts_email. split; [intros [_ H]; exact H |].
    intros H. split; [| exact H].
    unfold contactOrder. destruct k; rewrite !elem_of_cons; auto.
  - split; [intros H; apply elem_of_nil in H; contradiction |].
    intros (c & Hc & _). discriminate.
Qed.

Lemma getContactEmail_none v :
  getContactEmail v = ""
  <-> forall k c, VASP.contact k v = Some c -> Contact.Email c = "".
Proof.
  unfold getContactEmail.
  destruct (NewContactIterator (VASP.Contacts v) true false) as [| k rest] eqn:E.
  - split; [| reflexivity]. intros _ k c Hc.
    destruct (string_dec (Contact.Email c) "") as [He | He]; [exact He |].
    exfalso. assert (Hk : k ∈ NewContactIterator (VASP.Contacts v) true false)
      by (apply NewContactIterator_email; eauto).
    rewrite E in Hk. apply elem_of_nil in Hk. exact Hk.
  - assert (Hk : k ∈ NewContactIterator (VASP.Contacts v) true false)
      by (rewrite E; apply list_elem_of_here).
    apply NewContactIterator_email in Hk as (c & Hc & Hne). rewrite Hc.
    split; [intros H; contradiction | intros H; apply (H k c Hc)].
Qed.

(** X11. getContactEmail finds an address whenever there is one: it returns
    the empty string exactly when no contact of the VASP has an email
    address. *)
Theorem getContactEmail_empty (vasp : VASP.t) :
  getContactEmail vasp = ""
  <-> forall k c, VASP.contact k vasp = Some c -> Contact.Email c = "".
Proof. exact (getContactEmail_none vasp). Qed.

(** ** How Register fails *)

Lemma fails_with_ret {A} P (a : A) : fails_with P (ret a).
Proof. intros w. exact I. Qed.

Lemma fails_with_lift {A} P (f : World -> A * World) : fails_with P (lift f).
Proof. intros w. unfold lift. destruct (f w). exact I. Qed.

Lemma fails_with_try {A} (P : Code -> string -> Prop) (op : Op A) c msg :
  P c msg -> fails_with P (try op c msg).
Proof. intros H w. unfold try. destruct (op w) as [[a |] w1]; [exact I | exact H]. Qed.

Lemma fails_with_throw {A} (P : Code -> string -> Prop) c msg :
  P c msg -> fails_with P (@throw A c msg).
Proof. intros H w. exact H. Qed.

Lemma fails_with_bind {A B} P (m : M A) (k : A -> M B) :
  fails_with P m -> (forall a, fails_with P (k a)) -> fails_with P (bind m k).
Proof.
  intros Hm Hk w. unfold bind. specialize (Hm w).
  destruct (m w) as [[a | c msg |] w1]; cbn [fst] in *;
    [apply Hk | exact Hm | exact Hm].
Qed.

Lemma fails_with_create_tokens env (P : Code -> string -> Prop) kinds :
  P Aborted "could not send contact verification emails" ->
  forall v, fails_with P (create_tokens env kinds v).
Proof.
  intros HP. induction kinds as [| k rest IH]; intros v; cbn [create_tokens].
  - apply fails_with_ret.
  - apply fails_with_bind; [apply fails_with_lift | intros token].
    apply fails_with_bind; [apply fails_with_try, HP | exact IH].
Qed.

Section Failures.

Variable env : Env.

(** Every way Register can end without a reply. *)
Lemma Register_failure req w r w' :
  Register env req w = (r, w') -> Register_verdict req w r w'.
Proof.
  unfold Register.
  destruct (GoString.is_empty (RegisterRequest.TrisaEndpoint req));
    [intros [= <- <-]; split; [discriminate | reflexivity] |].
  destruct (validateEndpoint (RegisterRequest.TrisaEndpoint req)) eqn:Hve;
    [intros [= <- <-]; split; [discriminate | reflexivity] |].
  cbn [VASP.CommonName].
  destruct (GoString.is_empty (RegisterRequest.CommonName req)).
  1: destruct (Net.SplitHostPort (RegisterRequest.TrisaEndpoint req))
       as [e | [host port]] eqn:Hs;
       [exfalso; unfold validateEndpoint in Hve; rewrite Hs in Hve;
        discriminate Hve |].
  2: destruct (ValidateCommonName (RegisterRequest.CommonName req));
       [intros [= <- <-]; split; [discriminate | reflexivity] |].
  all: unfold bind at 1; cbn [ret].
  all: unfold bind at 1.
  all: match goal with
       | |- context [Validate env ?v] => destruct (Validate env v)
       end.
  all: try (intros [= <- <-]; split; [discriminate | reflexivity]).
  all: cbn [ret VASP.Contacts VASP.with_CommonName].
  all: destruct (RegisterRequest.Contacts req) as [contacts |] eqn:Hcs;
         [| intros [= <- <-]; split; [exact Hcs | reflexivity]].
  all: match goal with
       | |- context [GoString.is_empty (getContactEmail ?v)] =>
           destruct (GoString.is_empty (getContactEmail v))
       end; [intros [= <- <-]; split; [discriminate | reflexivity] |].
  all: unfold bind at 1, try at 1, UpdateVerificationStatus.
  all: destruct (fault env RegUpdateVerificationStatus);
         [intros [= <- <-]; split; [discriminate | exact I] |].
  all: cbn [time_Now].
  all: unfold bind at 1, try at 1, CreateVASP.
  all: destruct (fault env RegCreateVASP);
         [intros [= <- <-]; split; [discriminate | repeat split] |].
  all: match goal with
       | |- context [common_name_taken ?m ?cn] =>
           destruct (common_name_taken m cn)
       end; [intros [= <- <-]; split; [discriminate | repeat split] |].
  all: match goal with
       | |- ?tail ?w3 = _ -> _ =>
           assert (Htail : fails_with
                     (fun c msg => (c = Aborted \/ c = Internal)
                                   /\ msg <> unparsed_common_name) tail);
           [| intros H; specialize (Htail w3); rewrite H in Htail;
              cbn [fst] in Htail; destruct r as [reply | c msg |];
              [exact I | | contradiction];
              destruct Htail as [[-> | ->] Hmsg]; split; auto]
       end.
  all: repeat first
         [ apply fails_with_ret
         | apply fails_with_lift
         | apply fails_with_create_tokens; split; [auto | discriminate]
         | apply fails_with_try; split; [auto | discriminate]
         | apply fails_with_bind; [| intros ?]
         | match goal with
           | |- fails_with _ (if ?b then _ else _) => destruct b
           end ].
Qed.

(** X12. Register fails with INVALID_ARGUMENT, ALREADY_EXISTS, ABORTED or
    INTERNAL only. A request refused with INVALID_ARGUMENT has changed
    nothing at all; one refused with ALREADY_EXISTS has left the directory,
    the certificate requests, the vault and the outbox as they were. *)
Theorem Register_rejections (req : RegisterRequest.t) (w w' : World)
    (c : Code) (msg : string) :
  Register env req w = (Error c msg, w') ->
  (c = InvalidArgument \/ c = AlreadyExists \/ c = Aborted \/ c = Internal)
  /\ (c = InvalidArgument -> w' = w)
  /\ (c = AlreadyExists -> same_stores w w').
Proof.
  intros H. apply Register_failure in H as [_ H].
  destruct c; try contradiction;
    (split; [auto | split; intros Hc; try discriminate Hc; exact H]).
Qed.

(** X13. The branch of Register that reports a common name it could not
    parse from the endpoint is dead: validateEndpoint has split the same
    endpoint before, so no run of Register ends with that message. *)
Theorem Register_common_name_always_parsed (req : RegisterRequest.t)
    (w w' : World) (c : Code) (msg : string) :
  Register env req w = (Error c msg, w') -> msg <> unparsed_common_name.
Proof. intros H. apply Register_failure in H as [H _]. exact H. Qed.

(** X14. Register reads the contacts of the request without a nil test: it
    panics only when the request carries no contacts, and then before
    anything is written. *)
Theorem Register_panics_without_contacts (req : RegisterRequest.t)
    (w w' : World) :
  Register env req w = (Panic, w') ->
  RegisterRequest.Contacts req = None /\ w' = w.
Proof. intros H. apply Register_failure in H. exact H. Qed.

End Failures.

Lemma Register_rejections_witness :
  (InvalidArgument = InvalidArgument \/ InvalidArgument = AlreadyExists
   \/ InvalidArgument = Aborted \/ InvalidArgument = Internal)
  /\ (InvalidArgument = InvalidArgument -> Sample.empty = Sample.empty)
  /\ (InvalidArgument = AlreadyExists
      -> same_stores Sample.empty Sample.empty).
Proof.
  assert (H : Register Sample.env Sample.wildcard_name Sample.empty
              = (Error InvalidArgument "invalid common name supplied",
                 Sample.empty))
    by (vm_compute; reflexivity).
  exact (Register_rejections Sample.env _ _ _ _ _ H).
Defined.

Lemma Register_common_name_always_parsed_witness :
  "no endpoint supplied" <> unparsed_common_name.
Proof.
  assert (H : Register Sample.env (Sample.registration "" "") Sample.empty
              = (Error InvalidArgument "no endpoint supplied", Sample.empty))
    by (vm_compute; reflexivity).
  exact (Register_common_name_always_parsed Sample.env _ _ _ _ _ H).
Defined.

Lemma Register_panics_without_contacts_witness :
  RegisterRequest.Contacts Probe.no_contacts = None
  /\ Sample.empty = Sample.empty.
Proof.
  assert (H : Register Sample.env Probe.no_contacts Sample.empty
              = (Panic, Sample.empty))
    by (vm_compute; reflexivity).
  exact (Register_panics_without_contacts Sample.env _ _ _ H).
Defined.

(** ** How VerifyContact fails, and what it leaves alone *)

Lemma keeps_ret {A} (R : World -> World -> Prop) (a : A) :
  (forall w, R w w) -> keeps R (ret a).
Proof. intros HR w. apply HR. Qed.

Lemma keeps_throw {A} (R : World -> World -> Prop) c msg :
  (forall w, R w w) -> keeps R (@throw A c msg).
Proof. intros HR w. apply HR. Qed.

Lemma keeps_try {A} (R : World -> World -> Prop) (op : Op A) c msg :
  (forall w, R w (snd (op w))) -> keeps R (try op c msg).
Proof.
  intros H w. specialize (H w). unfold try.
  destruct (op w) as [[a |] w1]; exact H.
Qed.

Lemma keeps_lift {A} (R : World -> World -> Prop) (f : World -> A * World) :
  (forall w, R w (snd (f w))) -> keeps R (lift f).
Proof. intros H w. specialize (H w). unfold lift. destruct (f w). exact H. Qed.

Lemma keeps_bind {A B} (R : World -> World -> Prop) (m : M A) (k : A -> M B) :
  (forall w1 w2 w3, R w1 w2 -> R w2 w3 -> R w1 w3) ->
  keeps R m -> (forall a, keeps R (k a)) -> keeps R (bind m k).
Proof.
  intros Htrans Hm Hk w. unfold bind. specialize (Hm w).
  destruct (m w) as [[a | c msg |] w1]; cbn [snd] in *;
    [eapply Htrans; [exact Hm | apply Hk] | exact Hm | exact Hm].
Qed.

Lemma verify_frame_refl w : verify_frame w w.
Proof.
  split; [reflexivity |]. split; [reflexivity |].
  exists []. split; [symmetry; apply app_nil_r | constructor].
Qed.

Lemma verify_frame_trans w1 w2 w3 :
  verify_frame w1 w2 -> verify_frame w2 w3 -> verify_frame w1 w3.
Proof.
  intros (Hc1 & Hv1 & l1 & Ho1 & Hl1) (Hc2 & Hv2 & l2 & Ho2 & Hl2).
  split; [congruence |]. split; [congruence |].
  exists (l1 ++ l2)%list. split.
  - rewrite Ho2, Ho1, app_assoc. reflexivity.
  - apply Forall_app. auto.
Qed.

Section Verifying.

Variable env : Env.





Lemma scan_contacts_keeps token kinds :
  forall st, keeps verify_frame (scan_contacts env token kinds st).
Proof.
  induction kinds as [| k rest IH]; intros st; cbn [scan_contacts].
  - apply keeps_ret, verify_frame_refl.
  - apply keeps_bind; [apply verify_frame_trans | | intros tv].
    { apply keeps_try. intros w. unfold GetContactVerification.
      destruct (fault env _); [apply verify_frame_refl |].
      destruct (VASP.contact k _); apply verify_frame_refl. }
    destruct (String.eqb (fst tv) token).
    + apply keeps_bind; [apply verify_frame_trans | | intros v].
      { apply keeps_try. intros w. unfold SetContactVerification.
        destruct (fault env _); [apply verify_frame_refl |].
        destruct (VASP.contact k _); apply verify_frame_refl. }
      apply keeps_bind; [apply verify_frame_trans | | intros v'].
      { apply keeps_try. intros w. unfold UpdateVerificationStatus.
        destruct (fault env _); [apply verify_frame_refl |].
        split; [reflexivity |]. split; [reflexivity |].
        exists []. split; [symmetry; apply app_nil_r | constructor]. }
      apply IH.
    + destruct (snd tv); apply IH.
Qed.

Lemma VerifyContact_keeps req : keeps verify_frame (VerifyContact env req).
Proof.
  assert (Hstatus : forall s v st d src w,
            verify_frame w (snd (UpdateVerificationStatus env s v st d src w))).
  { intros. unfold UpdateVerificationStatus.
    destruct (fault env _); [apply verify_frame_refl |].
    split; [reflexivity |]. split; [reflexivity |].
    exists []. split; [symmetry; apply app_nil_r | constructor]. }
  assert (Hupdate : forall s v w, verify_frame w (snd (UpdateVASP env s v w))).
  { intros. unfold UpdateVASP.
    destruct (fault env _); [apply verify_frame_refl |].
    split; [reflexivity |]. split; [reflexivity |].
    exists []. split; [symmetry; apply app_nil_r | constructor]. }
  unfold VerifyContact.
  destruct (GoString.is_empty (VerifyContactRequest.Token req));
    [apply keeps_throw, verify_frame_refl |].
  apply keeps_bind; [apply verify_frame_trans | | intros vasp].
  { apply keeps_try. intros w. unfold RetrieveVASP.
    destruct (fault env _); apply verify_frame_refl. }
  apply keeps_bind;
    [apply verify_frame_trans | apply scan_contacts_keeps | intros st].
  destruct (negb (found st)); [apply keeps_throw, verify_frame_refl |].
  destruct (_ && _).
  - apply keeps_bind; [apply verify_frame_trans | | intros _].
    + apply keeps_try, Hupdate.
    + apply keeps_ret, verify_frame_refl.
  - apply keeps_bind; [apply verify_frame_trans | | intros v1].
    { apply keeps_try, Hstatus. }
    apply keeps_bind; [apply verify_frame_trans | | intros token].
    { apply keeps_lift. intros w. split; [reflexivity |].
      split; [reflexivity |].
      exists []. split; [symmetry; apply app_nil_r | constructor]. }
    apply keeps_bind; [apply verify_frame_trans | | intros v2].
    { apply keeps_try. intros w. unfold SetAdminVerificationToken.
      destruct (fault env _); apply verify_frame_refl. }
    apply keeps_bind; [apply verify_frame_trans | | intros _].
    { apply keeps_try, Hupdate. }
    apply keeps_bind; [apply verify_frame_trans | | intros mailed].
    { apply keeps_lift. intros w. split; [reflexivity |].
      split; [reflexivity |].
      eexists [_]. split; [reflexivity |]. repeat constructor. }
    apply keeps_bind; [apply verify_frame_trans | | intros v3].
    { apply keeps_try, Hstatus. }
    apply keeps_bind; [apply verify_frame_trans | | intros _].
    { apply keeps_try, Hupdate. }
    apply keeps_ret, verify_frame_refl.
Qed.

(** X16. Whatever VerifyContact answers, it has left the certificate
    requests and the vault as they were, and the only mail it can have asked
    the courier for is the review request. *)
Theorem VerifyContact_frame (req : VerifyContactRequest.t) (w : World) :
  verify_frame w (snd (VerifyContact env req w)).
Proof. apply VerifyContact_keeps. Qed.

End Verifying.


(** ** A further contact verifies its address *)

(** X17. When a contact of a VASP that is past SUBMITTED verifies its
    address after another contact has done so, and no call fails,
    VerifyContact succeeds with the message "email successfully verified":
    the contacts holding the token are verified and stored, the status, the
    admin verification token and the outbox stay as they are, so no second
    review request is sent. *)
Theorem VerifyContact_further_contact
    (env : Env) (req : VerifyContactRequest.t) (w : World) (vasp : VASP.t)
    (Hfaults : forall s, fault env s = false)
    (Htoken : VerifyContactRequest.Token req <> "")
    (Hstored : vasps w !! VerifyContactRequest.Id req = Some vasp)
    (Hkey : VASP.Id vasp = VerifyContactRequest.Id req)
    (Hpast : state_number SUBMITTED
             < state_number (VASP.VerificationStatus vasp))
    (Hmatch : exists k c, VASP.contact k vasp = Some c
                          /\ Contact.Token c = VerifyContactRequest.Token req)
    (Hother : exists k c, VASP.contact k vasp = Some c
                          /\ Contact.Token c <> VerifyContactRequest.Token req
                          /\ Contact.Verified c = true) :
  exists w1 vasp1,
    VerifyContact env req w
    = (Ok (VerifyContactReply.mk (VASP.VerificationStatus vasp)
             "email successfully verified"), w1)
    /\ vasps w1 = <[VerifyContactRequest.Id req := vasp1]> (vasps w)
    /\ outbox w1 = outbox w
    /\ VASP.VerificationStatus vasp1 = VASP.VerificationStatus vasp
    /\ VASP.AdminVerificationToken vasp1 = VASP.AdminVerificationToken vasp
    /\ forall k, VASP.contact k vasp1
                 = verify_contact (VerifyContactRequest.Token req)
                     <$> VASP.contact k vasp.
Proof.
  destruct (VerifyContact_total env req w vasp Hfaults Htoken Hstored Hmatch)
    as (reply & w1 & Hok).
  destruct (VerifyContact_Ok env req w reply w1 vasp Hstored Hkey Hok)
    as (_ & _ & vasp1 & entries & Hvasps & _ & _ & _ & Hcases).
  apply verified_before_exists in Hother. apply Nat.ltb_lt in Hpast.
  rewrite Hother, Hpast in Hcases.
  destruct Hcases as [(_ & -> & Hout & Hcore & _ & Hcontacts)
                     | (Hno & _)]; [| discriminate Hno].
  apply core_fields in Hcore as (_ & Hst & Hadm).
  exists w1, vasp1. auto 10.
Qed.

Lemma VerifyContact_further_contact_witness :
  exists w1 vasp1,
    VerifyContact Sample.env Sample.verify_bob Sample.in_review
    = (Ok (VerifyContactReply.mk PENDING_REVIEW "email successfully verified"),
       w1)
    /\ vasps w1 = <["id-0123" := vasp1]> (vasps Sample.in_review)
    /\ outbox w1 = outbox Sample.in_review
    /\ VASP.VerificationStatus vasp1 = PENDING_REVIEW
    /\ VASP.AdminVerificationToken vasp1 = "admin-token"
    /\ forall k, VASP.contact k vasp1
                 = verify_contact "bobs-token"
                     <$> VASP.contact k
                           (VASP.mk "id-0123" "trisatest.net"
                              (Some (LegalPerson.mk "Acme" "US"))
                              (Some (Contacts.mk (Some Sample.bob) None
                                       (Some (Contact.with_verification ""
                                                true Sample.ada)) None))
                              None [] "trisa.example.com" "https://x.io"
                              "trisa.example.com:443" 1 [] "" None
                              PENDING_REVIEW "" 1 [] "admin-token" []).
Proof.
  assert (H1 : forall s, fault Sample.env s = false) by (intros s; reflexivity).
  assert (H2 : VerifyContactRequest.Token Sample.verify_bob <> "")
    by (vm_compute; discriminate).
  set (v := VASP.mk "id-0123" "trisatest.net"
              (Some (LegalPerson.mk "Acme" "US"))
              (Some (Contacts.mk (Some Sample.bob) None
                       (Some (Contact.with_verification "" true Sample.ada))
                       None))
              None [] "trisa.example.com" "https://x.io"
              "trisa.example.com:443" 1 [] "" None
              PENDING_REVIEW "" 1 [] "admin-token" []).
  assert (H3 : vasps Sample.in_review
               !! VerifyContactRequest.Id Sample.verify_bob = Some v)
    by (vm_compute; reflexivity).
  assert (H4 : VASP.Id v = VerifyContactRequest.Id Sample.verify_bob)
    by reflexivity.
  assert (H5 : state_number SUBMITTED
               < state_number (VASP.VerificationStatus v))
    by (vm_compute; lia).
  assert (H6 : exists k c, VASP.contact k v = Some c
                 /\ Contact.Token c
                    = VerifyContactRequest.Token Sample.verify_bob).
  { exists technical, Sample.bob. split; reflexivity. }
  assert (H7 : exists k c, VASP.contact k v = Some c
                 /\ Contact.Token c
                    <> VerifyContactRequest.Token Sample.verify_bob
                 /\ Contact.Verified c = true).
  { exists legal. eexists. split; [reflexivity |].
    split; [vm_compute; discriminate | reflexivity]. }
  exact (VerifyContact_further_contact Sample.env Sample.verify_bob
           Sample.in_review v H1 H2 H3 H4 H5 H6 H7).
Defined.

(** ** The record a registration leaves behind *)

Section Registered.

Variable env : Env.

Lemma create_tokens_contacts kinds :
  NoDup kinds ->
  forall v w v' w',
    create_tokens env kinds v w = (Ok v', w') ->
    forall k,
      (k ∉ kinds -> VASP.contact k v' = VASP.contact k v)
      /\ (k ∈ kinds ->
          exists c token,
            VASP.contact k v = Some c /\ String.length token = 48
            /\ VASP.contact k v'
               = Some (Contact.with_verification token false c)).
Proof.
  induction 1 as [| k0 rest Hnotin Hnodup IH]; intros v w v' w' H k.
  - apply ret_Ok in H as [<- _]. split; [reflexivity |].
    intros Hk. apply elem_of_nil in Hk. contradiction.
  - cbn [create_tokens] in H.
    apply bind_Ok in H as (token & w1 & Ht & H).
    apply CreateToken_Ok in Ht as [Hlen _].
    apply bind_Ok in H as (v1 & w2 & Hs & H).
    apply try_Ok, SetContactVerification_Some in Hs as [_ (c0 & Hc0 & ->)].
    destruct (IH _ _ _ _ H k) as [IHout IHin].
    destruct (decide (k = k0)) as [-> | Hne].
    + split; [intros Hk; exfalso; apply Hk, list_elem_of_here |].
      intros _. exists c0, token. split; [exact Hc0 |]. split; [exact Hlen |].
      rewrite (IHout Hnotin). apply contact_set_contact_eq. rewrite Hc0. eauto.
    + assert (Hsame : VASP.contact k
                        (VASP.set_contact k0
                           (Some (Contact.with_verification token false c0)) v)
                      = VASP.contact k v)
        by (apply contact_set_contact_ne; congruence).
      split.
      * intros Hk. rewrite IHout; [exact Hsame |].
        intros Hin. apply Hk, list_elem_of_further, Hin.
      * intros Hk. apply elem_of_cons in Hk as [-> | Hk]; [contradiction |].
        destruct (IHin Hk) as (c & tok & Hc & Htok & Hv').
        exists c, tok. rewrite <- Hsame. auto.
Qed.


(** What a successful Register has stored and answered. *)
Lemma Register_Ok_record req w reply w' :
  Register env req w = (Ok reply, w') ->
  exists vasp cs now email request,
    RegisterRequest.Contacts req = Some cs
    /\ email <> ""
    /\ vasps w' !! RegisterReply.Id reply = Some vasp
    /\ sans_contacts vasp
       = registered_record env req (RegisterReply.Id reply) now email request
    /\ reply = RegisterReply.mk (RegisterReply.Id reply) (DirectoryID env)
                 (effective_common_name req) SUBMITTED registered_message
                 (RegisterReply.Pkcs12Password reply)
    /\ forall k,
         match nil_if_zero (Contacts.get k cs) with
         | None => VASP.contact k vasp = None
         | Some c =>
             exists c', VASP.contact k vasp = Some c' /\ registered_contact c c'
         end.
Proof.
  unfold Register.
  destruct (GoString.is_empty (RegisterRequest.TrisaEndpoint req));
    [intros H; exfalso; eapply throw_Ok, H |].
  destruct (validateEndpoint (RegisterRequest.TrisaEndpoint req));
    [intros H; exfalso; eapply throw_Ok, H |].
  intros H.
  apply bind_Ok in H as (v0 & w0 & Hv0 & H).
  set (vasp0 := VASP.mk "" (DirectoryID env) (RegisterRequest.Entity req)
                  (RegisterRequest.Contacts req) None []
                  (RegisterRequest.CommonName req) (RegisterRequest.Website req)
                  (RegisterRequest.TrisaEndpoint req)
                  (RegisterRequest.BusinessCategory req)
                  (RegisterRequest.VaspCategories req)
                  (RegisterRequest.EstablishedOn req) (RegisterRequest.Trixo req)
                  NO_VERIFICATION "" 1 [] "" []) in *.
  assert (Hv0' : v0 = VASP.with_CommonName (effective_common_name req) vasp0).
  { revert Hv0. unfold effective_common_name. cbn [VASP.CommonName vasp0].
    destruct (GoString.is_empty (RegisterRequest.CommonName req)).
    - destruct (Net.SplitHostPort _) as [e | [host port]]; intros Hv0;
        [exfalso; eapply throw_Ok, Hv0 |].
      apply ret_Ok in Hv0 as [<- _]. reflexivity.
    - destruct (ValidateCommonName _); intros Hv0;
        [exfalso; eapply throw_Ok, Hv0 |].
      apply ret_Ok in Hv0 as [<- _]. reflexivity. }
  clear Hv0. subst v0.
  apply bind_Ok in H as (u0 & w1 & _ & H).
  cbn [VASP.Contacts VASP.with_CommonName vasp0] in H.
  destruct (RegisterRequest.Contacts req) as [cs |] eqn:Hcs;
    [| exfalso; eapply panic_Ok, H].
  match type of H with
  | context [GoString.is_empty ?e] =>
      set (email := e) in *; destruct (GoString.is_empty email) eqn:Hemail
  end; [exfalso; eapply throw_Ok, H |].
  apply is_empty_false in Hemail.
  apply bind_Ok in H as (v1 & w2 & Hv1 & H).
  apply try_Ok, UpdateVerificationStatus_Some in Hv1 as [Hv1 _].
  apply bind_Ok in H as (id & w3 & Hid & H).
  apply bind_Ok in H as (v2 & w4 & Hv2 & H).
  pose proof (create_tokens_contacts _ (NewContactIterator_NoDup _ _ _)
                _ _ _ _ Hv2) as Hcontacts.
  apply create_tokens_Ok in Hv2 as (Hv2 & _).
  apply bind_Ok in H as (u1 & w5 & _ & H).
  apply bind_Ok in H as (mailed & w6 & Hm & H).
  apply bind_Ok in H as (u2 & w7 & _ & H).
  apply bind_Ok in H as (password & w8 & Hp & H).
  apply bind_Ok in H as (r0 & w9 & Hr0 & H).
  apply bind_Ok in H as (r1 & w10 & Hr1 & H).
  apply bind_Ok in H as (u3 & w11 & _ & H).
  apply bind_Ok in H as (u4 & w12 & _ & H).
  apply bind_Ok in H as (u5 & w13 & _ & H).
  apply bind_Ok in H as (v3 & w14 & Hv3 & H).
  apply try_Ok, AppendCertReqID_Some in Hv3 as [Hv3 ->].
  apply bind_Ok in H as (u6 & w15 & Hf & H).
  apply try_Ok, UpdateVASP_Some in Hf.
  apply ret_Ok in H as [<- ->].
  unfold SendVerifyContacts, send, lift in Hm. inversion Hm. subst mailed.
  clear Hm. cbn [fst] in *.
  set (o := courier env VerifyContactEmail v2) in *.
  set (vm := log_sends o v2) in *.
  assert (Hvm : sans_contacts vm = sans_contacts (VASP.with_Id id v1)).
  { unfold vm. rewrite log_sends_sans. exact Hv2. }
  assert (Hcm : forall k, VASP.contact k v3
                          = Contact.with_log (appended o k)
                              <$> VASP.contact k v2).
  { intros k. rewrite Hv3. unfold vm. apply log_sends_contact. }
  clearbody vm.
  exists v3, cs, (clock w1), email, (CertificateRequest.Id r1).
  cbn [RegisterReply.Id RegisterReply.Pkcs12Password].
  split; [reflexivity |]. split; [exact Hemail |].
  split; [rewrite Hf; cbn [vasps with_vasps]; apply lookup_insert_eq |].
  assert (Hrec : sans_contacts v3
                 = registered_record env req (VASP.Id v3) (clock w1) email
                     (CertificateRequest.Id r1)).
  { rewrite Hv3. rewrite Hv1 in Hvm. destruct vm.
    unfold sans_contacts, VASP.with_Contacts in Hvm. cbn in Hvm.
    injection Hvm as -> -> -> -> -> -> -> -> -> -> -> -> -> -> -> -> -> ->.
    reflexivity. }
  split; [exact Hrec |].
  split.
  { pose proof (f_equal VASP.RegisteredDirectory Hrec) as Hd.
    pose proof (f_equal VASP.CommonName Hrec) as Hn.
    pose proof (f_equal VASP.VerificationStatus Hrec) as Hs.
    cbn in Hd, Hn, Hs. rewrite Hd, Hn, Hs. reflexivity. }
  intros k. rewrite Hcm. destruct (Hcontacts k) as [Hout Hin].
  rewrite Hv1 in Hout, Hin.
  assert (Hk : VASP.contact k
                 (VASP.with_Id id
                    (VASP.with_status SUBMITTED
                       (VASP.AuditLog
                          (VASP.with_Contacts (Some (nil_zero_contacts cs))
                             (VASP.with_CommonName (effective_common_name req)
                                vasp0))
                        ++ [audit (clock w1)
                              (VASP.VerificationStatus
                                 (VASP.with_Contacts
                                    (Some (nil_zero_contacts cs))
                                    (VASP.with_CommonName
                                       (effective_common_name req) vasp0)))
                              SUBMITTED "register request recevied" email])%list
                       (VASP.with_Contacts (Some (nil_zero_contacts cs))
                          (VASP.with_CommonName (effective_common_name req)
                             vasp0))))
               = nil_if_zero (Contacts.get k cs))
    by (destruct k; reflexivity).
  rewrite Hk in Hout, Hin.
  match type of Hout with
  | ?x ∉ ?l -> _ => set (kinds := l) in *
  end.
  assert (Hkinds : k ∈ kinds
                   <-> exists c, nil_if_zero (Contacts.get k cs) = Some c
                                 /\ Contact.Email c <> "").
  { unfold kinds. rewrite NewContactIterator_email, Hk. reflexivity. }
  destruct (nil_if_zero (Contacts.get k cs)) as [c |] eqn:Hc.
  - destruct (string_dec (Contact.Email c) "") as [He | He].
    + rewrite Hout.
      * eexists. split; [reflexivity |].
        unfold registered_contact. cbn.
        split; [reflexivity |]. split; [reflexivity |].
        split; [reflexivity |].
        split; [intros Hne; contradiction | intros _; split; reflexivity].
      * intros Hin'. apply Hkinds in Hin' as (c' & [= <-] & Hne).
        contradiction.
    + destruct Hin as (c' & token & [= <-] & Hlen & ->);
        [apply Hkinds; eauto |].
      eexists. split; [reflexivity |].
      unfold registered_contact. cbn.
      split; [reflexivity |]. split; [reflexivity |].
      split; [reflexivity |].
      split; [intros _; split; [exact Hlen | reflexivity]
             | intros Hz; contradiction].
  - rewrite Hout; [reflexivity |].
    intros Hin'. apply Hkinds in Hin' as (c' & Hc' & _). discriminate.
Qed.

End Registered.

(** ** When Register succeeds *)







Section Succeeding.

Variable env : Env.


End Succeeding.

(** ** Registration, lookup and verification together *)

Lemma registered_record_fields env req id now email request v :
  sans_contacts v = registered_record env req id now email request ->
  VASP.Id v = id
  /\ VASP.RegisteredDirectory v = DirectoryID env
  /\ VASP.Entity v = RegisterRequest.Entity req
  /\ VASP.IdentityCertificate v = None
  /\ VASP.SigningCertificates v = []
  /\ VASP.CommonName v = effective_common_name req
  /\ VASP.TrisaEndpoint v = RegisterRequest.TrisaEndpoint req
  /\ VASP.VerificationStatus v = SUBMITTED
  /\ VASP.VerifiedOn v = "".
Proof.
  destruct v. unfold sans_contacts, registered_record, VASP.with_Contacts.
  cbn. intros H. injection H as -> -> -> -> -> -> -> -> -> -> -> -> -> -> -> -> -> ->.
  repeat split; reflexivity.
Qed.

(** X18. What a successful Register leaves in the directory, under the id of
    its reply: the record built from the request, with the registered
    directory of the service, the common name supplied or else the host of
    the endpoint, version 1, the status SUBMITTED with the one audit entry
    NO_VERIFICATION -> SUBMITTED and the one certificate request. Zero-valued
    contacts are dropped; every other contact keeps its payload, with a
    verification token of 48 bytes and no verification when it has an email
    address. The reply repeats id, directory, common name and status. *)
Theorem Register_stores_record
    (env : Env) (req : RegisterRequest.t) (w w' : World)
    (reply : RegisterReply.t)
    (Hok : Register env req w = (Ok reply, w')) :
  exists vasp cs now email request,
    RegisterRequest.Contacts req = Some cs
    /\ email <> ""
    /\ vasps w' !! RegisterReply.Id reply = Some vasp
    /\ sans_contacts vasp
       = registered_record env req (RegisterReply.Id reply) now email request
    /\ reply = RegisterReply.mk (RegisterReply.Id reply) (DirectoryID env)
                 (effective_common_name req) SUBMITTED registered_message
                 (RegisterReply.Pkcs12Password reply)
    /\ forall k,
         match nil_if_zero (Contacts.get k cs) with
         | None => VASP.contact k vasp = None
         | Some c =>
             exists c', VASP.contact k vasp = Some c' /\ registered_contact c c'
         end.
Proof. exact (Register_Ok_record env req w reply w' Hok). Qed.

Lemma Register_stores_record_witness :
  exists vasp cs now email request,
    RegisterRequest.Contacts Sample.request = Some cs
    /\ email <> ""
    /\ vasps Sample.registered !! "id-0123" = Some vasp
    /\ sans_contacts vasp
       = registered_record Sample.env Sample.request "id-0123" now email
           request
    /\ RegisterReply.mk "id-0123" "trisatest.net" "trisa.example.com"
         SUBMITTED registered_message "AHOV29gnuBIPW3ah"
       = RegisterReply.mk "id-0123" (DirectoryID Sample.env)
           (effective_common_name Sample.request) SUBMITTED registered_message
           "AHOV29gnuBIPW3ah"
    /\ forall k,
         match nil_if_zero (Contacts.get k cs) with
         | None => VASP.contact k vasp = None
         | Some c =>
             exists c', VASP.contact k vasp = Some c' /\ registered_contact c c'
         end.
Proof.
  assert (H : Register Sample.env Sample.request Sample.empty
              = (Ok (RegisterReply.mk "id-0123" "trisatest.net"
                       "trisa.example.com" SUBMITTED registered_message
                       "AHOV29gnuBIPW3ah"),
                 Sample.registered))
    by (vm_compute; reflexivity).
  exact (Register_stores_record Sample.env Sample.request Sample.empty
           Sample.registered _ H).
Defined.



(** X20. A VASP that has been registered can be looked up at once: Lookup
    by the id of the reply returns the registered directory, the common name
    and the endpoint of the registration, the name and the country of the
    entity, and no certificate yet. *)
Theorem Register_then_Lookup
    (env : Env) (req : RegisterRequest.t) (w w' : World)
    (reply : RegisterReply.t) (entity : LegalPerson.t) (d cn : string)
    (Hok : Register env req w = (Ok reply, w'))
    (Hid : RegisterReply.Id reply <> "")
    (Hentity : RegisterRequest.Entity req = Some entity)
    (Hfault : fault env LookupRetrieveVASP = false) :
  Lookup env (LookupRequest.mk (RegisterReply.Id reply) d cn) w'
  = (Ok (LookupReply.mk (RegisterReply.Id reply) (DirectoryID env)
           (effective_common_name req) (RegisterRequest.TrisaEndpoint req)
           None None (LegalPerson.Name entity)
           (LegalPerson.CountryOfRegistration entity) ""),
     w').
Proof.
  apply Register_Ok_record in Hok
    as (vasp & cs & now & email & request & _ & _ & Hstored & Hrec & _).
  apply registered_record_fields in Hrec
    as (H1 & H2 & H3 & H4 & H5 & H6 & H7 & _ & H9).
  apply is_empty_false in Hid.
  unfold Lookup. cbn [LookupRequest.Id]. rewrite Hid. cbn [negb].
  unfold bind, try, RetrieveVASP. rewrite Hfault, Hstored.
  rewrite H3, Hentity, H1, H2, H4, H5, H6, H7, H9. reflexivity.
Qed.

Lemma Register_then_Lookup_witness :
  Lookup Sample.env (LookupRequest.mk "id-0123" "" "") Sample.registered
  = (Ok (LookupReply.mk "id-0123" (DirectoryID Sample.env)
           (effective_common_name Sample.request)
           (RegisterRequest.TrisaEndpoint Sample.request)
           None None "Acme" "US" ""),
     Sample.registered).
Proof.
  assert (H1 : Register Sample.env Sample.request Sample.empty
               = (Ok (RegisterReply.mk "id-0123" "trisatest.net"
                        "trisa.example.com" SUBMITTED registered_message
                        "AHOV29gnuBIPW3ah"),
                  Sample.registered))
    by (vm_compute; reflexivity).
  assert (H2 : "id-0123" <> "") by discriminate.
  assert (H3 : RegisterRequest.Entity Sample.request
               = Some (LegalPerson.mk "Acme" "US")) by reflexivity.
  assert (H4 : fault Sample.env LookupRetrieveVASP = false) by reflexivity.
  exact (Register_then_Lookup Sample.env Sample.request Sample.empty
           Sample.registered _ (LegalPerson.mk "Acme" "US") "" "" H1 H2 H3 H4).
Defined.

(** X21. The token Register gives to a contact opens the review: when no
    call fails, VerifyContact with the id of the reply and the token of any
    contact that has an email address succeeds, answers PENDING_REVIEW and
    asks the courier for one review request. *)
Theorem Register_then_VerifyContact
    (env : Env) (req : RegisterRequest.t) (w w' : World)
    (reply : RegisterReply.t) (vasp : VASP.t) (k : ContactKind)
    (c : Contact.t)
    (Hfaults : forall s, fault env s = false)
    (Hok : Register env req w = (Ok reply, w'))
    (Hstored : vasps w' !! RegisterReply.Id reply = Some vasp)
    (Hcontact : VASP.contact k vasp = Some c)
    (Hemail : Contact.Email c <> "") :
  exists reply2 w2 mail,
    VerifyContact env
      (VerifyContactRequest.mk (RegisterReply.Id reply) (Contact.Token c)) w'
    = (Ok reply2, w2)
    /\ VerifyContactReply.Status reply2 = PENDING_REVIEW
    /\ outbox w2 = (outbox w' ++ [mail])%list
    /\ mail_template mail = ReviewRequestEmail
    /\ mail_vasp mail = RegisterReply.Id reply.
Proof.
  apply Register_Ok_record in Hok
    as (vasp' & cs & now & email & request & _ & _ & Hstored' & Hrec & _
        & Hcs).
  rewrite Hstored in Hstored'. injection Hstored' as <-.
  apply registered_record_fields in Hrec
    as (Hid & _ & _ & _ & _ & _ & _ & Hstatus & _).
  assert (Htoken : Contact.Token c <> "").
  { specialize (Hcs k). rewrite Hcontact in Hcs.
    destruct (nil_if_zero (Contacts.get k cs)) as [c0 |]; [| discriminate].
    destruct Hcs as (c' & [= <-] & _ & He & _ & Htok & _).
    rewrite He in Hemail. destruct (Htok Hemail) as [Hlen _].
    intros Hz. rewrite Hz in Hlen. discriminate. }
  set (vreq := VerifyContactRequest.mk (RegisterReply.Id reply)
                 (Contact.Token c)).
  assert (Hmatch : exists k c0,
             VASP.contact k vasp = Some c0
             /\ Contact.Token c0 = VerifyContactRequest.Token vreq)
    by (exists k, c; auto).
  destruct (VerifyContact_total env vreq w' vasp Hfaults Htoken Hstored Hmatch)
    as (reply2 & w2 & Hok2).
  destruct (VerifyContact_Ok env vreq w' reply2 w2 vasp Hstored Hid Hok2)
    as (_ & _ & vasp1 & entries & _ & _ & _ & _ & Hcases).
  rewrite Hstatus in Hcases.
  destruct Hcases as [(Hbefore & _)
                     | (_ & -> & _ & _ & mail & e1 & e2 & o & Hout & Htpl
                        & Hmid & _)].
  - apply andb_true_iff in Hbefore as [_ Hlt]. discriminate Hlt.
  - eexists _, w2, mail. split; [exact Hok2 |]. auto.
Qed.

Lemma Register_then_VerifyContact_witness :
  exists reply2 w2 mail,
    VerifyContact Sample.env
      (VerifyContactRequest.mk "id-0123" Sample.ada_token) Sample.registered
    = (Ok reply2, w2)
    /\ VerifyContactReply.Status reply2 = PENDING_REVIEW
    /\ outbox w2 = (outbox Sample.registered ++ [mail])%list
    /\ mail_template mail = ReviewRequestEmail
    /\ mail_vasp mail = "id-0123".
Proof.
  assert (H1 : forall s, fault Sample.env s = false) by (intros s; reflexivity).
  assert (H2 : Register Sample.env Sample.request Sample.empty
               = (Ok (RegisterReply.mk "id-0123" "trisatest.net"
                        "trisa.example.com" SUBMITTED registered_message
                        "AHOV29gnuBIPW3ah"),
                  Sample.registered))
    by (vm_compute; reflexivity).
  assert (H3 : vasps Sample.registered !! "id-0123" = Some Sample.submitted)
    by (vm_compute; reflexivity).
  assert (H4 : VASP.contact legal Sample.submitted
               = Some (Contact.mk "Ada" "a@x.io" "" Sample.ada_token false []))
    by (vm_compute; reflexivity).
  assert (H5 : Contact.Email
                 (Contact.mk "Ada" "a@x.io" "" Sample.ada_token false [])
               <> "") by (vm_compute; discriminate).
  exact (Register_then_VerifyContact Sample.env Sample.request Sample.empty
           Sample.registered _ Sample.submitted legal _ H1 H2 H3 H4 H5).
Defined.

(** ** Endpoints and common names *)

Section Exclusive.

#[local] Arguments String.append !s1 s2 : simpl nomatch.

Lemma all_bytes_impl (p q : ascii -> bool) s :
  (forall c, p c = true -> q c = true) ->
  all_bytes p s = true -> all_bytes q s = true.
Proof.
  intros Hpq. induction s as [| c s IH]; [reflexivity |].
  cbn [all_bytes]. intros H. apply andb_true_iff in H as [Hc Hs].
  rewrite (Hpq c Hc), (IH Hs). reflexivity.
Qed.

Lemma all_bytes_contains p s c :
  all_bytes p s = true -> p c = false -> Net.contains s c = false.
Proof.
  intros Hall Hc. induction s as [| d s IH]; [reflexivity |].
  cbn [all_bytes] in Hall. apply andb_true_iff in Hall as [Hd Hs].
  rewrite contains_cons, (IH Hs), orb_false_r.
  apply Ascii.eqb_neq. intros ->. congruence.
Qed.

Lemma is_label_bytes l :
  is_label l = true -> all_bytes is_alnum_dash l = true.
Proof.
  destruct l as [| c rest]; [discriminate |]. unfold is_label. intros H.
  apply andb_true_iff in H as [H _]. apply andb_true_iff in H as [_ H].
  exact H.
Qed.

Lemma dotted_bytes labels :
  forallb is_label labels = true ->
  all_bytes (fun c => is_alnum_dash c || Ascii.eqb c ".") (dotted labels)
  = true.
Proof.
  induction labels as [| l labels IH]; [reflexivity |].
  cbn [forallb dotted]. intros H. apply andb_true_iff in H as [Hl Hrest].
  change ("." ++ l ++ dotted labels) with (String "." (l ++ dotted labels)).
  cbn [all_bytes]. rewrite all_bytes_append, (IH Hrest), andb_true_r.
  rewrite orb_true_r. cbn [andb].
  apply (all_bytes_impl is_alnum_dash); [| apply is_label_bytes, Hl].
  intros c Hc. rewrite Hc. reflexivity.
Qed.

Lemma common_name_bytes name :
  ValidateCommonName name = None ->
  all_bytes (fun c => is_alnum_dash c || Ascii.eqb c ".") name = true.
Proof.
  intros H. apply accepts_labels in H as (l & labels & -> & Hall).
  cbn [forallb] in Hall. apply andb_true_iff in Hall as [Hl Hrest].
  rewrite concat_dotted, all_bytes_append, (dotted_bytes _ Hrest), andb_true_r.
  apply (all_bytes_impl is_alnum_dash); [| apply is_label_bytes, Hl].
  intros c Hc. rewrite Hc. reflexivity.
Qed.

(** X22. No string is both an endpoint and a common name: what
    validateEndpoint accepts holds a colon, and what ValidateCommonName
    accepts holds letters, digits, hyphens and dots only. A common name with
    a port is refused, as the comment of ValidateCommonName asks. *)
Theorem endpoint_is_no_common_name (s : string) :
  validateEndpoint s = None -> ValidateCommonName s <> None.
Proof.
  intros He Hn. apply common_name_bytes in Hn.
  apply (all_bytes_contains _ _ ":"%char) in Hn; [| reflexivity].
  apply last_none in Hn. unfold validateEndpoint, Net.SplitHostPort in He.
  rewrite Hn in He. discriminate He.
Qed.

End Exclusive.

Lemma endpoint_is_no_common_name_witness :
  ValidateCommonName "trisa.example.com:443" <> None.
Proof.
  assert (H : validateEndpoint "trisa.example.com:443" = None)
    by (vm_compute; reflexivity).
  exact (endpoint_is_no_common_name "trisa.example.com:443" H).
Defined.

(** ** A token that nobody holds *)

(** X23. VerifyContact with a token that no contact of the VASP holds is
    answered NOT_FOUND and writes nothing, whether the VASP exists or not,
    as long as the contacts' verification data can be read. *)
Theorem VerifyContact_unknown_token
    (env : Env) (req : VerifyContactRequest.t) (w : World)
    (Htoken : VerifyContactRequest.Token req <> "")
    (Hread : forall k, fault env (VerifyGetContactVerification k) = false)
    (Hnone : forall vasp k c,
       vasps w !! VerifyContactRequest.Id req = Some vasp ->
       VASP.contact k vasp = Some c ->
       Contact.Token c <> VerifyContactRequest.Token req) :
  exists msg, VerifyContact env req w = (Error NotFound msg, w).
Proof. exact (VerifyContact_NotFound env req w Htoken Hread Hnone). Qed.

Lemma VerifyContact_unknown_token_witness :
  exists msg,
    VerifyContact Sample.env (VerifyContactRequest.mk "id-0123" "guess")
      Sample.registered
    = (Error NotFound msg, Sample.registered).
Proof.
  assert (H1 : VerifyContactRequest.Token
                 (VerifyContactRequest.mk "id-0123" "guess") <> "")
    by (vm_compute; discriminate).
  assert (H2 : forall k,
            fault Sample.env (VerifyGetContactVerification k) = false)
    by (intros k; reflexivity).
  assert (H3 : forall vasp k c,
            vasps Sample.registered
            !! VerifyContactRequest.Id
                 (VerifyContactRequest.mk "id-0123" "guess") = Some vasp ->
            VASP.contact k vasp = Some c ->
            Contact.Token c
            <> VerifyContactRequest.Token
                 (VerifyContactRequest.mk "id-0123" "guess")).
  { intros vasp k c Hv. vm_compute in Hv. injection Hv as <-.
    destruct k; vm_compute; intros Hc; try discriminate Hc.
    injection Hc as <-. discriminate. }
  exact (VerifyContact_unknown_token Sample.env _ Sample.registered H1 H2 H3).
Defined.

(** ** Registering twice *)

Section Twice.

Variable env : Env.

Lemma common_name_taken_stored (m : gmap string VASP.t) id v :
  m !! id = Some v -> common_name_taken m (VASP.CommonName v) = true.
Proof.
  intros H. unfold common_name_taken. apply existsb_exists. exists (id, v).
  split; [apply list_elem_of_In, elem_of_map_to_list, H |].
  apply String.eqb_refl.
Qed.

Lemma Register_again req w reply w' :
  Register env req w = (Ok reply, w') ->
  exists w'',
    Register env req w'
    = (Error AlreadyExists
         "could not complete registration, uniqueness constraints violated",
       w'')
    /\ same_stores w' w''.
Proof.
  intros Hok.
  pose proof (Register_Ok_record _ _ _ _ _ Hok)
    as (vasp & cs & now & email & request & _ & _ & Hstored & Hrec & _).
  apply registered_record_fields in Hrec
    as (_ & _ & _ & _ & _ & Hcn & _).
  pose proof (common_name_taken_stored _ _ _ Hstored) as Htaken.
  rewrite Hcn in Htaken. unfold effective_common_name in Htaken.
  clear Hstored Hcn vasp cs now email request.
  revert Hok. unfold Register.
  destruct (GoString.is_empty (RegisterRequest.TrisaEndpoint req));
    [discriminate |].
  destruct (validateEndpoint (RegisterRequest.TrisaEndpoint req));
    [discriminate |].
  cbn [VASP.CommonName].
  destruct (GoString.is_empty (RegisterRequest.CommonName req)).
  1: destruct (Net.SplitHostPort (RegisterRequest.TrisaEndpoint req))
       as [e | [host port]]; [discriminate |].
  2: destruct (ValidateCommonName (RegisterRequest.CommonName req));
       [discriminate |].
  all: intros Hok; unfold bind at 1 in Hok; cbn [ret] in Hok.
  all: unfold bind at 1 in Hok.
  all: unfold bind at 1; cbn [ret]; unfold bind at 1.
  all: match goal with
       | |- context [Validate env ?v] => destruct (Validate env v)
       end.
  all: try discriminate Hok.
  all: cbn [ret VASP.Contacts VASP.with_CommonName] in Hok |- *.
  all: destruct (RegisterRequest.Contacts req) as [contacts |];
         [| discriminate Hok].
  all: match goal with
       | |- context [GoString.is_empty (getContactEmail ?v)] =>
           destruct (GoString.is_empty (getContactEmail v))
       end; [discriminate Hok |].
  all: unfold bind at 1, try at 1, UpdateVerificationStatus in Hok.
  all: unfold bind at 1, try at 1, UpdateVerificationStatus.
  all: destruct (fault env RegUpdateVerificationStatus); [discriminate Hok |].
  all: clear Hok; cbn [time_Now].
  all: unfold bind at 1, try at 1, CreateVASP.
  all: destruct (fault env RegCreateVASP);
         [eexists; split; [reflexivity | repeat split] |].
  all: cbn [VASP.CommonName VASP.with_status VASP.with_Contacts
              VASP.with_CommonName vasps with_clock].
  all: rewrite Htaken.
  all: eexists; split; [reflexivity | repeat split].
Qed.

(** X24. A registration cannot be repeated: after a successful Register the
    same request is refused with ALREADY_EXISTS, the common name being
    taken by the record of the first call, and the directory, the
    certificate requests, the vault and the outbox stay as the first call
    left them. *)
Theorem Register_twice (req : RegisterRequest.t) (w w' : World)
    (reply : RegisterReply.t) :
  Register env req w = (Ok reply, w') ->
  exists w'',
    Register env req w'
    = (Error AlreadyExists
         "could not complete registration, uniqueness constraints violated",
       w'')
    /\ same_stores w' w''.
Proof. apply Register_again. Qed.

End Twice.

Lemma Register_twice_witness :
  exists w'',
    Register Sample.env Sample.request Sample.registered
    = (Error AlreadyExists
         "could not complete registration, uniqueness constraints violated",
       w'')
    /\ same_stores Sample.registered w''.
Proof.
  assert (H : Register Sample.env Sample.request Sample.empty
              = (Ok (RegisterReply.mk "id-0123" "trisatest.net"
                       "trisa.example.com" SUBMITTED registered_message
                       "AHOV29gnuBIPW3ah"),
                 Sample.registered))
    by (vm_compute; reflexivity).
  exact (Register_twice Sample.env Sample.request Sample.empty
           Sample.registered _ H).
Defined.

(** ** A registration that breaks off *)

Section BreakingOff.

Variable env : Env.




End BreakingOff.


(** ** A verification that breaks off *)

Section Stalling.

Variable env : Env.

Lemma scan_contacts_runs token kinds : forall st w,
  (forall k, fault env (VerifyGetContactVerification k) = false) ->
  (forall k, fault env (VerifySetContactVerification k) = false) ->
  (forall k, fault env (VerifyAuditContact k) = false) ->
  (forall k, k ∈ kinds -> is_Some (VASP.contact k (scan_vasp st))) ->
  exists st' w', scan_contacts env token kinds st w = (Ok st', w').
Proof.
  induction kinds as [| k rest IH]; intros st w Hget Hset Haudit Hall.
  - eexists _, _. reflexivity.
  - destruct (Hall k) as [c Hc]; [apply list_elem_of_here |].
    assert (Hrest : forall k', k' ∈ rest ->
                      is_Some (VASP.contact k' (scan_vasp st)))
      by (intros k' Hk'; apply Hall, list_elem_of_further, Hk').
    cbn [scan_contacts]. unfold bind at 1, try at 1, GetContactVerification.
    rewrite Hget, Hc. cbn [fst snd].
    destruct (String.eqb (Contact.Token c) token).
    + unfold bind at 1, try at 1, SetContactVerification.
      rewrite Hset, Hc.
      unfold bind at 1, try at 1, UpdateVerificationStatus.
      rewrite Haudit. cbn [time_Now].
      apply IH; [exact Hget | exact Hset | exact Haudit |].
      cbn [scan_vasp]. intros k' Hk'.
      rewrite contact_with_status.
      destruct (decide (k = k')) as [<- | Hne].
      * rewrite contact_set_contact_eq; [eauto | rewrite Hc; eauto].
      * rewrite contact_set_contact_ne by exact Hne. apply Hrest, Hk'.
    + destruct (Contact.Verified c); apply IH; auto.
Qed.

Lemma VerifyContact_breaks_off req w vasp :
  (forall s, s <> VerifyUpdateVASPPendingReview -> fault env s = false) ->
  fault env VerifyUpdateVASPPendingReview = true ->
  VerifyContactRequest.Token req <> "" ->
  vasps w !! VerifyContactRequest.Id req = Some vasp ->
  VASP.Id vasp = VerifyContactRequest.Id req ->
  VASP.VerificationStatus vasp = SUBMITTED ->
  (exists k c, VASP.contact k vasp = Some c
               /\ Contact.Token c = VerifyContactRequest.Token req) ->
  exists w' vasp1 mail,
    VerifyContact env req w = (Error Internal review_problem, w')
    /\ vasps w' !! VerifyContactRequest.Id req = Some vasp1
    /\ VASP.VerificationStatus vasp1 = EMAIL_VERIFIED
    /\ outbox w' = (outbox w ++ [mail])%list
    /\ mail_template mail = ReviewRequestEmail
    /\ forall k, VASP.contact k vasp1
                 = verify_contact (VerifyContactRequest.Token req)
                     <$> VASP.contact k vasp.
Proof.
  intros Hfaults Hbroken Htok Hstored Hkey Hstatus (k & c & Hc & Ht).
  apply is_empty_false in Htok.
  destruct (scan_contacts_runs (VerifyContactRequest.Token req)
              (all_contacts vasp) (mkScan vasp 0 false "") w)
    as (st & w2 & Hscan).
  1-3: intros k0; apply Hfaults; discriminate.
  { intros k' Hk'. apply NewContactIterator_all, Hk'. }
  pose proof Hscan as Hrun.
  apply scan_contacts_Ok in Hscan
    as (Hcore & Hcontacts & (entries & Hlog & Hall & Hw2 & _) & Hfound & Hprev);
    [| apply NewContactIterator_NoDup].
  cbn [scan_vasp found prevVerified] in *. rewrite orb_false_l in Hfound.
  pose proof (verified_everywhere _ _ _ Hcontacts) as Hverified.
  destruct (core_fields _ _ Hcore) as (HId & HSt & _).
  assert (Hex : existsb (slot_matches (VerifyContactRequest.Token req) vasp)
                  (all_contacts vasp) = true).
  { apply existsb_exists. exists k. split.
    - apply list_elem_of_In, NewContactIterator_all. rewrite Hc. eauto.
    - unfold slot_matches, has_token. rewrite Hc. apply String.eqb_eq, Ht. }
  rewrite Hex in Hfound.
  unfold VerifyContact. rewrite Htok.
  unfold bind at 1, try at 1, RetrieveVASP.
  rewrite Hfaults by discriminate. rewrite Hstored.
  fold (all_contacts vasp). unfold bind at 1. rewrite Hrun, Hfound.
  cbn [negb]. rewrite HSt, Hstatus.
  replace (Nat.ltb 0 (prevVerified st)
           && Nat.ltb (state_number SUBMITTED) (state_number SUBMITTED))
    with false by (rewrite andb_comm; reflexivity).
  unfold bind at 1, try at 1, UpdateVerificationStatus.
  rewrite Hfaults by discriminate. cbn [time_Now].
  unfold bind at 1, CreateToken at 1, lift at 1.
  unfold bind at 1, try at 1, SetAdminVerificationToken.
  rewrite Hfaults by discriminate.
  unfold bind at 1, try at 1, UpdateVASP.
  rewrite Hfaults by discriminate.
  unfold bind at 1, lift at 1, SendReviewRequest, send. cbn [fst snd].
  unfold bind at 1, try at 1, UpdateVerificationStatus.
  rewrite Hfaults by discriminate. cbn [time_Now].
  unfold bind at 1, try at 1, UpdateVASP. rewrite Hbroken.
  eexists _, _, _. split; [reflexivity |].
  cbn [vasps outbox with_vasps with_clock with_outbox with_entropy VASP.Id
       VASP.with_status VASP.with_AdminVerificationToken].
  rewrite HId, Hkey.
  split; [apply lookup_insert_eq |]. split; [reflexivity |].
  split; [rewrite Hw2; reflexivity |]. split; [reflexivity |].
  intros k0. rewrite contact_with_AdminVerificationToken, contact_with_status.
  apply Hverified.
Qed.

(** X26. VerifyContact is not atomic. When the last write of a first
    verification fails, every other step succeeding, VerifyContact answers
    INTERNAL, but the VASP has been stored in EMAIL_VERIFIED with the
    contact verified and the review request has gone to the courier; the
    token is spent, so the same call tried again is answered NOT_FOUND and
    the VASP stays in EMAIL_VERIFIED. *)
Theorem VerifyContact_not_atomic
    (req : VerifyContactRequest.t) (w : World) (vasp : VASP.t)
    (Hfaults : forall s, s <> VerifyUpdateVASPPendingReview ->
                         fault env s = false)
    (Hbroken : fault env VerifyUpdateVASPPendingReview = true)
    (Htoken : VerifyContactRequest.Token req <> "")
    (Hstored : vasps w !! VerifyContactRequest.Id req = Some vasp)
    (Hkey : VASP.Id vasp = VerifyContactRequest.Id req)
    (Hsubmitted : VASP.VerificationStatus vasp = SUBMITTED)
    (Hmatch : exists k c, VASP.contact k vasp = Some c
                          /\ Contact.Token c = VerifyContactRequest.Token req) :
  exists w' vasp1 mail msg,
    VerifyContact env req w = (Error Internal review_problem, w')
    /\ vasps w' !! VerifyContactRequest.Id req = Some vasp1
    /\ VASP.VerificationStatus vasp1 = EMAIL_VERIFIED
    /\ outbox w' = (outbox w ++ [mail])%list
    /\ mail_template mail = ReviewRequestEmail
    /\ VerifyContact env req w' = (Error NotFound msg, w').
Proof.
  destruct (VerifyContact_breaks_off req w vasp Hfaults Hbroken Htoken Hstored
              Hkey Hsubmitted Hmatch)
    as (w' & vasp1 & mail & Hrun & Hstored' & Hst & Hout & Htpl & Hcontacts).
  destruct (VerifyContact_NotFound env req w' Htoken) as [msg Hagain].
  { intros k. apply Hfaults. discriminate. }
  { intros v k c Hv Hc. rewrite Hstored' in Hv. injection Hv as <-.
    rewrite Hcontacts in Hc.
    destruct (VASP.contact k vasp) as [c0 |]; [| discriminate].
    injection Hc as <-. apply verify_contact_clears, Htoken. }
  exists w', vasp1, mail, msg. auto 10.
Qed.

End Stalling.

Lemma VerifyContact_not_atomic_witness :
  exists w' vasp1 mail msg,
    VerifyContact Stall.env Sample.verify_ada Sample.registered
    = (Error Internal review_problem, w')
    /\ vasps w' !! VerifyContactRequest.Id Sample.verify_ada = Some vasp1
    /\ VASP.VerificationStatus vasp1 = EMAIL_VERIFIED
    /\ outbox w' = (outbox Sample.registered ++ [mail])%list
    /\ mail_template mail = ReviewRequestEmail
    /\ VerifyContact Stall.env Sample.verify_ada w' = (Error NotFound msg, w').
Proof.
  assert (H0 : forall s, s <> VerifyUpdateVASPPendingReview ->
                         fault Stall.env s = false)
    by (intros s Hs; destruct s; try reflexivity; contradiction).
  assert (H1 : fault Stall.env VerifyUpdateVASPPendingReview = true)
    by reflexivity.
  assert (H2 : VerifyContactRequest.Token Sample.verify_ada <> "")
    by (vm_compute; discriminate).
  assert (H3 : vasps Sample.registered
               !! VerifyContactRequest.Id Sample.verify_ada
               = Some Sample.submitted)
    by (vm_compute; reflexivity).
  assert (H4 : VASP.Id Sample.submitted
               = VerifyContactRequest.Id Sample.verify_ada)
    by (vm_compute; reflexivity).
  assert (H5 : VASP.VerificationStatus Sample.submitted = SUBMITTED)
    by (vm_compute; reflexivity).
  assert (H6 : exists k c, VASP.contact k Sample.submitted = Some c
                 /\ Contact.Token c
                    = VerifyContactRequest.Token Sample.verify_ada).
  { exists legal. eexists. split; vm_compute; reflexivity. }
  exact (VerifyContact_not_atomic Stall.env Sample.verify_ada
           Sample.registered Sample.submitted H0 H1 H2 H3 H4 H5 H6).
Defined.
